(** * RPL control plane of whitefield_2: ICMPv6 codec, handlers, MRHOF and OF0

    A shallow embedding of [src/rpl/rpl-icmp6.c] (ICMPv6 input and output of
    the RPL control messages together with the MRHOF objective function that
    this repository keeps in the same file) and of [src/rpl/rpl-of0.c]
    (objective function zero), followed by the properties of the
    specification that were checked against them.

    Conventions.
    - Unsigned C integers are [Z] values; every store into a narrower type
      is written out with [uint8], [uint16] or [uint32].  [int] is 32 bits
      wide (the code base runs natively on Linux) and the intermediate
      [int] results that occur stay far from its limits.
    - Pointers are [option nat]: [NULL] or a handle into the table that
      owns the object.  A function that dereferences a pointer returns
      [None] when the pointer is [NULL] or dangling.
    - The ICMPv6 payload is the list of octets that starts at
      [UIP_ICMP_PAYLOAD] and runs to the end of [uip_buf]; the length taken
      from [uip_len] is carried next to it, so octets behind the received
      payload can be read exactly as the C code reads them.
    - Calls that leave the two source files and return nothing the caller
      uses are recorded, in order, in the [trace] of the node. *)

From stdpp Require Import gmap list.

Local Open Scope Z_scope.

(** ** Integer conversions *)

Definition uint8 (x : Z) : Z := x mod 2 ^ 8.
Definition uint16 (x : Z) : Z := x mod 2 ^ 16.
Definition uint32 (x : Z) : Z := x mod 2 ^ 32.

(** C truth value of an integer used as a condition. *)
Definition truthy (x : Z) : bool := negb (x =? 0).

(** ** Memory *)

Definition ptr := option nat.
Abbreviation NULL := (@None nat).

(** [uip_ipaddr_t]: sixteen raw octets. *)
Definition uip_ipaddr_t := list Z.

Definition uip_ipaddr_cmp (a b : uip_ipaddr_t) : bool := bool_decide (a = b).

(** [buffer[i]] *)
Definition rd (buffer : list Z) (i : Z) : Z :=
  if i <? 0 then 0 else nth (Z.to_nat i) buffer 0.

(** The [n] octets at [buffer + i], as [memcpy] reads them. *)
Definition rd_bytes (buffer : list Z) (i : Z) (n : nat) : list Z :=
  map (fun k => rd buffer (i + Z.of_nat k)) (seq 0 n).

(** [memset(&a, 0, 16); memcpy(&a, src, n)] on a 16-octet address object,
    for [n <= 16]: the octets copied, then zeros.  For [n > 16] the C code
    writes behind the object, which C leaves undefined, and the value
    below (the sixteen octets that land in the object) says nothing about
    the locals behind it.  The properties of the handlers are therefore
    stated for messages whose target options declare at most 128 bits
    ([dao_fits], [dco_fits]). *)
Definition ipaddr_of_bytes (src : list Z) : uip_ipaddr_t :=
  take 16 (src ++ repeat 0 16).

(** ** Data model *)

(** [struct rpl_metric_container]; the members of the union [obj] are kept
    side by side. *)
Record rpl_metric_container_t := {
  mc_type : Z;
  mc_flags : Z;
  mc_aggr : Z;
  mc_prec : Z;
  mc_length : Z;
  mc_obj_etx : Z;
  mc_obj_energy_flags : Z;
  mc_obj_energy_est : Z
}.

Record rpl_prefix_t := {
  pfx_prefix : uip_ipaddr_t;
  pfx_lifetime : Z;
  pfx_length : Z;
  pfx_flags : Z
}.

(** [rpl_of_t], as far as the handlers look into it: the objective code
    point and whether the optional [dao_ack_callback] is set. *)
Record rpl_of_t := {
  of_ocp : Z;
  of_dao_ack_callback : bool
}.

Record rpl_instance_t := {
  i_instance_id : Z;
  i_used : Z;
  i_mop : Z;
  i_of : rpl_of_t;
  i_current_dag : ptr;
  i_mc : rpl_metric_container_t;
  i_dtsn_out : Z;
  i_dio_intdoubl : Z;
  i_dio_intmin : Z;
  i_dio_redundancy : Z;
  i_max_rankinc : Z;
  i_min_hoprankinc : Z;
  i_default_lifetime : Z;
  i_lifetime_unit : Z;
  i_my_dao_seqno : Z;
  i_my_dao_transmissions : Z;
  i_has_downward_route : Z
}.

Record rpl_dag_t := {
  d_dag_id : uip_ipaddr_t;
  d_version : Z;
  d_grounded : Z;
  d_preference : Z;
  d_joined : Z;
  d_preferred_parent : ptr;
  d_rank : Z;
  d_instance : ptr;
  d_prefix_info : rpl_prefix_t
}.

Record rpl_parent_t := {
  p_dag : ptr;
  p_rank : Z;
  p_link_metric : Z;
  p_flags : Z;
  p_mc : rpl_metric_container_t
}.

(** Modelled from the spec: the observed fields of a route entry (section 3,
    "Route entry"); [rpl-private.h], which declares the entry state and the
    [RPL_ROUTE_*] accessors of its two bits, is not part of the sources. *)
Record rpl_route_entry_t := {
  rs_lifetime : Z;
  rs_dao_seqno_in : Z;
  rs_dao_seqno_out : Z;
  rs_dao_path_sequence : Z;
  rs_dao_pending : bool;
  rs_nopath_received : bool
}.

Record uip_ds6_route_t := {
  r_ipaddr : uip_ipaddr_t;
  r_length : Z;
  r_nexthop : option uip_ipaddr_t;
  r_state : rpl_route_entry_t
}.

Record uip_mcast6_route_t := {
  mr_group : uip_ipaddr_t;
  mr_dag : ptr;
  mr_lifetime : Z
}.

Inductive addr_state := ADDR_TENTATIVE | ADDR_PREFERRED | ADDR_DEPRECATED.

Record uip_ds6_addr_t := {
  a_isused : Z;
  a_ipaddr : uip_ipaddr_t;
  a_state : addr_state
}.

Record link_stats := { etx : Z }.

(** [rpl_dio_t], the typed DIO handed to [rpl_process_dio]. *)
Record rpl_dio_t := {
  dio_dag_id : uip_ipaddr_t;
  dio_ocp : Z;
  dio_rank : Z;
  dio_grounded : Z;
  dio_mop : Z;
  dio_preference : Z;
  dio_version : Z;
  dio_instance_id : Z;
  dio_dtsn : Z;
  dio_dag_intdoubl : Z;
  dio_dag_intmin : Z;
  dio_dag_redund : Z;
  dio_default_lifetime : Z;
  dio_lifetime_unit : Z;
  dio_dag_max_rankinc : Z;
  dio_dag_min_hoprankinc : Z;
  dio_destination_prefix : rpl_prefix_t;
  dio_prefix_info : rpl_prefix_t;
  dio_mc : rpl_metric_container_t
}.

(** The counters of [rpl_stats] that the two files touch. *)
Inductive rpl_stat :=
| mem_overflows | malformed_msgs
| dio_recvd | dio_sent_m | dio_sent_u
| dao_recvd | dao_sent | dao_forwarded
| npdao_recvd | npdao_sent | npdao_forwarded
| dco_recvd | dco_sent | dco_forwarded | dco_ignored.

Global Instance rpl_stat_eq_dec : EqDecision rpl_stat.
Proof. solve_decision. Defined.

(** Calls that leave the two files. *)
Inductive event :=
| uip_icmp6_send (dest : uip_ipaddr_t) (type code : Z) (payload : list Z)
| rpl_process_dio (from : uip_ipaddr_t) (dio : rpl_dio_t)
| of_update_metric_container (instance : nat)
| dao_ack_callback (parent : ptr) (status : Z)
| rpl_local_repair (instance : nat)
| ctimer_set_dao_retransmit (instance : nat) (delay : Z) (parent : ptr)
| rpl_reset_dio_timer (instance : nat)
| link_stats_packet_sent (parent : ptr) (numtx : Z)
| rpl_ns_expire_parent (dag : ptr) (child parent : uip_ipaddr_t).

Record node := {
  instance_table : gmap nat rpl_instance_t;
  dag_table : gmap nat rpl_dag_t;
  parent_table : gmap nat rpl_parent_t;
  routes : gmap nat uip_ds6_route_t;
  mcast_routes : gmap nat uip_mcast6_route_t;
  nbr_cache : list uip_ipaddr_t;
  addr_list : list uip_ds6_addr_t;
  dao_sequence : Z;
  dco_sequence : Z;
  path_sequence : Z;
  mcast_group : ptr;
  rpl_stats : rpl_stat -> Z;
  trace : list event
}.

(** A received ICMPv6 message: the addresses of [UIP_IP_BUF], the octets
    from [UIP_ICMP_PAYLOAD] on, and [uip_len - uip_l3_icmp_hdr_len]. *)
Record icmp6_input := {
  srcipaddr : uip_ipaddr_t;
  destipaddr : uip_ipaddr_t;
  payload : list Z;
  payload_len : Z
}.

(** ** Field updates *)

Definition with_routes (f : gmap nat uip_ds6_route_t -> gmap nat uip_ds6_route_t)
    (st : node) : node :=
  {| instance_table := instance_table st; dag_table := dag_table st;
     parent_table := parent_table st; routes := f (routes st);
     mcast_routes := mcast_routes st; nbr_cache := nbr_cache st;
     addr_list := addr_list st; dao_sequence := dao_sequence st;
     dco_sequence := dco_sequence st; path_sequence := path_sequence st;
     mcast_group := mcast_group st; rpl_stats := rpl_stats st;
     trace := trace st |}.

Definition with_parent_table (f : gmap nat rpl_parent_t -> gmap nat rpl_parent_t)
    (st : node) : node :=
  {| instance_table := instance_table st; dag_table := dag_table st;
     parent_table := f (parent_table st); routes := routes st;
     mcast_routes := mcast_routes st; nbr_cache := nbr_cache st;
     addr_list := addr_list st; dao_sequence := dao_sequence st;
     dco_sequence := dco_sequence st; path_sequence := path_sequence st;
     mcast_group := mcast_group st; rpl_stats := rpl_stats st;
     trace := trace st |}.

Definition with_instance_table
    (f : gmap nat rpl_instance_t -> gmap nat rpl_instance_t) (st : node) : node :=
  {| instance_table := f (instance_table st); dag_table := dag_table st;
     parent_table := parent_table st; routes := routes st;
     mcast_routes := mcast_routes st; nbr_cache := nbr_cache st;
     addr_list := addr_list st; dao_sequence := dao_sequence st;
     dco_sequence := dco_sequence st; path_sequence := path_sequence st;
     mcast_group := mcast_group st; rpl_stats := rpl_stats st;
     trace := trace st |}.

Definition with_mcast_routes
    (f : gmap nat uip_mcast6_route_t -> gmap nat uip_mcast6_route_t)
    (st : node) : node :=
  {| instance_table := instance_table st; dag_table := dag_table st;
     parent_table := parent_table st; routes := routes st;
     mcast_routes := f (mcast_routes st); nbr_cache := nbr_cache st;
     addr_list := addr_list st; dao_sequence := dao_sequence st;
     dco_sequence := dco_sequence st; path_sequence := path_sequence st;
     mcast_group := mcast_group st; rpl_stats := rpl_stats st;
     trace := trace st |}.

Definition with_mcast_group (g : ptr) (st : node) : node :=
  {| instance_table := instance_table st; dag_table := dag_table st;
     parent_table := parent_table st; routes := routes st;
     mcast_routes := mcast_routes st; nbr_cache := nbr_cache st;
     addr_list := addr_list st; dao_sequence := dao_sequence st;
     dco_sequence := dco_sequence st; path_sequence := path_sequence st;
     mcast_group := g; rpl_stats := rpl_stats st;
     trace := trace st |}.

Definition with_nbr_cache (c : list uip_ipaddr_t) (st : node) : node :=
  {| instance_table := instance_table st; dag_table := dag_table st;
     parent_table := parent_table st; routes := routes st;
     mcast_routes := mcast_routes st; nbr_cache := c;
     addr_list := addr_list st; dao_sequence := dao_sequence st;
     dco_sequence := dco_sequence st; path_sequence := path_sequence st;
     mcast_group := mcast_group st; rpl_stats := rpl_stats st;
     trace := trace st |}.

Definition with_dao_sequence (v : Z) (st : node) : node :=
  {| instance_table := instance_table st; dag_table := dag_table st;
     parent_table := parent_table st; routes := routes st;
     mcast_routes := mcast_routes st; nbr_cache := nbr_cache st;
     addr_list := addr_list st; dao_sequence := v;
     dco_sequence := dco_sequence st; path_sequence := path_sequence st;
     mcast_group := mcast_group st; rpl_stats := rpl_stats st;
     trace := trace st |}.

Definition with_dco_sequence (v : Z) (st : node) : node :=
  {| instance_table := instance_table st; dag_table := dag_table st;
     parent_table := parent_table st; routes := routes st;
     mcast_routes := mcast_routes st; nbr_cache := nbr_cache st;
     addr_list := addr_list st; dao_sequence := dao_sequence st;
     dco_sequence := v; path_sequence := path_sequence st;
     mcast_group := mcast_group st; rpl_stats := rpl_stats st;
     trace := trace st |}.

Definition with_rpl_stats (f : (rpl_stat -> Z) -> rpl_stat -> Z) (st : node) : node :=
  {| instance_table := instance_table st; dag_table := dag_table st;
     parent_table := parent_table st; routes := routes st;
     mcast_routes := mcast_routes st; nbr_cache := nbr_cache st;
     addr_list := addr_list st; dao_sequence := dao_sequence st;
     dco_sequence := dco_sequence st; path_sequence := path_sequence st;
     mcast_group := mcast_group st; rpl_stats := f (rpl_stats st);
     trace := trace st |}.

Definition with_trace (f : list event -> list event) (st : node) : node :=
  {| instance_table := instance_table st; dag_table := dag_table st;
     parent_table := parent_table st; routes := routes st;
     mcast_routes := mcast_routes st; nbr_cache := nbr_cache st;
     addr_list := addr_list st; dao_sequence := dao_sequence st;
     dco_sequence := dco_sequence st; path_sequence := path_sequence st;
     mcast_group := mcast_group st; rpl_stats := rpl_stats st;
     trace := f (trace st) |}.

(** [RPL_STAT(rpl_stats.c++)] and [RPL_STAT(rpl_stats.c--)] *)
Definition stat_add (c : rpl_stat) (d : Z) (f : rpl_stat -> Z) : rpl_stat -> Z :=
  fun c' => if decide (c = c') then f c' + d else f c'.

Definition RPL_STAT_inc (c : rpl_stat) : node -> node := with_rpl_stats (stat_add c 1).
Definition RPL_STAT_dec (c : rpl_stat) : node -> node := with_rpl_stats (stat_add c (-1)).

(** An external call with no result the caller uses. *)
Definition call (e : event) : node -> node := with_trace (fun t => t ++ [e]).

Definition set_state (s : rpl_route_entry_t) (r : uip_ds6_route_t) : uip_ds6_route_t :=
  {| r_ipaddr := r_ipaddr r; r_length := r_length r; r_nexthop := r_nexthop r;
     r_state := s |}.

Definition set_lifetime (v : Z) (s : rpl_route_entry_t) : rpl_route_entry_t :=
  {| rs_lifetime := v; rs_dao_seqno_in := rs_dao_seqno_in s;
     rs_dao_seqno_out := rs_dao_seqno_out s;
     rs_dao_path_sequence := rs_dao_path_sequence s;
     rs_dao_pending := rs_dao_pending s;
     rs_nopath_received := rs_nopath_received s |}.

Definition set_nopath_received (b : bool) (s : rpl_route_entry_t) : rpl_route_entry_t :=
  {| rs_lifetime := rs_lifetime s; rs_dao_seqno_in := rs_dao_seqno_in s;
     rs_dao_seqno_out := rs_dao_seqno_out s;
     rs_dao_path_sequence := rs_dao_path_sequence s;
     rs_dao_pending := rs_dao_pending s;
     rs_nopath_received := b |}.

Definition set_dao_path_sequence (v : Z) (s : rpl_route_entry_t) : rpl_route_entry_t :=
  {| rs_lifetime := rs_lifetime s; rs_dao_seqno_in := rs_dao_seqno_in s;
     rs_dao_seqno_out := rs_dao_seqno_out s;
     rs_dao_path_sequence := v;
     rs_dao_pending := rs_dao_pending s;
     rs_nopath_received := rs_nopath_received s |}.

(** [state.dao_seqno_in = i; state.dao_seqno_out = o; RPL_ROUTE_SET_DAO_PENDING] *)
Definition set_dao_fwd (i o : Z) (s : rpl_route_entry_t) : rpl_route_entry_t :=
  {| rs_lifetime := rs_lifetime s; rs_dao_seqno_in := i;
     rs_dao_seqno_out := o;
     rs_dao_path_sequence := rs_dao_path_sequence s;
     rs_dao_pending := true;
     rs_nopath_received := rs_nopath_received s |}.

(** [parent->rank = r; parent->flags |= f] *)
Definition set_rank_flag (r f : Z) (p : rpl_parent_t) : rpl_parent_t :=
  {| p_dag := p_dag p; p_rank := r; p_link_metric := p_link_metric p;
     p_flags := Z.lor (p_flags p) f; p_mc := p_mc p |}.

Definition set_link_metric (v : Z) (p : rpl_parent_t) : rpl_parent_t :=
  {| p_dag := p_dag p; p_rank := p_rank p; p_link_metric := v;
     p_flags := p_flags p; p_mc := p_mc p |}.

Definition set_i_mc (m : rpl_metric_container_t) (i : rpl_instance_t) : rpl_instance_t :=
  {| i_instance_id := i_instance_id i; i_used := i_used i; i_mop := i_mop i;
     i_of := i_of i; i_current_dag := i_current_dag i; i_mc := m;
     i_dtsn_out := i_dtsn_out i; i_dio_intdoubl := i_dio_intdoubl i;
     i_dio_intmin := i_dio_intmin i; i_dio_redundancy := i_dio_redundancy i;
     i_max_rankinc := i_max_rankinc i; i_min_hoprankinc := i_min_hoprankinc i;
     i_default_lifetime := i_default_lifetime i;
     i_lifetime_unit := i_lifetime_unit i; i_my_dao_seqno := i_my_dao_seqno i;
     i_my_dao_transmissions := i_my_dao_transmissions i;
     i_has_downward_route := i_has_downward_route i |}.

Definition set_i_dtsn_out (v : Z) (i : rpl_instance_t) : rpl_instance_t :=
  {| i_instance_id := i_instance_id i; i_used := i_used i; i_mop := i_mop i;
     i_of := i_of i; i_current_dag := i_current_dag i; i_mc := i_mc i;
     i_dtsn_out := v; i_dio_intdoubl := i_dio_intdoubl i;
     i_dio_intmin := i_dio_intmin i; i_dio_redundancy := i_dio_redundancy i;
     i_max_rankinc := i_max_rankinc i; i_min_hoprankinc := i_min_hoprankinc i;
     i_default_lifetime := i_default_lifetime i;
     i_lifetime_unit := i_lifetime_unit i; i_my_dao_seqno := i_my_dao_seqno i;
     i_my_dao_transmissions := i_my_dao_transmissions i;
     i_has_downward_route := i_has_downward_route i |}.

(** [instance->my_dao_seqno = s; instance->my_dao_transmissions = n] *)
Definition set_i_my_dao (s n : Z) (i : rpl_instance_t) : rpl_instance_t :=
  {| i_instance_id := i_instance_id i; i_used := i_used i; i_mop := i_mop i;
     i_of := i_of i; i_current_dag := i_current_dag i; i_mc := i_mc i;
     i_dtsn_out := i_dtsn_out i; i_dio_intdoubl := i_dio_intdoubl i;
     i_dio_intmin := i_dio_intmin i; i_dio_redundancy := i_dio_redundancy i;
     i_max_rankinc := i_max_rankinc i; i_min_hoprankinc := i_min_hoprankinc i;
     i_default_lifetime := i_default_lifetime i;
     i_lifetime_unit := i_lifetime_unit i; i_my_dao_seqno := s;
     i_my_dao_transmissions := n;
     i_has_downward_route := i_has_downward_route i |}.

Definition set_i_has_downward_route (v : Z) (i : rpl_instance_t) : rpl_instance_t :=
  {| i_instance_id := i_instance_id i; i_used := i_used i; i_mop := i_mop i;
     i_of := i_of i; i_current_dag := i_current_dag i; i_mc := i_mc i;
     i_dtsn_out := i_dtsn_out i; i_dio_intdoubl := i_dio_intdoubl i;
     i_dio_intmin := i_dio_intmin i; i_dio_redundancy := i_dio_redundancy i;
     i_max_rankinc := i_max_rankinc i; i_min_hoprankinc := i_min_hoprankinc i;
     i_default_lifetime := i_default_lifetime i;
     i_lifetime_unit := i_lifetime_unit i; i_my_dao_seqno := i_my_dao_seqno i;
     i_my_dao_transmissions := i_my_dao_transmissions i;
     i_has_downward_route := v |}.

Definition set_mcast_dag_lifetime (d : ptr) (l : Z) (m : uip_mcast6_route_t)
    : uip_mcast6_route_t :=
  {| mr_group := mr_group m; mr_dag := d; mr_lifetime := l |}.

(** ** Build configuration and collaborators *)

(** The three settings of [RPL_DAG_MC] that compile. *)
Inductive dag_mc := DAG_MC_NONE | DAG_MC_ETX | DAG_MC_ENERGY.

(** Preprocessor switches, constants and macros that the two files take
    from headers outside the sources ([rpl-conf.h], [rpl-private.h],
    [rpl.h], [uip.h], [link-stats.h]). *)
Class rpl_conf := {
  RPL_WITH_STORING : bool;
  RPL_WITH_NON_STORING : bool;
  RPL_WITH_DCO : bool;
  RPL_WITH_DAO_ACK : bool;
  RPL_WITH_DCO_ACK : bool;
  RPL_WITH_MULTICAST : bool;
  RPL_LEAF_ONLY : bool;
  RPL_DAO_SPECIFY_DAG : bool;
  RPL_DIO_REFRESH_DAO_ROUTES : bool;
  RPL_DAG_MC : dag_mc;
  RPL_DAG_MC_NONE : Z;
  RPL_DAG_MC_ETX : Z;
  RPL_DAG_MC_ENERGY : Z;
  RPL_DAG_MC_FLAG_P : Z;
  RPL_DAG_MC_AGGR_ADDITIVE : Z;
  RPL_DAG_MC_ENERGY_TYPE : Z;
  RPL_DAG_MC_ENERGY_TYPE_MAINS : Z;
  RPL_DAG_MC_ENERGY_TYPE_BATTERY : Z;
  RPL_DAG_MC_ETX_DIVISOR : Z;
  LINK_STATS_ETX_DIVISOR : Z;
  RPL_INIT_LINK_METRIC : Z;
  INFINITE_RANK : Z;
  RPL_MIN_HOPRANKINC : Z;
  RPL_MAX_RANKINC : Z;
  RPL_DIO_INTERVAL_DOUBLINGS : Z;
  RPL_DIO_INTERVAL_MIN : Z;
  RPL_DIO_REDUNDANCY : Z;
  RPL_OF_OCP : Z;
  RPL_DEFAULT_LIFETIME : Z;
  RPL_DEFAULT_LIFETIME_UNIT : Z;
  RPL_NOPATH_REMOVAL_DELAY : Z;
  RPL_DAO_MAX_RETRANSMISSIONS : Z;
  RPL_DAO_RETRANSMISSION_TIMEOUT : Z;
  RPL_DAO_ACK_UNABLE_TO_ACCEPT : Z;
  RPL_DAO_ACK_UNABLE_TO_ADD_ROUTE_AT_ROOT : Z;
  RPL_DAO_ACK_TIMEOUT : Z;
  RPL_PARENT_FLAG_UPDATED : Z;
  RPL_MOP_NON_STORING : Z;
  RPL_IS_STORING : rpl_instance_t -> bool;
  RPL_IS_NON_STORING : rpl_instance_t -> bool;
  RPL_LOLLIPOP_INCREMENT : Z -> Z;
  ROOT_RANK : rpl_instance_t -> Z;
  RPL_LIFETIME : rpl_instance_t -> Z -> Z;
  uip_is_addr_mcast : uip_ipaddr_t -> bool;
  uip_is_addr_mcast_global : uip_ipaddr_t -> bool;
  uip_is_addr_linklocal : uip_ipaddr_t -> bool;
  uip_is_addr_unspecified : uip_ipaddr_t -> bool;
  linklocal_rplnodes_mcast : uip_ipaddr_t
}.

(** Functions of the IPv6 stack, the route and neighbour tables, the DAG
    module and the link statistics that the two files call and whose result
    they use. *)
Class rpl_ext := {
  rpl_get_instance : gmap nat rpl_instance_t -> Z -> ptr;
  rpl_find_parent : gmap nat rpl_parent_t -> ptr -> uip_ipaddr_t -> ptr;
  rpl_get_parent_ipaddr : ptr -> option uip_ipaddr_t;
  rpl_get_parent_link_stats : node -> ptr -> option link_stats;
  rpl_mode_is_feather : node -> bool;
  uip_ds6_route_lookup : gmap nat uip_ds6_route_t -> uip_ipaddr_t -> ptr;
  uip_ds6_nbr_lookup : list uip_ipaddr_t -> uip_ipaddr_t -> bool;
  uip_ds6_nbr_add : list uip_ipaddr_t -> uip_ipaddr_t -> option (list uip_ipaddr_t);
  rpl_add_route : gmap nat uip_ds6_route_t -> ptr -> uip_ipaddr_t -> Z ->
                  uip_ipaddr_t -> ptr * gmap nat uip_ds6_route_t;
  uip_mcast6_route_add : gmap nat uip_mcast6_route_t -> uip_ipaddr_t ->
                         ptr * gmap nat uip_mcast6_route_t;
  rpl_ns_update_node : node -> ptr -> uip_ipaddr_t -> uip_ipaddr_t -> Z -> option node;
  lollipop_greater_than : Z -> Z -> bool;
  update_metric_container_of : rpl_of_t -> nat -> node -> option node;
  random_rand : node -> Z
}.

(** Modelled from the spec: numeric codes that sections 4.1, 6 and the
    glossary give and that the sources take from [rpl-private.h]. *)
Definition RPL_OPTION_PAD1 : Z := 0.
Definition RPL_OPTION_DAG_METRIC_CONTAINER : Z := 2.
Definition RPL_OPTION_ROUTE_INFO : Z := 3.
Definition RPL_OPTION_DAG_CONF : Z := 4.
Definition RPL_OPTION_TARGET : Z := 5.
Definition RPL_OPTION_TRANSIT : Z := 6.
Definition RPL_OPTION_PREFIX_INFO : Z := 8.
Definition RPL_DAO_K_FLAG : Z := 0x80.
Definition RPL_DAO_D_FLAG : Z := 0x40.
Definition ICMP6_RPL : Z := 155.
Definition RPL_CODE_DIS : Z := 0x00.
Definition RPL_CODE_DIO : Z := 0x01.
Definition RPL_CODE_DAO : Z := 0x02.
Definition RPL_CODE_DAO_ACK : Z := 0x03.
Definition RPL_CODE_DCO : Z := 0x04.
Definition RPL_CODE_DCO_ACK : Z := 0x05.
Definition RPL_ZERO_LIFETIME : Z := 0.
Definition RPL_DAO_ACK_UNCONDITIONAL_ACCEPT : Z := 0.

(** Modelled from the spec: [DAG_RANK(r) = r / min_hoprankinc] (glossary);
    the macro is declared in [rpl-private.h]. *)
Definition DAG_RANK (fixpt : Z) (instance : rpl_instance_t) : Z :=
  fixpt / i_min_hoprankinc instance.

Definition CHAR_BIT : Z := 8.

(** Constants of [rpl-icmp6.c]. *)
Definition RPL_DIO_GROUNDED : Z := 0x80.
Definition RPL_DIO_MOP_SHIFT : Z := 3.
Definition RPL_DIO_MOP_MASK : Z := 0x38.
Definition RPL_DIO_PREFERENCE_MASK : Z := 0x07.

(** ** MRHOF, the objective function [rpl_mrhof] of [rpl-icmp6.c] *)

Module rpl_mrhof.
Section with_conf.
Context {cfg : rpl_conf}.

Definition ETX_SCALE : Z := 100.
Definition ETX_ALPHA : Z := 90.
Definition MAX_LINK_METRIC : Z := 10.
Definition MAX_PATH_COST : Z := 100.
Definition PARENT_SWITCH_THRESHOLD_DIV : Z := 2.

(** The value of the wire code of the configured metric container. *)
Definition RPL_DAG_MC_code : Z :=
  match RPL_DAG_MC with
  | DAG_MC_NONE => RPL_DAG_MC_NONE
  | DAG_MC_ETX => RPL_DAG_MC_ETX
  | DAG_MC_ENERGY => RPL_DAG_MC_ENERGY
  end.

(** [rpl_path_metric_t] is [uint16_t]. *)
Definition calculate_path_metric (st : node) (p : ptr) : option Z :=
  match p with
  | None => Some (uint16 (MAX_PATH_COST * RPL_DAG_MC_ETX_DIVISOR))
  | Some a =>
      P ← parent_table st !! a;
      Some (uint16
        match RPL_DAG_MC with
        | DAG_MC_NONE => p_rank P + uint16 (p_link_metric P)
        | DAG_MC_ETX => mc_obj_etx (p_mc P) + uint16 (p_link_metric P)
        | DAG_MC_ENERGY => mc_obj_energy_est (p_mc P) + uint16 (p_link_metric P)
        end)
  end.

Definition reset (sag : ptr) (st : node) : node := st.

Inductive mac_tx_status := MAC_TX_OK | MAC_TX_COLLISION | MAC_TX_NOACK
                         | MAC_TX_DEFERRED | MAC_TX_ERR | MAC_TX_ERR_FATAL.

Definition neighbor_link_callback (p : nat) (status : mac_tx_status) (numtx : Z)
    (st : node) : option node :=
  P ← parent_table st !! p;
  let recorded_etx := uint16 (p_link_metric P) in
  let packet_etx := uint16 (numtx * RPL_DAG_MC_ETX_DIVISOR) in
  match status with
  | MAC_TX_OK | MAC_TX_NOACK =>
      let packet_etx :=
        match status with
        | MAC_TX_NOACK => uint16 (MAX_LINK_METRIC * RPL_DAG_MC_ETX_DIVISOR)
        | _ => packet_etx
        end in
      let new_etx :=
        uint16 (uint32 (uint32 (recorded_etx * ETX_ALPHA) +
                        uint32 (packet_etx * uint32 (ETX_SCALE - ETX_ALPHA)))
                / ETX_SCALE) in
      Some (with_parent_table <[p := set_link_metric new_etx P]> st)
  | _ => Some st
  end.

(** [rpl_rank_t] is [uint16_t]. *)
Definition calculate_rank (st : node) (p : ptr) (base_rank : Z) : option Z :=
  match p with
  | None =>
      if base_rank =? 0 then Some INFINITE_RANK
      else
        let rank_increase := uint16 (RPL_INIT_LINK_METRIC * RPL_DAG_MC_ETX_DIVISOR) in
        Some (if INFINITE_RANK - base_rank <? rank_increase then INFINITE_RANK
              else uint16 (base_rank + rank_increase))
  | Some a =>
      P ← parent_table st !! a;
      let rank_increase := uint16 (p_link_metric P) in
      let base_rank := if base_rank =? 0 then p_rank P else base_rank in
      Some (if INFINITE_RANK - base_rank <? rank_increase then INFINITE_RANK
            else uint16 (base_rank + rank_increase))
  end.

Definition best_dag (st : node) (d1 d2 : ptr) : option ptr :=
  a1 ← d1; D1 ← dag_table st !! a1;
  a2 ← d2; D2 ← dag_table st !! a2;
  if negb (d_grounded D1 =? d_grounded D2) then
    Some (if truthy (d_grounded D1) then d1 else d2)
  else if negb (d_preference D1 =? d_preference D2) then
    Some (if d_preference D1 >? d_preference D2 then d1 else d2)
  else
    Some (if d_rank D1 <? d_rank D2 then d1 else d2).

Definition best_parent (st : node) (p1 p2 : ptr) : option ptr :=
  a1 ← p1;
  P1 ← parent_table st !! a1;
  let dag := p_dag P1 in
  let min_diff := uint16 (RPL_DAG_MC_ETX_DIVISOR / PARENT_SWITCH_THRESHOLD_DIV) in
  p1_metric ← calculate_path_metric st p1;
  p2_metric ← calculate_path_metric st p2;
  d ← dag;
  D ← dag_table st !! d;
  if (bool_decide (p1 = d_preferred_parent D) ||
      bool_decide (p2 = d_preferred_parent D)) &&
     ((p1_metric <? p2_metric + min_diff) &&
      (p1_metric >? p2_metric - min_diff))
  then Some (d_preferred_parent D)
  else Some (if p1_metric <? p2_metric then p1 else p2).

(** The variant compiled for [RPL_DAG_MC == RPL_DAG_MC_NONE] sets the type
    only; the other one fills the container from the preferred parent. *)
Definition update_metric_container (i : nat) (st : node) : option node :=
  I ← instance_table st !! i;
  match RPL_DAG_MC with
  | DAG_MC_NONE =>
      let m := i_mc I in
      let m' := {| mc_type := uint8 RPL_DAG_MC_code; mc_flags := mc_flags m;
                   mc_aggr := mc_aggr m; mc_prec := mc_prec m;
                   mc_length := mc_length m; mc_obj_etx := mc_obj_etx m;
                   mc_obj_energy_flags := mc_obj_energy_flags m;
                   mc_obj_energy_est := mc_obj_energy_est m |} in
      Some (with_instance_table <[i := set_i_mc m' I]> st)
  | _ =>
      let m := i_mc I in
      let m1 := {| mc_type := uint8 RPL_DAG_MC_code;
                   mc_flags := uint8 RPL_DAG_MC_FLAG_P;
                   mc_aggr := uint8 RPL_DAG_MC_AGGR_ADDITIVE; mc_prec := 0;
                   mc_length := mc_length m; mc_obj_etx := mc_obj_etx m;
                   mc_obj_energy_flags := mc_obj_energy_flags m;
                   mc_obj_energy_est := mc_obj_energy_est m |} in
      let st1 := with_instance_table <[i := set_i_mc m1 I]> st in
      d ← i_current_dag I;
      D ← dag_table st !! d;
      if negb (truthy (d_joined D)) then Some st1
      else
        path_metric ←
          (if d_rank D =? ROOT_RANK I then Some 0
           else calculate_path_metric st (d_preferred_parent D));
        let m2 :=
          match RPL_DAG_MC with
          | DAG_MC_ENERGY =>
              let type := uint8 (if d_rank D =? ROOT_RANK I
                                 then RPL_DAG_MC_ENERGY_TYPE_MAINS
                                 else RPL_DAG_MC_ENERGY_TYPE_BATTERY) in
              {| mc_type := mc_type m1; mc_flags := mc_flags m1;
                 mc_aggr := mc_aggr m1; mc_prec := mc_prec m1;
                 mc_length := 2; mc_obj_etx := mc_obj_etx m1;
                 mc_obj_energy_flags :=
                   uint8 (Z.shiftl type RPL_DAG_MC_ENERGY_TYPE);
                 mc_obj_energy_est := uint8 path_metric |}
          | _ =>
              {| mc_type := mc_type m1; mc_flags := mc_flags m1;
                 mc_aggr := mc_aggr m1; mc_prec := mc_prec m1;
                 mc_length := 2; mc_obj_etx := path_metric;
                 mc_obj_energy_flags := mc_obj_energy_flags m1;
                 mc_obj_energy_est := mc_obj_energy_est m1 |}
          end in
        Some (with_instance_table <[i := set_i_mc m2 I]> st)
  end.

End with_conf.
End rpl_mrhof.

(** ** OF0, the objective function [rpl_of0] of [rpl-of0.c] *)

Module rpl_of0.
Section with_conf.
Context {cfg : rpl_conf} {env : rpl_ext}.

Definition MIN_DIFFERENCE : Z := RPL_MIN_HOPRANKINC + RPL_MIN_HOPRANKINC ÷ 2.

Definition RANK_STRETCH : Z := 0.
Definition RANK_FACTOR : Z := 1.
Definition MIN_STEP_OF_RANK : Z := 1.
Definition MAX_STEP_OF_RANK : Z := 9.

Definition reset (dag : ptr) (st : node) : node := st.

Definition dao_ack_callback (p : ptr) (status : Z) (st : node) : node :=
  if status =? RPL_DAO_ACK_UNABLE_TO_ADD_ROUTE_AT_ROOT then st
  else if status >=? RPL_DAO_ACK_UNABLE_TO_ACCEPT then
    call (link_stats_packet_sent p 10) st
  else if status =? RPL_DAO_ACK_TIMEOUT then
    call (link_stats_packet_sent p 10) st
  else st.

Definition parent_link_metric (st : node) (p : ptr) : Z :=
  match rpl_get_parent_link_stats st p with
  | Some stats => etx stats
  | None => 0xffff
  end.

(** [RPL_OF0_ETX_BASED_SR] is the constant 1 and [RPL_OF0_FIXED_SR] the
    constant 0, so the ETX based definition is the one compiled. *)
Definition STEP_OF_RANK (st : node) (p : ptr) : Z :=
  (3 * parent_link_metric st p) ÷ LINK_STATS_ETX_DIVISOR - 2.

Definition parent_rank_increase (st : node) (p : ptr) : option Z :=
  match p with
  | None => Some INFINITE_RANK
  | Some a =>
      P ← parent_table st !! a;
      match p_dag P with
      | None => Some INFINITE_RANK
      | Some d =>
          D ← dag_table st !! d;
          match d_instance D with
          | None => Some INFINITE_RANK
          | Some i =>
              I ← instance_table st !! i;
              let min_hoprankinc := uint16 (i_min_hoprankinc I) in
              Some (uint16 ((RANK_FACTOR * STEP_OF_RANK st p + RANK_STRETCH)
                            * min_hoprankinc))
          end
      end
  end.

Definition parent_path_cost (st : node) (p : ptr) : option Z :=
  match p with
  | None => Some 0xffff
  | Some a =>
      P ← parent_table st !! a;
      Some (uint16 (Z.min (uint32 (p_rank P + parent_link_metric st p)) 0xffff))
  end.

Definition rank_via_parent (st : node) (p : ptr) : option Z :=
  match p with
  | None => Some INFINITE_RANK
  | Some a =>
      P ← parent_table st !! a;
      inc ← parent_rank_increase st p;
      Some (uint16 (Z.min (uint32 (p_rank P + inc)) INFINITE_RANK))
  end.

Definition parent_is_acceptable (st : node) (p : ptr) : bool :=
  (STEP_OF_RANK st p >=? MIN_STEP_OF_RANK) &&
  (STEP_OF_RANK st p <=? MAX_STEP_OF_RANK).

Definition parent_has_usable_link (st : node) (p : ptr) : bool :=
  parent_is_acceptable st p.

(** [r1] and [r2] are [rpl_rank_t]; both use the instance of [p1]. *)
Definition best_parent (st : node) (p1 p2 : ptr) : option ptr :=
  a1 ← p1; P1 ← parent_table st !! a1;
  a2 ← p2; P2 ← parent_table st !! a2;
  d ← p_dag P1; D ← dag_table st !! d;
  i ← d_instance D; I ← instance_table st !! i;
  let r1 := uint16 (DAG_RANK (p_rank P1) I * RPL_MIN_HOPRANKINC + p_link_metric P1) in
  let r2 := uint16 (DAG_RANK (p_rank P2) I * RPL_MIN_HOPRANKINC + p_link_metric P2) in
  if (r1 <? r2 + MIN_DIFFERENCE) && (r1 >? r2 - MIN_DIFFERENCE) then
    Some (d_preferred_parent D)
  else if r1 <? r2 then Some p1
  else Some p2.

Definition best_dag (st : node) (d1 d2 : ptr) : option ptr :=
  a1 ← d1; D1 ← dag_table st !! a1;
  a2 ← d2; D2 ← dag_table st !! a2;
  if truthy (d_grounded D1) && negb (truthy (d_grounded D2)) then Some d1
  else if negb (truthy (d_grounded D1)) && truthy (d_grounded D2) then Some d2
  else if d_preference D1 <? d_preference D2 then Some d2
  else if d_preference D1 >? d_preference D2 then Some d1
  else if d_rank D2 <? d_rank D1 then Some d2
  else Some d1.

End with_conf.
End rpl_of0.

(** ** Wire codec of [rpl-icmp6.c] *)

Definition get32 (buffer : list Z) (pos : Z) : Z :=
  uint32 (Z.lor (Z.lor (Z.lor (uint32 (Z.shiftl (rd buffer pos) 24))
                              (uint32 (Z.shiftl (rd buffer (pos + 1)) 16)))
                       (uint32 (Z.shiftl (rd buffer (pos + 2)) 8)))
                (rd buffer (pos + 3))).

Definition get16 (buffer : list Z) (pos : Z) : Z :=
  uint16 (Z.lor (Z.shiftl (rd buffer pos) 8) (rd buffer (pos + 1))).

(** Outbound builders write [buffer[pos++] = b] from [pos = 0] on, so the
    octets [0 .. pos-1] of the payload are the octets written, in order:
    [put], [set16] and [set32] append to them and [pos] is their length. *)
Definition put (buffer : list Z) (b : Z) : list Z := buffer ++ [uint8 b].

Definition set32 (buffer : list Z) (value : Z) : list Z :=
  buffer ++ [uint8 (Z.shiftr value 24);
             uint8 (Z.land (Z.shiftr value 16) 0xff);
             uint8 (Z.land (Z.shiftr value 8) 0xff);
             uint8 (Z.land value 0xff)].

Definition set16 (buffer : list Z) (value : Z) : list Z :=
  buffer ++ [uint8 (Z.shiftr value 8); uint8 (Z.land value 0xff)].

(** [memcpy(buffer + pos, src, n); pos += n] *)
Definition put_bytes (buffer : list Z) (src : list Z) (n : nat) : list Z :=
  buffer ++ rd_bytes src 0 n.

(** [memcpy(&a, src, n)] on a 16-octet object that keeps its other octets. *)
Definition memcpy_ipaddr (a : uip_ipaddr_t) (src : list Z) : uip_ipaddr_t :=
  take 16 (src ++ drop (length src) a).

Section codec.
Context {cfg : rpl_conf} {env : rpl_ext}.

Definition get_global_addr (st : node) : option uip_ipaddr_t :=
  a ← List.find (fun a =>
         truthy (a_isused a) &&
         match a_state a with
         | ADDR_TENTATIVE | ADDR_PREFERRED => true
         | _ => false
         end &&
         negb (uip_is_addr_linklocal (a_ipaddr a))) (addr_list st);
  Some (a_ipaddr a).

(** *** DIO *)

Definition mc_zero : rpl_metric_container_t :=
  {| mc_type := 0; mc_flags := 0; mc_aggr := 0; mc_prec := 0; mc_length := 0;
     mc_obj_etx := 0; mc_obj_energy_flags := 0; mc_obj_energy_est := 0 |}.

Definition prefix_zero : rpl_prefix_t :=
  {| pfx_prefix := repeat 0 16; pfx_lifetime := 0; pfx_length := 0;
     pfx_flags := 0 |}.

(** Outcome of reading a DIO: the typed DIO, or [goto discard] with or
    without [malformed_msgs++]. *)
Inductive dio_parse :=
| dio_ok (dio : rpl_dio_t)
| dio_malformed
| dio_discard.

Definition set_dio_mc (m : rpl_metric_container_t) (dio : rpl_dio_t) : rpl_dio_t :=
  {| dio_dag_id := dio_dag_id dio; dio_ocp := dio_ocp dio;
     dio_rank := dio_rank dio; dio_grounded := dio_grounded dio;
     dio_mop := dio_mop dio; dio_preference := dio_preference dio;
     dio_version := dio_version dio; dio_instance_id := dio_instance_id dio;
     dio_dtsn := dio_dtsn dio; dio_dag_intdoubl := dio_dag_intdoubl dio;
     dio_dag_intmin := dio_dag_intmin dio; dio_dag_redund := dio_dag_redund dio;
     dio_default_lifetime := dio_default_lifetime dio;
     dio_lifetime_unit := dio_lifetime_unit dio;
     dio_dag_max_rankinc := dio_dag_max_rankinc dio;
     dio_dag_min_hoprankinc := dio_dag_min_hoprankinc dio;
     dio_destination_prefix := dio_destination_prefix dio;
     dio_prefix_info := dio_prefix_info dio; dio_mc := m |}.

Definition set_dio_destination_prefix (x : rpl_prefix_t) (dio : rpl_dio_t) : rpl_dio_t :=
  {| dio_dag_id := dio_dag_id dio; dio_ocp := dio_ocp dio;
     dio_rank := dio_rank dio; dio_grounded := dio_grounded dio;
     dio_mop := dio_mop dio; dio_preference := dio_preference dio;
     dio_version := dio_version dio; dio_instance_id := dio_instance_id dio;
     dio_dtsn := dio_dtsn dio; dio_dag_intdoubl := dio_dag_intdoubl dio;
     dio_dag_intmin := dio_dag_intmin dio; dio_dag_redund := dio_dag_redund dio;
     dio_default_lifetime := dio_default_lifetime dio;
     dio_lifetime_unit := dio_lifetime_unit dio;
     dio_dag_max_rankinc := dio_dag_max_rankinc dio;
     dio_dag_min_hoprankinc := dio_dag_min_hoprankinc dio;
     dio_destination_prefix := x;
     dio_prefix_info := dio_prefix_info dio; dio_mc := dio_mc dio |}.

Definition set_dio_prefix_info (x : rpl_prefix_t) (dio : rpl_dio_t) : rpl_dio_t :=
  {| dio_dag_id := dio_dag_id dio; dio_ocp := dio_ocp dio;
     dio_rank := dio_rank dio; dio_grounded := dio_grounded dio;
     dio_mop := dio_mop dio; dio_preference := dio_preference dio;
     dio_version := dio_version dio; dio_instance_id := dio_instance_id dio;
     dio_dtsn := dio_dtsn dio; dio_dag_intdoubl := dio_dag_intdoubl dio;
     dio_dag_intmin := dio_dag_intmin dio; dio_dag_redund := dio_dag_redund dio;
     dio_default_lifetime := dio_default_lifetime dio;
     dio_lifetime_unit := dio_lifetime_unit dio;
     dio_dag_max_rankinc := dio_dag_max_rankinc dio;
     dio_dag_min_hoprankinc := dio_dag_min_hoprankinc dio;
     dio_destination_prefix := dio_destination_prefix dio;
     dio_prefix_info := x; dio_mc := dio_mc dio |}.

(** The [RPL_OPTION_DAG_CONF] case. *)
Definition set_dio_dag_conf (buffer : list Z) (i : Z) (dio : rpl_dio_t) : rpl_dio_t :=
  {| dio_dag_id := dio_dag_id dio; dio_ocp := get16 buffer (i + 10);
     dio_rank := dio_rank dio; dio_grounded := dio_grounded dio;
     dio_mop := dio_mop dio; dio_preference := dio_preference dio;
     dio_version := dio_version dio; dio_instance_id := dio_instance_id dio;
     dio_dtsn := dio_dtsn dio; dio_dag_intdoubl := rd buffer (i + 3);
     dio_dag_intmin := rd buffer (i + 4); dio_dag_redund := rd buffer (i + 5);
     dio_default_lifetime := rd buffer (i + 13);
     dio_lifetime_unit := get16 buffer (i + 14);
     dio_dag_max_rankinc := get16 buffer (i + 6);
     dio_dag_min_hoprankinc := get16 buffer (i + 8);
     dio_destination_prefix := dio_destination_prefix dio;
     dio_prefix_info := dio_prefix_info dio; dio_mc := dio_mc dio |}.

(** The body of [switch(subopt_type)] in [dio_input]. *)
Definition dio_option (buffer : list Z) (i len subopt_type : Z) (dio : rpl_dio_t)
    : dio_parse :=
  if subopt_type =? RPL_OPTION_DAG_METRIC_CONTAINER then
    if len <? 6 then dio_malformed
    else
      let type := rd buffer (i + 2) in
      let flags := uint8 (Z.shiftl (rd buffer (i + 3)) 1) in
      let flags := uint8 (Z.lor flags (Z.shiftr (rd buffer (i + 4)) 7)) in
      let m := {| mc_type := type; mc_flags := flags;
                  mc_aggr := Z.land (Z.shiftr (rd buffer (i + 4)) 4) 0x3;
                  mc_prec := Z.land (rd buffer (i + 4)) 0xf;
                  mc_length := rd buffer (i + 5);
                  mc_obj_etx := mc_obj_etx (dio_mc dio);
                  mc_obj_energy_flags := mc_obj_energy_flags (dio_mc dio);
                  mc_obj_energy_est := mc_obj_energy_est (dio_mc dio) |} in
      if type =? RPL_DAG_MC_NONE then dio_ok (set_dio_mc m dio)
      else if type =? RPL_DAG_MC_ETX then
        dio_ok (set_dio_mc
          {| mc_type := mc_type m; mc_flags := mc_flags m; mc_aggr := mc_aggr m;
             mc_prec := mc_prec m; mc_length := mc_length m;
             mc_obj_etx := get16 buffer (i + 6);
             mc_obj_energy_flags := mc_obj_energy_flags m;
             mc_obj_energy_est := mc_obj_energy_est m |} dio)
      else if type =? RPL_DAG_MC_ENERGY then
        dio_ok (set_dio_mc
          {| mc_type := mc_type m; mc_flags := mc_flags m; mc_aggr := mc_aggr m;
             mc_prec := mc_prec m; mc_length := mc_length m;
             mc_obj_etx := mc_obj_etx m;
             mc_obj_energy_flags := rd buffer (i + 6);
             mc_obj_energy_est := rd buffer (i + 7) |} dio)
      else dio_discard
  else if subopt_type =? RPL_OPTION_ROUTE_INFO then
    if len <? 9 then dio_malformed
    else
      let length := rd buffer (i + 2) in
      if ((length + 7) ÷ 8 + 8 <=? len) && (length <=? 128) then
        dio_ok (set_dio_destination_prefix
          {| pfx_prefix :=
               memcpy_ipaddr (pfx_prefix (dio_destination_prefix dio))
                 (rd_bytes buffer (i + 8) (Z.to_nat ((length + 7) ÷ 8)));
             pfx_lifetime := get32 buffer (i + 4);
             pfx_length := length;
             pfx_flags := rd buffer (i + 3) |} dio)
      else dio_malformed
  else if subopt_type =? RPL_OPTION_DAG_CONF then
    if negb (len =? 16) then dio_malformed
    else dio_ok (set_dio_dag_conf buffer i dio)
  else if subopt_type =? RPL_OPTION_PREFIX_INFO then
    if negb (len =? 32) then dio_malformed
    else
      dio_ok (set_dio_prefix_info
        {| pfx_prefix := rd_bytes buffer (i + 16) 16;
           pfx_lifetime := get32 buffer (i + 8);
           pfx_length := rd buffer (i + 2);
           pfx_flags := rd buffer (i + 3) |} dio)
  else dio_ok dio.

(** Length of the option at [i]: one octet for [PAD1], else a two-octet
    header and the payload. *)
Definition subopt_len (buffer : list Z) (i : Z) : Z :=
  if rd buffer i =? RPL_OPTION_PAD1 then 1 else 2 + rd buffer (i + 1).

(** [for(; i < buffer_length; i += len)] of [dio_input]; [i] and [len] are
    [int].  [None]: the iterations allowed by [fuel] did not reach the end. *)
Fixpoint dio_options (fuel : nat) (buffer : list Z) (buffer_length i : Z)
    (dio : rpl_dio_t) : option dio_parse :=
  if i <? buffer_length then
    match fuel with
    | O => None
    | S fuel =>
        let subopt_type := rd buffer i in
        let len := subopt_len buffer i in
        if len + i >? buffer_length then Some dio_malformed
        else
          match dio_option buffer i len subopt_type dio with
          | dio_ok dio => dio_options fuel buffer buffer_length (i + len) dio
          | r => Some r
          end
    end
  else Some (dio_ok dio).

(** [dio_input] up to the options: defaults and the 24-octet base. *)
Definition dio_base (buffer : list Z) : rpl_dio_t :=
  {| dio_dag_id := rd_bytes buffer 8 16;
     dio_ocp := RPL_OF_OCP;
     dio_rank := get16 buffer 2;
     dio_grounded := Z.land (rd buffer 4) RPL_DIO_GROUNDED;
     dio_mop := Z.shiftr (Z.land (rd buffer 4) RPL_DIO_MOP_MASK) RPL_DIO_MOP_SHIFT;
     dio_preference := Z.land (rd buffer 4) RPL_DIO_PREFERENCE_MASK;
     dio_version := rd buffer 1;
     dio_instance_id := rd buffer 0;
     dio_dtsn := rd buffer 5;
     dio_dag_intdoubl := RPL_DIO_INTERVAL_DOUBLINGS;
     dio_dag_intmin := RPL_DIO_INTERVAL_MIN;
     dio_dag_redund := RPL_DIO_REDUNDANCY;
     dio_default_lifetime := RPL_DEFAULT_LIFETIME;
     dio_lifetime_unit := RPL_DEFAULT_LIFETIME_UNIT;
     dio_dag_max_rankinc := RPL_MAX_RANKINC;
     dio_dag_min_hoprankinc := RPL_MIN_HOPRANKINC;
     dio_destination_prefix := prefix_zero;
     dio_prefix_info := prefix_zero;
     dio_mc := mc_zero |}.

(** The decoder of [dio_input]: base, then options; [buffer_length] is
    [uint8_t]. *)
Definition dio_decode (buffer : list Z) (len : Z) : option dio_parse :=
  let buffer_length := uint8 len in
  dio_options (Z.to_nat buffer_length) buffer buffer_length 24 (dio_base buffer).

Definition dio_input (pkt : icmp6_input) (st : node) : option node :=
  let from := srcipaddr pkt in
  let st := RPL_STAT_inc dio_recvd st in
  r ← dio_decode (payload pkt) (payload_len pkt);
  match r with
  | dio_ok dio => Some (call (rpl_process_dio from dio) st)
  | dio_malformed => Some (RPL_STAT_inc malformed_msgs st)
  | dio_discard => Some st
  end.

(** The octets [dio_output] lays out, given the instance and DAG as they
    are when the base is written ([I], [D]) and as they are after the
    objective function updated the metric container ([I'], [D']).  [None]:
    the metric container type is unhandled and nothing is sent. *)
Definition dio_payload (I : rpl_instance_t) (D : rpl_dag_t)
    (I' : rpl_instance_t) (D' : rpl_dag_t) : option (list Z) :=
  let buffer := [] in
  let buffer := put buffer (i_instance_id I) in
  let buffer := put buffer (d_version D) in
  let buffer := set16 buffer (if RPL_LEAF_ONLY then INFINITE_RANK else d_rank D) in
  let flags := 0 in
  let flags := if truthy (d_grounded D) then uint8 (Z.lor flags RPL_DIO_GROUNDED)
               else flags in
  let flags := uint8 (Z.lor flags (Z.shiftl (i_mop I) RPL_DIO_MOP_SHIFT)) in
  let flags := uint8 (Z.lor flags (Z.land (d_preference D) RPL_DIO_PREFERENCE_MASK)) in
  let buffer := put buffer flags in
  let buffer := put buffer (i_dtsn_out I) in
  let buffer := put buffer 0 in
  let buffer := put buffer 0 in
  let buffer := put_bytes buffer (d_dag_id D) 16 in
  buffer ←
    (if negb RPL_LEAF_ONLY && negb (mc_type (i_mc I) =? RPL_DAG_MC_NONE) then
       let m := i_mc I' in
       let buffer := put buffer RPL_OPTION_DAG_METRIC_CONTAINER in
       let buffer := put buffer 6 in
       let buffer := put buffer (mc_type m) in
       let buffer := put buffer (Z.shiftr (mc_flags m) 1) in
       let b := uint8 (Z.shiftl (Z.land (mc_flags m) 1) 7) in
       let buffer := put buffer (Z.lor b (Z.lor (Z.shiftl (mc_aggr m) 4) (mc_prec m))) in
       if mc_type m =? RPL_DAG_MC_ETX then
         let buffer := put buffer 2 in
         Some (set16 buffer (mc_obj_etx m))
       else if mc_type m =? RPL_DAG_MC_ENERGY then
         let buffer := put buffer 2 in
         let buffer := put buffer (mc_obj_energy_flags m) in
         Some (put buffer (mc_obj_energy_est m))
       else None
     else Some buffer);
  let buffer := put buffer RPL_OPTION_DAG_CONF in
  let buffer := put buffer 14 in
  let buffer := put buffer 0 in
  let buffer := put buffer (i_dio_intdoubl I') in
  let buffer := put buffer (i_dio_intmin I') in
  let buffer := put buffer (i_dio_redundancy I') in
  let buffer := set16 buffer (i_max_rankinc I') in
  let buffer := set16 buffer (i_min_hoprankinc I') in
  let buffer := set16 buffer (of_ocp (i_of I')) in
  let buffer := put buffer 0 in
  let buffer := put buffer (i_default_lifetime I') in
  let buffer := set16 buffer (i_lifetime_unit I') in
  if pfx_length (d_prefix_info D') >? 0 then
    let buffer := put buffer RPL_OPTION_PREFIX_INFO in
    let buffer := put buffer 30 in
    let buffer := put buffer (pfx_length (d_prefix_info D')) in
    let buffer := put buffer (pfx_flags (d_prefix_info D')) in
    let buffer := set32 buffer (pfx_lifetime (d_prefix_info D')) in
    let buffer := set32 buffer (pfx_lifetime (d_prefix_info D')) in
    let buffer := buffer ++ repeat 0 4 in
    Some (put_bytes buffer (pfx_prefix (d_prefix_info D')) 16)
  else Some buffer.

Definition dio_output (i : nat) (uc_addr : option uip_ipaddr_t) (st : node)
    : option node :=
  I ← instance_table st !! i;
  if RPL_LEAF_ONLY && bool_decide (uc_addr = None) then Some st
  else
    d ← i_current_dag I;
    D ← dag_table st !! d;
    let is_root := d_rank D =? ROOT_RANK I in
    let st :=
      if RPL_DIO_REFRESH_DAO_ROUTES && is_root && bool_decide (uc_addr = None)
      then with_instance_table
             <[i := set_i_dtsn_out (uint8 (RPL_LOLLIPOP_INCREMENT (i_dtsn_out I))) I]> st
      else st in
    st ←
      (if negb RPL_LEAF_ONLY && negb (mc_type (i_mc I) =? RPL_DAG_MC_NONE)
       then update_metric_container_of (i_of I) i st
       else Some st);
    I' ← instance_table st !! i;
    D' ← dag_table st !! d;
    match dio_payload I D I' D' with
    | None => Some st
    | Some buffer =>
        match uc_addr with
        | Some a =>
            let st := call (uip_icmp6_send a ICMP6_RPL RPL_CODE_DIO buffer) st in
            Some (if RPL_LEAF_ONLY then st else RPL_STAT_inc dio_sent_u st)
        | None =>
            let st := call (uip_icmp6_send linklocal_rplnodes_mcast
                              ICMP6_RPL RPL_CODE_DIO buffer) st in
            Some (RPL_STAT_inc dio_sent_m st)
        end
    end.

(** *** DAO and DCO *)

(** The locals that the option loops of the DAO and DCO handlers assign. *)
Record dao_opts := {
  o_prefixlen : Z;
  o_prefix : uip_ipaddr_t;
  o_lifetime : Z;
  o_pathSequence : Z;
  o_parent_addr : uip_ipaddr_t
}.

(** [case RPL_OPTION_TARGET] of the three loops.  [prefixlen] is read
    unchecked; the [memcpy] stays within [prefix] when it is at most 128
    (see [ipaddr_of_bytes]). *)
Definition opt_target (buffer : list Z) (i : Z) (o : dao_opts) : dao_opts :=
  let prefixlen := rd buffer (i + 3) in
  {| o_prefixlen := prefixlen;
     o_prefix := ipaddr_of_bytes
                   (rd_bytes buffer (i + 4) (Z.to_nat ((prefixlen + 7) ÷ CHAR_BIT)));
     o_lifetime := o_lifetime o;
     o_pathSequence := o_pathSequence o;
     o_parent_addr := o_parent_addr o |}.

(** [switch(subopt_type)] of [dao_input_storing]; the path sequence is
    read under [RPL_WITH_DCO] only. *)
Definition dao_option (buffer : list Z) (i subopt_type : Z) (o : dao_opts) : dao_opts :=
  if subopt_type =? RPL_OPTION_TARGET then opt_target buffer i o
  else if subopt_type =? RPL_OPTION_TRANSIT then
    {| o_prefixlen := o_prefixlen o; o_prefix := o_prefix o;
       o_lifetime := rd buffer (i + 5);
       o_pathSequence := if RPL_WITH_DCO then rd buffer (i + 4)
                         else o_pathSequence o;
       o_parent_addr := o_parent_addr o |}
  else o.

(** [switch(subopt_type)] of [dao_input_nonstoring]. *)
Definition dao_option_ns (buffer : list Z) (i len subopt_type : Z) (o : dao_opts)
    : dao_opts :=
  if subopt_type =? RPL_OPTION_TARGET then opt_target buffer i o
  else if subopt_type =? RPL_OPTION_TRANSIT then
    {| o_prefixlen := o_prefixlen o; o_prefix := o_prefix o;
       o_lifetime := rd buffer (i + 5);
       o_pathSequence := o_pathSequence o;
       o_parent_addr := if len >=? 20 then rd_bytes buffer (i + 6) 16
                        else o_parent_addr o |}
  else o.

(** [switch(subopt_type)] of [dco_input]. *)
Definition dco_option (buffer : list Z) (i subopt_type : Z) (o : dao_opts) : dao_opts :=
  if subopt_type =? RPL_OPTION_TARGET then opt_target buffer i o
  else if subopt_type =? RPL_OPTION_TRANSIT then
    {| o_prefixlen := o_prefixlen o; o_prefix := o_prefix o;
       o_lifetime := rd buffer (i + 5);
       o_pathSequence := rd buffer (i + 4);
       o_parent_addr := o_parent_addr o |}
  else o.

(** [for(i = pos; i < buffer_length; i += len)] of [dao_input_storing];
    [i] and [len] are [int]. *)
Fixpoint dao_options (fuel : nat) (buffer : list Z) (buffer_length i : Z)
    (o : dao_opts) : option dao_opts :=
  if i <? buffer_length then
    match fuel with
    | O => None
    | S fuel =>
        let subopt_type := rd buffer i in
        let len := subopt_len buffer i in
        dao_options fuel buffer buffer_length (i + len)
          (dao_option buffer i subopt_type o)
    end
  else Some o.

Fixpoint dao_options_ns (fuel : nat) (buffer : list Z) (buffer_length i : Z)
    (o : dao_opts) : option dao_opts :=
  if i <? buffer_length then
    match fuel with
    | O => None
    | S fuel =>
        let subopt_type := rd buffer i in
        let len := subopt_len buffer i in
        dao_options_ns fuel buffer buffer_length (i + len)
          (dao_option_ns buffer i len subopt_type o)
    end
  else Some o.

(** The loop of [dco_input]; [i], [len] and [buffer_length] are
    [uint16_t], so [i += len] wraps.  [None]: no exit within [fuel]
    iterations. *)
Fixpoint dco_options (fuel : nat) (buffer : list Z) (buffer_length i : Z)
    (o : dao_opts) : option dao_opts :=
  if i <? buffer_length then
    match fuel with
    | O => None
    | S fuel =>
        let subopt_type := rd buffer i in
        let len := uint16 (subopt_len buffer i) in
        dco_options fuel buffer buffer_length (uint16 (i + len))
          (dco_option buffer i subopt_type o)
    end
  else Some o.

(** A loop over a [uint16_t] index that ends does so within [2^16]
    iterations. *)
Definition dco_fuel : nat := Z.to_nat (2 ^ 16).

(** The first [n] octets of the payload, as [uip_icmp6_send] takes them. *)
Definition payload_bytes (buffer : list Z) (n : Z) : list Z :=
  take (Z.to_nat n) buffer.

Definition dao_ack_output (i : nat) (dest : uip_ipaddr_t) (sequence status : Z)
    (st : node) : option node :=
  if RPL_WITH_DAO_ACK then
    I ← instance_table st !! i;
    let buffer := [uint8 (i_instance_id I); 0; uint8 sequence; uint8 status] in
    Some (call (uip_icmp6_send dest ICMP6_RPL RPL_CODE_DAO_ACK buffer) st)
  else Some st.

Definition dco_ack_output (i : nat) (dest : uip_ipaddr_t) (sequence status : Z)
    (st : node) : option node :=
  if RPL_WITH_DCO && RPL_WITH_STORING then
    I ← instance_table st !! i;
    let buffer := [uint8 (i_instance_id I); 0; uint8 sequence; uint8 status] in
    Some (call (uip_icmp6_send dest ICMP6_RPL RPL_CODE_DCO_ACK buffer) st)
  else Some st.

(** The octets that [dao_output_target_seq] and [dco_output] lay out:
    base with flags [flags], then a target option with the full address
    [prefix] and a transit option of [transit_len] octets. *)
Definition dao_payload (I : rpl_instance_t) (dag_id : uip_ipaddr_t) (flags seq_no : Z)
    (prefix : uip_ipaddr_t) (transit_len pathseq lifetime : Z) : list Z :=
  let buffer := [] in
  let buffer := put buffer (i_instance_id I) in
  let buffer := put buffer flags in
  let buffer := put buffer 0 in
  let buffer := put buffer seq_no in
  let buffer := if RPL_DAO_SPECIFY_DAG then put_bytes buffer dag_id 16 else buffer in
  let prefixlen := uint8 (16 * CHAR_BIT) in
  let buffer := put buffer RPL_OPTION_TARGET in
  let buffer := put buffer (2 + (prefixlen + 7) ÷ CHAR_BIT) in
  let buffer := put buffer 0 in
  let buffer := put buffer prefixlen in
  let buffer := put_bytes buffer prefix (Z.to_nat ((prefixlen + 7) ÷ CHAR_BIT)) in
  let buffer := put buffer RPL_OPTION_TRANSIT in
  let buffer := put buffer transit_len in
  let buffer := put buffer 0 in
  let buffer := put buffer 0 in
  let buffer := put buffer pathseq in
  put buffer lifetime.

Definition dao_output_target_seq (parent : ptr) (prefix : option uip_ipaddr_t)
    (lifetime seq_no : Z) (st : node) : option node :=
  if rpl_mode_is_feather st then Some st
  else
    match parent with
    | None => Some st
    | Some pa =>
        match rpl_get_parent_ipaddr parent with
        | None => Some st
        | Some parent_ipaddr =>
            P ← parent_table st !! pa;
            match p_dag P with
            | None => Some st
            | Some d =>
                D ← dag_table st !! d;
                match d_instance D, prefix with
                | None, _ | _, None => Some st
                | Some i, Some prefix =>
                    I ← instance_table st !! i;
                    let flags := 0 in
                    let flags := if RPL_DAO_SPECIFY_DAG
                                 then uint8 (Z.lor flags RPL_DAO_D_FLAG) else flags in
                    let flags := if RPL_WITH_DAO_ACK && negb (lifetime =? RPL_ZERO_LIFETIME)
                                 then uint8 (Z.lor flags RPL_DAO_K_FLAG) else flags in
                    let storing := negb (i_mop I =? RPL_MOP_NON_STORING) in
                    let buffer :=
                      dao_payload I (d_dag_id D) flags seq_no prefix
                        (if storing then 4 else 20)
                        (if RPL_WITH_DCO then path_sequence st else 0) lifetime in
                    let buffer :=
                      if storing then buffer
                      else put_bytes (put_bytes buffer (d_dag_id D) 8)
                                     (drop 8 parent_ipaddr) 8 in
                    let dest_ipaddr := if storing then parent_ipaddr else d_dag_id D in
                    let st := call (uip_icmp6_send dest_ipaddr ICMP6_RPL RPL_CODE_DAO
                                      buffer) st in
                    Some (if lifetime =? 0 then RPL_STAT_inc npdao_sent st
                          else RPL_STAT_inc dao_sent st)
                end
            end
        end
    end.

Definition dao_output_target (parent : ptr) (prefix : option uip_ipaddr_t)
    (lifetime : Z) (st : node) : option node :=
  dao_output_target_seq parent prefix lifetime (dao_sequence st) st.

Definition dao_output (parent : ptr) (lifetime : Z) (st : node) : option node :=
  match get_global_addr st with
  | None => Some st
  | Some prefix =>
      match parent with
      | None => Some st
      | Some pa =>
          P ← parent_table st !! pa;
          match p_dag P with
          | None => Some st
          | Some d =>
              D ← dag_table st !! d;
              match d_instance D with
              | None => Some st
              | Some i =>
                  I ← instance_table st !! i;
                  let ds := uint8 (RPL_LOLLIPOP_INCREMENT (dao_sequence st)) in
                  let st := with_dao_sequence ds st in
                  let st :=
                    if RPL_WITH_DAO_ACK then
                      if negb (lifetime =? RPL_ZERO_LIFETIME) then
                        call (ctimer_set_dao_retransmit i RPL_DAO_RETRANSMISSION_TIMEOUT
                                parent)
                          (with_instance_table <[i := set_i_my_dao ds 1 I]> st)
                      else st
                    else
                      with_instance_table
                        <[i := set_i_has_downward_route
                                 (if lifetime =? RPL_ZERO_LIFETIME then 0 else 1) I]> st in
                  dao_output_target parent (Some prefix) lifetime st
              end
          end
      end
  end.

Definition dco_output (i : nat) (pstTargetIP pstDcoTarget : uip_ipaddr_t)
    (pathSequence : Z) (st : node) : option node :=
  if RPL_WITH_DCO && RPL_WITH_STORING then
    I ← instance_table st !! i;
    let flags := 0 in
    let flags := if RPL_DAO_SPECIFY_DAG
                 then uint8 (Z.lor flags RPL_DAO_D_FLAG) else flags in
    let flags := if RPL_WITH_DCO_ACK
                 then uint8 (Z.lor flags RPL_DAO_K_FLAG) else flags in
    let seq_no := dco_sequence st in
    let st := with_dco_sequence (uint8 (RPL_LOLLIPOP_INCREMENT (dco_sequence st))) st in
    dag_id ←
      (if RPL_DAO_SPECIFY_DAG then
         d ← i_current_dag I; D ← dag_table st !! d; Some (d_dag_id D)
       else Some []);
    let buffer := dao_payload I dag_id flags seq_no pstTargetIP 4 pathSequence 0 in
    let st := call (uip_icmp6_send pstDcoTarget ICMP6_RPL RPL_CODE_DCO buffer) st in
    Some (RPL_STAT_inc dco_sent st)
  else Some st.

Definition prepare_for_dao_fwd (sequence : Z) (rep : nat) (st : node)
    : option (Z * node) :=
  R ← routes st !! rep;
  let ds := uint8 (RPL_LOLLIPOP_INCREMENT (dao_sequence st)) in
  let st := with_dao_sequence ds st in
  let st := with_routes
              <[rep := set_state (set_dao_fwd (uint8 sequence) ds (r_state R)) R]> st in
  Some (ds, st).

Definition rpl_icmp6_update_nbr_table (from : uip_ipaddr_t) (st : node) : option node :=
  if uip_ds6_nbr_lookup (nbr_cache st) from then Some st
  else c ← uip_ds6_nbr_add (nbr_cache st) from; Some (with_nbr_cache c st).

End codec.

(** ** Input handlers and the DAO retransmission timer *)

Section handlers.
Context {cfg : rpl_conf} {env : rpl_ext}.

(** The two loop checks of [dao_input_storing] end alike. *)
Definition dao_loop_detected (pa : nat) (P : rpl_parent_t) (st : node) : node :=
  with_parent_table
    <[pa := set_rank_flag INFINITE_RANK RPL_PARENT_FLAG_UPDATED P]> st.

(** [dao_input_storing] from the label [fwd_dao] on.  [rep] is the route
    entry or [NULL], [buffer] the received payload. *)
Definition dao_fwd (unicast : bool) (i d : nat) (rep : ptr) (flags sequence : Z)
    (buffer : list Z) (buffer_length : Z) (dao_sender_addr curNextHop : uip_ipaddr_t)
    (o : dao_opts) (st : node) : option node :=
  if unicast then
    I ← instance_table st !! i;
    D ← dag_table st !! d;
    should_ack ←
      (if truthy (Z.land flags RPL_DAO_K_FLAG) then
         match rep with
         | Some r =>
             R ← routes st !! r;
             Some ((negb (rs_dao_pending (r_state R)) &&
                    (rs_dao_seqno_in (r_state R) =? sequence))
                   || (d_rank D =? ROOT_RANK I))
         | None => Some false
         end
       else Some false);
    st ←
      match d_preferred_parent D, rpl_get_parent_ipaddr (d_preferred_parent D) with
      | Some _, Some parent_ipaddr =>
          r ←
            match rep with
            | Some r =>
                R ← routes st !! r;
                if rs_dao_pending (r_state R) &&
                   (rs_dao_seqno_in (r_state R) =? sequence)
                then Some (rs_dao_seqno_out (r_state R), st)
                else prepare_for_dao_fwd sequence r st
            | None => Some (0, st)
            end;
          let '(out_seq, st) := r in
          let buffer := <[3%nat := uint8 out_seq]> buffer in
          let st := call (uip_icmp6_send parent_ipaddr ICMP6_RPL RPL_CODE_DAO
                            (payload_bytes buffer buffer_length)) st in
          Some (RPL_STAT_inc dao_forwarded st)
      | _, _ => Some st
      end;
    st ←
      (if should_ack : bool
       then dao_ack_output i dao_sender_addr sequence RPL_DAO_ACK_UNCONDITIONAL_ACCEPT st
       else Some st);
    if RPL_WITH_DCO &&
       negb (uip_is_addr_unspecified curNextHop) &&
       negb (uip_ipaddr_cmp curNextHop dao_sender_addr)
    then dco_output i (o_prefix o) curNextHop (o_pathSequence o) st
    else Some st
  else Some st.

(** [pathSequence0] is the indeterminate initial value of the local
    [pathSequence], which only a transit option assigns. *)
Definition dao_input_storing (pathSequence0 : Z) (pkt : icmp6_input) (st : node)
    : option node :=
  if RPL_WITH_STORING then
    let dao_sender_addr := srcipaddr pkt in
    let buffer := payload pkt in
    let buffer_length := uint8 (payload_len pkt) in
    let instance_id := rd buffer 0 in
    i ← rpl_get_instance (instance_table st) instance_id;
    I ← instance_table st !! i;
    let lifetime := i_default_lifetime I in
    let flags := rd buffer 1 in
    let sequence := rd buffer 3 in
    d ← i_current_dag I;
    D ← dag_table st !! d;
    let is_root := d_rank D =? ROOT_RANK I in
    let st := RPL_STAT_inc dao_recvd st in
    let d_flag := truthy (Z.land flags RPL_DAO_D_FLAG) in
    if d_flag && negb (bool_decide (rd_bytes (d_dag_id D) 0 16 = rd_bytes buffer 4 16))
    then Some st
    else
      let pos := if d_flag then 4 + 16 else 4 in
      let unicast := negb (uip_is_addr_mcast dao_sender_addr) in
      let parent := if unicast then rpl_find_parent (parent_table st) (Some d) dao_sender_addr
                    else NULL in
      looped ←
        match parent with
        | Some pa =>
            P ← parent_table st !! pa;
            if DAG_RANK (p_rank P) I <? DAG_RANK (d_rank D) I
            then Some (Some (dao_loop_detected pa P st))
            else if bool_decide (parent = d_preferred_parent D)
            then Some (Some (dao_loop_detected pa P st))
            else Some None
        | None => Some None
        end;
      match looped : option node with
      | Some st => Some st
      | None =>
          o ← dao_options (Z.to_nat buffer_length) buffer buffer_length pos
                 {| o_prefixlen := 0; o_prefix := repeat 0 16;
                    o_lifetime := lifetime; o_pathSequence := pathSequence0;
                    o_parent_addr := repeat 0 16 |};
          let lifetime := o_lifetime o in
          let prefix := o_prefix o in
          let prefixlen := o_prefixlen o in
          if RPL_WITH_MULTICAST && uip_is_addr_mcast_global prefix then
            let '(g, m) := uip_mcast6_route_add (mcast_routes st) prefix in
            let st := with_mcast_group g (with_mcast_routes (fun _ => m) st) in
            let st :=
              match g with
              | Some m =>
                  with_mcast_routes
                    (alter (set_mcast_dag_lifetime (Some d) (RPL_LIFETIME I lifetime)) m)
                    st
              | None => st
              end in
            dao_fwd unicast i d NULL flags sequence buffer buffer_length
              dao_sender_addr (repeat 0 16) o st
          else
            let rep := uip_ds6_route_lookup (routes st) prefix in
            if lifetime =? RPL_ZERO_LIFETIME then
              let st := RPL_STAT_dec dao_recvd st in
              let st := RPL_STAT_inc npdao_recvd st in
              st ←
                match rep with
                | Some r =>
                    R ← routes st !! r;
                    if negb (rs_nopath_received (r_state R)) &&
                       (r_length R =? prefixlen) &&
                       match r_nexthop R with
                       | Some nh => uip_ipaddr_cmp nh dao_sender_addr
                       | None => false
                       end
                    then
                      let R' := set_state
                                  (set_lifetime RPL_NOPATH_REMOVAL_DELAY
                                     (set_nopath_received true (r_state R))) R in
                      let st := with_routes <[r := R']> st in
                      match d_preferred_parent D,
                            rpl_get_parent_ipaddr (d_preferred_parent D) with
                      | Some _, Some parent_ipaddr =>
                          x ← prepare_for_dao_fwd sequence r st;
                          let '(out_seq, st) := x in
                          let buffer := <[3%nat := uint8 out_seq]> buffer in
                          let st := call (uip_icmp6_send parent_ipaddr ICMP6_RPL
                                            RPL_CODE_DAO
                                            (payload_bytes buffer buffer_length)) st in
                          Some (RPL_STAT_inc npdao_forwarded st)
                      | _, _ => Some st
                      end
                    else Some st
                | None => Some st
                end;
              if truthy (Z.land flags RPL_DAO_K_FLAG)
              then dao_ack_output i dao_sender_addr sequence
                     RPL_DAO_ACK_UNCONDITIONAL_ACCEPT st
              else Some st
            else
              let nack := if is_root then RPL_DAO_ACK_UNABLE_TO_ADD_ROUTE_AT_ROOT
                          else RPL_DAO_ACK_UNABLE_TO_ACCEPT in
              match rpl_icmp6_update_nbr_table dao_sender_addr st with
              | None =>
                  if truthy (Z.land flags RPL_DAO_K_FLAG)
                  then dao_ack_output i dao_sender_addr sequence nack st
                  else Some st
              | Some st =>
                  curNextHop ←
                    match rep with
                    | Some r =>
                        if RPL_WITH_DCO then
                          R ← routes st !! r;
                          Some (match r_nexthop R with
                                | Some nh => nh
                                | None => repeat 0 16
                                end)
                        else Some (repeat 0 16)
                    | None => Some (repeat 0 16)
                    end;
                  let '(rep, rs) :=
                    rpl_add_route (routes st) (Some d) prefix prefixlen
                      dao_sender_addr in
                  let st := with_routes (fun _ => rs) st in
                  match rep with
                  | None =>
                      let st := RPL_STAT_inc mem_overflows st in
                      if truthy (Z.land flags RPL_DAO_K_FLAG)
                      then dao_ack_output i dao_sender_addr sequence nack st
                      else Some st
                  | Some r =>
                      R ← routes st !! r;
                      let s := set_lifetime (RPL_LIFETIME I lifetime) (r_state R) in
                      let s := if RPL_WITH_DCO
                               then set_dao_path_sequence (o_pathSequence o) s else s in
                      let s := set_nopath_received false s in
                      let st := with_routes <[r := set_state s R]> st in
                      dao_fwd unicast i d rep flags sequence buffer buffer_length
                        dao_sender_addr curNextHop o st
                  end
              end
      end
  else Some st.

(** [prefix0] is the indeterminate initial value of the local [prefix],
    which only a target option assigns. *)
Definition dao_input_nonstoring (prefix0 : uip_ipaddr_t) (pkt : icmp6_input)
    (st : node) : option node :=
  if RPL_WITH_NON_STORING then
    let dao_sender_addr := srcipaddr pkt in
    let buffer := payload pkt in
    let buffer_length := uint8 (payload_len pkt) in
    let instance_id := rd buffer 0 in
    i ← rpl_get_instance (instance_table st) instance_id;
    I ← instance_table st !! i;
    let lifetime := i_default_lifetime I in
    let flags := rd buffer 1 in
    let sequence := rd buffer 3 in
    let dag := i_current_dag I in
    let d_flag := truthy (Z.land flags RPL_DAO_D_FLAG) in
    differs ←
      (if d_flag then
         d ← dag; D ← dag_table st !! d;
         Some (negb (bool_decide (rd_bytes (d_dag_id D) 0 16 = rd_bytes buffer 4 16)))
       else Some false);
    if differs : bool then Some st
    else
      let pos := if d_flag then 4 + 16 else 4 in
      o ← dao_options_ns (Z.to_nat buffer_length) buffer buffer_length pos
             {| o_prefixlen := 0; o_prefix := prefix0;
                o_lifetime := lifetime; o_pathSequence := 0;
                o_parent_addr := repeat 0 16 |};
      let updated :=
        if o_lifetime o =? RPL_ZERO_LIFETIME then
          Some (call (rpl_ns_expire_parent dag (o_prefix o) (o_parent_addr o)) st)
        else rpl_ns_update_node st dag (o_prefix o) (o_parent_addr o)
               (RPL_LIFETIME I (o_lifetime o)) in
      match updated with
      | None => Some st
      | Some st =>
          if truthy (Z.land flags RPL_DAO_K_FLAG)
          then dao_ack_output i dao_sender_addr sequence
                 RPL_DAO_ACK_UNCONDITIONAL_ACCEPT st
          else Some st
      end
  else Some st.

Definition dao_input (pathSequence0 : Z) (prefix0 : uip_ipaddr_t)
    (pkt : icmp6_input) (st : node) : option node :=
  let instance_id := rd (payload pkt) 0 in
  match rpl_get_instance (instance_table st) instance_id with
  | None => Some st
  | Some i =>
      I ← instance_table st !! i;
      if RPL_IS_STORING I then dao_input_storing pathSequence0 pkt st
      else if RPL_IS_NON_STORING I then dao_input_nonstoring prefix0 pkt st
      else Some st
  end.

Definition set_i_my_dao_transmissions (n : Z) (i : rpl_instance_t) : rpl_instance_t :=
  set_i_my_dao (i_my_dao_seqno i) n i.

(** The callback of [dao_retransmit_timer]; compiled under
    [RPL_WITH_DAO_ACK]. *)
Definition handle_dao_retransmission (parent : ptr) (st : node) : option node :=
  match parent with
  | None => Some st
  | Some pa =>
      P ← parent_table st !! pa;
      match p_dag P with
      | None => Some st
      | Some d =>
          D ← dag_table st !! d;
          match d_instance D with
          | None => Some st
          | Some i =>
              I ← instance_table st !! i;
              if i_my_dao_transmissions I >=? RPL_DAO_MAX_RETRANSMISSIONS then
                if (i_lifetime_unit I =? 0xffff) && (i_default_lifetime I =? 0xff)
                then Some st
                else
                  let st :=
                    if RPL_IS_STORING I && of_dao_ack_callback (i_of I)
                    then call (dao_ack_callback parent RPL_DAO_ACK_TIMEOUT) st
                    else st in
                  Some (call (rpl_local_repair i) st)
              else
                match get_global_addr st with
                | None => Some st
                | Some prefix =>
                    let delay :=
                      RPL_DAO_RETRANSMISSION_TIMEOUT ÷ 2 +
                      Z.rem (random_rand st) (RPL_DAO_RETRANSMISSION_TIMEOUT ÷ 2) in
                    let st := call (ctimer_set_dao_retransmit i delay parent) st in
                    let st :=
                      with_instance_table
                        <[i := set_i_my_dao_transmissions
                                 (uint8 (i_my_dao_transmissions I + 1)) I]> st in
                    dao_output_target_seq parent (Some prefix)
                      (i_default_lifetime I) (i_my_dao_seqno I) st
                end
          end
      end
  end.

(** [o0] holds the indeterminate initial values of the locals [prefix],
    [prefixlen], [pathLifetime] and [pathSequence], which only the options
    assign.  [None]: the option loop does not end. *)
Definition dco_input (o0 : dao_opts) (pkt : icmp6_input) (st : node) : option node :=
  if RPL_WITH_DCO && RPL_WITH_STORING then
    let buffer := payload pkt in
    let buffer_length := uint16 (payload_len pkt) in
    let dao_sender := srcipaddr pkt in
    let st := RPL_STAT_inc dco_recvd st in
    let instance_id := rd buffer 0 in
    match rpl_get_instance (instance_table st) instance_id with
    | None => Some st
    | Some i =>
        I ← instance_table st !! i;
        let flags := rd buffer 1 in
        let dco_sequence := rd buffer 3 in
        let curdag := i_current_dag I in
        let d_flag := truthy (Z.land flags RPL_DAO_D_FLAG) in
        differs ←
          (if d_flag then
             d ← curdag; D ← dag_table st !! d;
             Some (negb (bool_decide
                           (rd_bytes (d_dag_id D) 0 16 = rd_bytes buffer 4 16)))
           else Some false);
        if differs : bool then Some st
        else
          let pos := if d_flag then 4 + 16 else 4 in
          o ← dco_options dco_fuel buffer buffer_length pos o0;
          let prefix := o_prefix o in
          let pathLifetime := o_lifetime o in
          let pathSequence := o_pathSequence o in
          let no_route (st : node) : option node :=
            match get_global_addr st with
            | Some stMyAddress =>
                if uip_ipaddr_cmp stMyAddress prefix
                then Some (RPL_STAT_inc dco_ignored st)
                else if truthy (Z.land flags RPL_DAO_K_FLAG)
                     then dco_ack_output i dao_sender dco_sequence 234 st
                     else Some st
            | None =>
                if truthy (Z.land flags RPL_DAO_K_FLAG)
                then dco_ack_output i dao_sender dco_sequence 234 st
                else Some st
            end in
          match uip_ds6_route_lookup (routes st) prefix with
          | Some r =>
              if pathLifetime =? 0 then
                R ← routes st !! r;
                let st :=
                  match r_nexthop R with
                  | Some pstNextHop =>
                      if lollipop_greater_than pathSequence
                           (rs_dao_path_sequence (r_state R))
                      then
                        let st := call (uip_icmp6_send pstNextHop ICMP6_RPL RPL_CODE_DCO
                                          (payload_bytes buffer buffer_length)) st in
                        let st := RPL_STAT_inc dco_forwarded st in
                        with_routes (delete r) st
                      else RPL_STAT_inc dco_ignored st
                  | None => RPL_STAT_inc dco_ignored st
                  end in
                if truthy (Z.land flags RPL_DAO_K_FLAG)
                then dco_ack_output i dao_sender dco_sequence 0 st
                else Some st
              else no_route st
          | None => no_route st
          end
    end
  else Some st.

End handlers.

(** ** A concrete build: the defaults of the Contiki headers *)

Module contiki.

Definition lollipop_increment (counter : Z) : Z :=
  if counter >? 127 then Z.land (counter + 1) 255 else Z.land (counter + 1) 127.

Definition conf : rpl_conf := {|
  RPL_WITH_STORING := true;
  RPL_WITH_NON_STORING := false;
  RPL_WITH_DCO := true;
  RPL_WITH_DAO_ACK := true;
  RPL_WITH_DCO_ACK := true;
  RPL_WITH_MULTICAST := false;
  RPL_LEAF_ONLY := false;
  RPL_DAO_SPECIFY_DAG := false;
  RPL_DIO_REFRESH_DAO_ROUTES := true;
  RPL_DAG_MC := DAG_MC_NONE;
  RPL_DAG_MC_NONE := 0;
  RPL_DAG_MC_ETX := 7;
  RPL_DAG_MC_ENERGY := 2;
  RPL_DAG_MC_FLAG_P := 0x20;
  RPL_DAG_MC_AGGR_ADDITIVE := 0;
  RPL_DAG_MC_ENERGY_TYPE := 3;
  RPL_DAG_MC_ENERGY_TYPE_MAINS := 0;
  RPL_DAG_MC_ENERGY_TYPE_BATTERY := 1;
  RPL_DAG_MC_ETX_DIVISOR := 128;
  LINK_STATS_ETX_DIVISOR := 128;
  RPL_INIT_LINK_METRIC := 2;
  INFINITE_RANK := 0xffff;
  RPL_MIN_HOPRANKINC := 256;
  RPL_MAX_RANKINC := 7 * 256;
  RPL_DIO_INTERVAL_DOUBLINGS := 8;
  RPL_DIO_INTERVAL_MIN := 12;
  RPL_DIO_REDUNDANCY := 10;
  RPL_OF_OCP := 1;
  RPL_DEFAULT_LIFETIME := 30;
  RPL_DEFAULT_LIFETIME_UNIT := 60;
  RPL_NOPATH_REMOVAL_DELAY := 60;
  RPL_DAO_MAX_RETRANSMISSIONS := 5;
  RPL_DAO_RETRANSMISSION_TIMEOUT := 5 * 128;
  RPL_DAO_ACK_UNABLE_TO_ACCEPT := 128;
  RPL_DAO_ACK_UNABLE_TO_ADD_ROUTE_AT_ROOT := 129;
  RPL_DAO_ACK_TIMEOUT := -1;
  RPL_PARENT_FLAG_UPDATED := 0x1;
  RPL_MOP_NON_STORING := 1;
  RPL_IS_STORING := fun I => i_mop I >? 1;
  RPL_IS_NON_STORING := fun I => i_mop I =? 1;
  RPL_LOLLIPOP_INCREMENT := lollipop_increment;
  ROOT_RANK := i_min_hoprankinc;
  RPL_LIFETIME := fun I lifetime =>
    if lifetime =? 0xff then 0xffffffff else uint32 (i_lifetime_unit I * lifetime);
  uip_is_addr_mcast := fun a => rd a 0 =? 0xff;
  uip_is_addr_mcast_global := fun a =>
    (rd a 0 =? 0xff) && (Z.land (rd a 1) 0x0f =? 0x0e);
  uip_is_addr_linklocal := fun a => (rd a 0 =? 0xfe) && (rd a 1 =? 0x80);
  uip_is_addr_unspecified := fun a => bool_decide (a = repeat 0 16);
  linklocal_rplnodes_mcast := [0xff; 0x02; 0; 0; 0; 0; 0; 0; 0; 0; 0; 0; 0; 0; 0; 0x1a]
|}.

(** A small neighbourhood: the parent with handle [a] has the link-local
    address [fe80::(a+1)]; the tables hold at most eight entries. *)
Definition parent_ipaddr (a : nat) : uip_ipaddr_t :=
  [0xfe; 0x80; 0; 0; 0; 0; 0; 0; 0; 0; 0; 0; 0; 0; 0; Z.of_nat a + 1].

Definition handles : list nat := seq 0 8.

Definition get_instance (t : gmap nat rpl_instance_t) (id : Z) : ptr :=
  List.find (fun i => match t !! i with
                      | Some inst => truthy (i_used inst) && (i_instance_id inst =? id)
                      | None => false
                      end) handles.

Definition find_parent (t : gmap nat rpl_parent_t) (dag : ptr) (addr : uip_ipaddr_t)
    : ptr :=
  List.find (fun a => match t !! a with
                      | Some P => bool_decide (p_dag P = dag) &&
                                  uip_ipaddr_cmp (parent_ipaddr a) addr
                      | None => false
                      end) handles.

(** Exact match on the stored prefix. *)
Definition route_lookup (t : gmap nat uip_ds6_route_t) (addr : uip_ipaddr_t) : ptr :=
  List.find (fun r => match t !! r with
                      | Some R => uip_ipaddr_cmp (r_ipaddr R) addr
                      | None => false
                      end) handles.

Definition fresh {A} (t : gmap nat A) : ptr :=
  List.find (fun r => bool_decide (t !! r = None)) handles.

Definition add_route (t : gmap nat uip_ds6_route_t) (dag : ptr) (prefix : uip_ipaddr_t)
    (prefixlen : Z) (next_hop : uip_ipaddr_t) : ptr * gmap nat uip_ds6_route_t :=
  match route_lookup t prefix with
  | Some r =>
      (Some r, alter (fun R => {| r_ipaddr := r_ipaddr R; r_length := r_length R;
                                  r_nexthop := Some next_hop;
                                  r_state := r_state R |}) r t)
  | None =>
      match fresh t with
      | Some r =>
          (Some r, <[r := {| r_ipaddr := prefix; r_length := prefixlen;
                             r_nexthop := Some next_hop;
                             r_state := {| rs_lifetime := 0; rs_dao_seqno_in := 0;
                                           rs_dao_seqno_out := 0;
                                           rs_dao_path_sequence := 0;
                                           rs_dao_pending := false;
                                           rs_nopath_received := false |} |}]> t)
      | None => (None, t)
      end
  end.

Definition greater_than (a b : Z) : bool :=
  if (a >? 127) && (b <=? 127) then 255 + 1 + b - a >? 16
  else ((a >? b) && (a - b <? 16)) || ((a <? b) && (b - a >? 127 + 1 - 16)).

Definition ext : rpl_ext := {|
  rpl_get_instance := get_instance;
  rpl_find_parent := find_parent;
  rpl_get_parent_ipaddr := fun p => parent_ipaddr <$> p;
  rpl_get_parent_link_stats := fun st p =>
    a ← p; P ← parent_table st !! a; Some {| etx := p_link_metric P |};
  rpl_mode_is_feather := fun _ => false;
  uip_ds6_route_lookup := route_lookup;
  uip_ds6_nbr_lookup := fun c a => bool_decide (a ∈ c);
  uip_ds6_nbr_add := fun c a => if (length c <? 8)%nat then Some (a :: c) else None;
  rpl_add_route := add_route;
  uip_mcast6_route_add := fun t _ => (None, t);
  rpl_ns_update_node := fun st _ _ _ _ => Some st;
  lollipop_greater_than := greater_than;
  update_metric_container_of := fun _ i st =>
    rpl_mrhof.update_metric_container (cfg := conf) i st;
  random_rand := fun _ => 0
|}.

Definition no_mc : rpl_metric_container_t := mc_zero.

Definition empty_node : node := {|
  instance_table := ∅; dag_table := ∅; parent_table := ∅; routes := ∅;
  mcast_routes := ∅; nbr_cache := []; addr_list := [];
  dao_sequence := 240; dco_sequence := 240; path_sequence := 240;
  mcast_group := NULL; rpl_stats := fun _ => 0; trace := []
|}.

Definition with_dag_table (f : gmap nat rpl_dag_t -> gmap nat rpl_dag_t) (st : node)
    : node :=
  {| instance_table := instance_table st; dag_table := f (dag_table st);
     parent_table := parent_table st; routes := routes st;
     mcast_routes := mcast_routes st; nbr_cache := nbr_cache st;
     addr_list := addr_list st; dao_sequence := dao_sequence st;
     dco_sequence := dco_sequence st; path_sequence := path_sequence st;
     mcast_group := mcast_group st; rpl_stats := rpl_stats st;
     trace := trace st |}.

Definition with_addr_list (l : list uip_ds6_addr_t) (st : node) : node :=
  {| instance_table := instance_table st; dag_table := dag_table st;
     parent_table := parent_table st; routes := routes st;
     mcast_routes := mcast_routes st; nbr_cache := nbr_cache st;
     addr_list := l; dao_sequence := dao_sequence st;
     dco_sequence := dco_sequence st; path_sequence := path_sequence st;
     mcast_group := mcast_group st; rpl_stats := rpl_stats st;
     trace := trace st |}.

Definition mk_parent (rank link_metric : Z) : rpl_parent_t :=
  {| p_dag := Some 0%nat; p_rank := rank; p_link_metric := link_metric;
     p_flags := 0; p_mc := no_mc |}.

Definition mk_dag (id : Z) (grounded preference rank : Z) (preferred : ptr) : rpl_dag_t :=
  {| d_dag_id := [0x20; 0x01; 0x0d; 0xb8; 0; 0; 0; 0; 0; 0; 0; 0; 0; 0; 0; id];
     d_version := 240; d_grounded := grounded; d_preference := preference;
     d_joined := 1; d_preferred_parent := preferred; d_rank := rank;
     d_instance := Some 0%nat; d_prefix_info := prefix_zero |}.

Definition mk_instance (mop : Z) (callback : bool) (default_lifetime lifetime_unit : Z)
    (transmissions : Z) : rpl_instance_t :=
  {| i_instance_id := 30; i_used := 1; i_mop := mop;
     i_of := {| of_ocp := 1; of_dao_ack_callback := callback |};
     i_current_dag := Some 0%nat; i_mc := no_mc; i_dtsn_out := 240;
     i_dio_intdoubl := 8; i_dio_intmin := 12; i_dio_redundancy := 10;
     i_max_rankinc := 1792; i_min_hoprankinc := 256;
     i_default_lifetime := default_lifetime; i_lifetime_unit := lifetime_unit;
     i_my_dao_seqno := 241; i_my_dao_transmissions := transmissions;
     i_has_downward_route := 0 |}.

(** One storing instance with its DAG of rank 768 and two parents, the
    first of which is preferred. *)
Definition joined (p0 p1 : rpl_parent_t) (preferred : ptr) : node :=
  with_instance_table (fun _ => {[ 0%nat := mk_instance 2 true 30 60 1 ]})
    (with_dag_table (fun _ => {[ 0%nat := mk_dag 1 0 0 768 preferred ]})
       (with_parent_table (fun _ => {[ 0%nat := p0; 1%nat := p1 ]}) empty_node)).

End contiki.

(** ** Concrete situations *)

Module scenarios.
Import contiki.

(** Scenario 1 of the specification moved onto the boundary: the preferred
    parent [p1] has rank 256 and link metric 128 (path metric 384), the
    challenger [p2] rank 256 and link metric 64 (path metric 320); the
    difference is [ETX_DIVISOR / 2 = 64]. *)
Definition boundary_p1 : rpl_parent_t := mk_parent 256 128.
Definition boundary_p2 : rpl_parent_t := mk_parent 256 64.
Definition boundary : node := joined boundary_p1 boundary_p2 (Some 0%nat).

(** Two DAGs that tie on grounded, preference and rank. *)
Definition tie_d1 : rpl_dag_t := mk_dag 1 0 0 512 NULL.
Definition tie_d2 : rpl_dag_t := mk_dag 2 0 0 512 NULL.
Definition tie : node :=
  with_dag_table (fun _ => {[ 0%nat := tie_d1; 1%nat := tie_d2 ]}) empty_node.

(** Two grounded DAGs, one entered by [rpl_set_root] with the flag 1, the
    other learned from a DIO, which stores [0x80]; the second has the
    higher preference. *)
Definition flags_d1 : rpl_dag_t := mk_dag 1 0x80 0 512 NULL.
Definition flags_d2 : rpl_dag_t := mk_dag 2 1 7 512 NULL.
Definition flags : node :=
  with_dag_table (fun _ => {[ 0%nat := flags_d1; 1%nat := flags_d2 ]}) empty_node.

(** Two DAGs that differ in rank only. *)
Definition ranked_d1 : rpl_dag_t := mk_dag 1 0 0 768 NULL.
Definition ranked_d2 : rpl_dag_t := mk_dag 2 0 0 512 NULL.
Definition ranked : node :=
  with_dag_table (fun _ => {[ 0%nat := ranked_d1; 1%nat := ranked_d2 ]}) empty_node.

(** Scenario 6 of the specification: a parent whose ETX is unknown
    ([0xffff]), next to one with ETX 2.0. *)
Definition unknown_etx : node := joined (mk_parent 256 0xffff) (mk_parent 256 256) NULL.

Definition third_preferred : node :=
  with_parent_table <[ 2%nat := mk_parent 512 128 ]>
    (joined (mk_parent 256 128) (mk_parent 256 160) (Some 2%nat)).

End scenarios.

(** ** Messages on the wire and the nodes that receive them *)

Module traffic.
Import contiki.

(** The node's global address, a child below it and the link-local address
    the child sends from. *)
Definition me : uip_ipaddr_t :=
  [0x20; 0x01; 0x0d; 0xb8; 0; 0; 0; 0; 0; 0; 0; 0; 0; 0; 0; 0x10].
Definition child : uip_ipaddr_t :=
  [0x20; 0x01; 0x0d; 0xb8; 0; 0; 0; 0; 0; 0; 0; 0; 0; 0; 0; 0x20].
Definition child_ll : uip_ipaddr_t :=
  [0xfe; 0x80; 0; 0; 0; 0; 0; 0; 0; 0; 0; 0; 0; 0; 0; 0x09].

(** The host route to the child, learned from its DAO with path
    sequence 240. *)
Definition child_route : uip_ds6_route_t :=
  {| r_ipaddr := child; r_length := 128; r_nexthop := Some child_ll;
     r_state := {| rs_lifetime := 1800; rs_dao_seqno_in := 0; rs_dao_seqno_out := 0;
                   rs_dao_path_sequence := 240; rs_dao_pending := false;
                   rs_nopath_received := false |} |}.

(** A storing router of rank 768 with the parents [fe80::1] (preferred,
    rank 256) and [fe80::2] (rank 512), its global address and the route
    to the child. *)
Definition router : node :=
  with_addr_list [{| a_isused := 1; a_ipaddr := me; a_state := ADDR_PREFERRED |}]
    (with_routes (fun _ => {[ 0%nat := child_route ]})
       (joined (mk_parent 256 128) (mk_parent 512 128) (Some 0%nat))).

(** The octets of a DAO or DCO of instance 30 without DAG id: base, a
    target option with a full address, and a transit option whose length
    octet is [transit_len]. *)
Definition dao_octets (flags seq_no : Z) (target : uip_ipaddr_t)
    (transit_len pathseq lifetime : Z) : list Z :=
  [30; flags; 0; seq_no; RPL_OPTION_TARGET; 18; 0; 128] ++ target ++
  [RPL_OPTION_TRANSIT; transit_len; 0; 0; pathseq; lifetime].

(** What the values that the option loops leave unassigned are taken to
    be. *)
Definition unset : dao_opts :=
  {| o_prefixlen := 0; o_prefix := repeat 0 16; o_lifetime := 0;
     o_pathSequence := 0; o_parent_addr := repeat 0 16 |}.

(** A message of 30 octets in a buffer that holds two older octets behind
    it. *)
Definition received (src : uip_ipaddr_t) (octets : list Z) : icmp6_input :=
  {| srcipaddr := src;
     destipaddr := [0xfe; 0x80; 0; 0; 0; 0; 0; 0; 0; 0; 0; 0; 0; 0; 0; 0x0a];
     payload := octets ++ [0xaa; 0xbb]; payload_len := Z.of_nat (length octets) |}.

(** The child withdraws its route and asks for an acknowledgement. *)
Definition no_path_dao : icmp6_input :=
  received child_ll (dao_octets RPL_DAO_K_FLAG 7 child 4 241 0).

(** The same, but the transit option declares 40 octets, of which the
    payload holds 4. *)
Definition overrun_dao : icmp6_input :=
  received child_ll (dao_octets RPL_DAO_K_FLAG 7 child 40 241 0).

(** The same No-Path DAO, sent by the preferred parent. *)
Definition no_path_dao_from_parent : icmp6_input :=
  received (parent_ipaddr 0) (dao_octets RPL_DAO_K_FLAG 7 child 4 241 0).

(** The preferred parent cleans up the path to the child. *)
Definition dco : icmp6_input :=
  received (parent_ipaddr 0) (dao_octets RPL_DAO_K_FLAG 7 child 4 241 0).

Definition overrun_dco : icmp6_input :=
  received (parent_ipaddr 0) (dao_octets RPL_DAO_K_FLAG 7 child 40 241 0).

(** A DCO for the child with a newer path sequence whose transit option
    carries the path lifetime 30; it asks for an acknowledgement. *)
Definition dco_lifetime_30 : icmp6_input :=
  received (parent_ipaddr 0) (dao_octets RPL_DAO_K_FLAG 7 child 4 241 30).

(** A DCO that names the node's own address and asks for an
    acknowledgement. *)
Definition dco_for_me : icmp6_input :=
  received (parent_ipaddr 0) (dao_octets RPL_DAO_K_FLAG 7 me 4 241 0).

(** The router with a route entry for its own global address instead. *)
Definition self_routed : node :=
  with_routes (fun _ => {[ 0%nat := {| r_ipaddr := me; r_length := 128;
                                       r_nexthop := Some child_ll;
                                       r_state := r_state child_route |} ]}) router.

(** A DIO of 30 octets: the base and a DAG configuration option that
    declares 14 octets, of which the payload holds 4. *)
Definition overrun_dio : icmp6_input :=
  received (parent_ipaddr 0)
    ([30; 240; 1; 0; 0x10; 240; 0; 0] ++ me ++ [RPL_OPTION_DAG_CONF; 14; 0; 8; 12; 10]).

(** The router after five DAO transmissions, for an instance with the
    given mode of operation, callback and lifetimes. *)
Definition unanswered (mop : Z) (callback : bool) (default_lifetime lifetime_unit : Z)
    : node :=
  with_instance_table
    (fun _ => {[ 0%nat := mk_instance mop callback default_lifetime lifetime_unit 5 ]})
    router.

(** An instance that announces an ETX metric container, and its DAG with a
    prefix to announce. *)
Definition announcing : rpl_instance_t :=
  set_i_mc {| mc_type := 7; mc_flags := 0x20; mc_aggr := 0; mc_prec := 0;
              mc_length := 2; mc_obj_etx := 640; mc_obj_energy_flags := 0;
              mc_obj_energy_est := 0 |} (mk_instance 2 true 30 60 1).

Definition announced : rpl_dag_t :=
  {| d_dag_id := [0x20; 0x01; 0x0d; 0xb8; 0; 0; 0; 0; 0; 0; 0; 0; 0; 0; 0; 1];
     d_version := 240; d_grounded := 1; d_preference := 3; d_joined := 1;
     d_preferred_parent := Some 0%nat; d_rank := 768; d_instance := Some 0%nat;
     d_prefix_info := {| pfx_prefix := [0x20; 0x01; 0x0d; 0xb8; 0; 0; 0; 0;
                                        0; 0; 0; 0; 0; 0; 0; 0];
                         pfx_lifetime := 86400; pfx_length := 64;
                         pfx_flags := 0x40 |} |}.

(** The DIO that announces [announced]. *)
Definition announced_octets : list Z :=
  [30; 240; 3; 0; 147; 240; 0; 0] ++ d_dag_id announced ++
  [RPL_OPTION_DAG_METRIC_CONTAINER; 6; 7; 16; 0; 2; 2; 128;
   RPL_OPTION_DAG_CONF; 14; 0; 8; 12; 10; 7; 0; 1; 0; 0; 1; 0; 30; 0; 60;
   RPL_OPTION_PREFIX_INFO; 30; 64; 64; 0; 1; 81; 128; 0; 1; 81; 128; 0; 0; 0; 0] ++
  pfx_prefix (d_prefix_info announced).

(** What the option loops have read of a message about the child: the
    target, and the path lifetime and sequence. *)
Definition child_target (lifetime pathseq : Z) : dao_opts :=
  {| o_prefixlen := 128; o_prefix := child; o_lifetime := lifetime;
     o_pathSequence := pathseq; o_parent_addr := repeat 0 16 |}.

(** The DIO of the router: base and DAG configuration. *)
Definition router_dio : list Z :=
  [30; 240; 3; 0; 16; 240; 0; 0] ++ d_dag_id (mk_dag 1 0 0 768 (Some 0%nat)) ++
  [RPL_OPTION_DAG_CONF; 14; 0; 8; 12; 10; 7; 0; 1; 0; 0; 1; 0; 30; 0; 60].







(** The neighbourhood when the neighbour cache holds the address of no
    parent. *)
Definition strangers : rpl_ext := {|
  rpl_get_instance := @rpl_get_instance ext;
  rpl_find_parent := @rpl_find_parent ext;
  rpl_get_parent_ipaddr := fun _ => None;
  rpl_get_parent_link_stats := @rpl_get_parent_link_stats ext;
  rpl_mode_is_feather := @rpl_mode_is_feather ext;
  uip_ds6_route_lookup := @uip_ds6_route_lookup ext;
  uip_ds6_nbr_lookup := @uip_ds6_nbr_lookup ext;
  uip_ds6_nbr_add := @uip_ds6_nbr_add ext;
  rpl_add_route := @rpl_add_route ext;
  uip_mcast6_route_add := @uip_mcast6_route_add ext;
  rpl_ns_update_node := @rpl_ns_update_node ext;
  lollipop_greater_than := @lollipop_greater_than ext;
  update_metric_container_of := @update_metric_container_of ext;
  random_rand := @random_rand ext
|}.

End traffic.

(** ** Well-formed outbound messages *)

Definition byte (b : Z) : Prop := 0 <= b < 2 ^ 8.

(** A 16-octet IPv6 address. *)
Definition ipaddr (a : uip_ipaddr_t) : Prop := length a = 16%nat /\ Forall byte a.

Section messages.
Context {cfg : rpl_conf}.

(** The fields that [dio_output] writes hold values of their C types, the
    mode of operation and the preference fit their three bits, the
    aggregation its two and the precedence its four, and the metric
    container codes of the build are distinct. *)
Record dio_fields_ok (I : rpl_instance_t) (D : rpl_dag_t)
    (I' : rpl_instance_t) (D' : rpl_dag_t) : Prop := {
  ok_instance_id : byte (i_instance_id I);
  ok_version : byte (d_version D);
  ok_rank : 0 <= d_rank D < 2 ^ 16;
  ok_infinite_rank : 0 <= INFINITE_RANK < 2 ^ 16;
  ok_mop : 0 <= i_mop I < 8;
  ok_preference : 0 <= d_preference D < 8;
  ok_dtsn : byte (i_dtsn_out I);
  ok_dag_id : ipaddr (d_dag_id D);
  ok_mc_type : byte (mc_type (i_mc I'));
  ok_mc_flags : byte (mc_flags (i_mc I'));
  ok_mc_aggr : 0 <= mc_aggr (i_mc I') < 4;
  ok_mc_prec : 0 <= mc_prec (i_mc I') < 16;
  ok_mc_etx : 0 <= mc_obj_etx (i_mc I') < 2 ^ 16;
  ok_mc_energy_flags : byte (mc_obj_energy_flags (i_mc I'));
  ok_mc_energy_est : byte (mc_obj_energy_est (i_mc I'));
  ok_mc_codes : RPL_DAG_MC_NONE <> RPL_DAG_MC_ETX /\
                RPL_DAG_MC_NONE <> RPL_DAG_MC_ENERGY;
  ok_intdoubl : byte (i_dio_intdoubl I');
  ok_intmin : byte (i_dio_intmin I');
  ok_redundancy : byte (i_dio_redundancy I');
  ok_max_rankinc : 0 <= i_max_rankinc I' < 2 ^ 16;
  ok_min_hoprankinc : 0 <= i_min_hoprankinc I' < 2 ^ 16;
  ok_ocp : 0 <= of_ocp (i_of I') < 2 ^ 16;
  ok_default_lifetime : byte (i_default_lifetime I');
  ok_lifetime_unit : 0 <= i_lifetime_unit I' < 2 ^ 16;
  ok_pfx_length : byte (pfx_length (d_prefix_info D'));
  ok_pfx_flags : byte (pfx_flags (d_prefix_info D'));
  ok_pfx_lifetime : 0 <= pfx_lifetime (d_prefix_info D') < 2 ^ 32;
  ok_pfx_prefix : ipaddr (pfx_prefix (d_prefix_info D'))
}.

(** The DIO that [dio_output] announces, as a typed message: the base from
    the instance and its DAG, the metric container (present outside leaf
    mode when the instance has one; its length on the wire is 2 and only
    the member of its type is carried), the DAG configuration, and the
    prefix information when a prefix is configured.  Grounded is the flag
    bit, and a leaf announces [INFINITE_RANK]. *)
Definition dio_message (I : rpl_instance_t) (D : rpl_dag_t)
    (I' : rpl_instance_t) (D' : rpl_dag_t) : rpl_dio_t :=
  {| dio_dag_id := d_dag_id D;
     dio_ocp := of_ocp (i_of I');
     dio_rank := if RPL_LEAF_ONLY then INFINITE_RANK else d_rank D;
     dio_grounded := if truthy (d_grounded D) then RPL_DIO_GROUNDED else 0;
     dio_mop := i_mop I;
     dio_preference := d_preference D;
     dio_version := d_version D;
     dio_instance_id := i_instance_id I;
     dio_dtsn := i_dtsn_out I;
     dio_dag_intdoubl := i_dio_intdoubl I';
     dio_dag_intmin := i_dio_intmin I';
     dio_dag_redund := i_dio_redundancy I';
     dio_default_lifetime := i_default_lifetime I';
     dio_lifetime_unit := i_lifetime_unit I';
     dio_dag_max_rankinc := i_max_rankinc I';
     dio_dag_min_hoprankinc := i_min_hoprankinc I';
     dio_destination_prefix := prefix_zero;
     dio_prefix_info :=
       if pfx_length (d_prefix_info D') >? 0 then d_prefix_info D' else prefix_zero;
     dio_mc :=
       if negb RPL_LEAF_ONLY && negb (mc_type (i_mc I) =? RPL_DAG_MC_NONE) then
         let m := i_mc I' in
         let is_etx := mc_type m =? RPL_DAG_MC_ETX in
         {| mc_type := mc_type m; mc_flags := mc_flags m; mc_aggr := mc_aggr m;
            mc_prec := mc_prec m; mc_length := 2;
            mc_obj_etx := if is_etx then mc_obj_etx m else 0;
            mc_obj_energy_flags := if is_etx then 0 else mc_obj_energy_flags m;
            mc_obj_energy_est := if is_etx then 0 else mc_obj_energy_est m |}
       else mc_zero |}.

End messages.

(** ** Options that overrun the payload *)

(** Some option of the stream from [i] on declares a length that reaches
    past [buffer_length]; [fuel] bounds the options looked at. *)
Fixpoint overruns (fuel : nat) (buffer : list Z) (buffer_length i : Z) : bool :=
  match fuel with
  | O => false
  | S fuel =>
      (i <? buffer_length) &&
      ((subopt_len buffer i + i >? buffer_length) ||
       overruns fuel buffer buffer_length (i + subopt_len buffer i))
  end.

(** ** Target options that fit the address *)

(** Every target option that the option loop of [dao_input_storing] and
    [dao_input_nonstoring] meets from [i] on declares a prefix of at most
    128 bits, so that the [memcpy] into the 16-octet [prefix] copies at
    most sixteen octets; [fuel] bounds the options looked at. *)
Fixpoint targets_fit (fuel : nat) (buffer : list Z) (buffer_length i : Z) : bool :=
  match fuel with
  | O => true
  | S fuel =>
      if i <? buffer_length then
        (if rd buffer i =? RPL_OPTION_TARGET then rd buffer (i + 3) <=? 128 else true) &&
        targets_fit fuel buffer buffer_length (i + subopt_len buffer i)
      else true
  end.

(** The same for the loop of [dco_input], whose index is a [uint16_t]. *)
Fixpoint dco_targets_fit (fuel : nat) (buffer : list Z) (buffer_length i : Z) : bool :=
  match fuel with
  | O => true
  | S fuel =>
      if i <? buffer_length then
        (if rd buffer i =? RPL_OPTION_TARGET then rd buffer (i + 3) <=? 128 else true) &&
        dco_targets_fit fuel buffer buffer_length
          (uint16 (i + uint16 (subopt_len buffer i)))
      else true
  end.

(** A received DAO, and a received DCO, whose target options fit: the
    options start behind the base and the DAG id, if the D flag says that
    there is one. *)
Definition dao_fits (pkt : icmp6_input) : bool :=
  targets_fit (Z.to_nat (uint8 (payload_len pkt))) (payload pkt)
    (uint8 (payload_len pkt))
    (if truthy (Z.land (rd (payload pkt) 1) RPL_DAO_D_FLAG) then 4 + 16 else 4).

Definition dco_fits (pkt : icmp6_input) : bool :=
  dco_targets_fit dco_fuel (payload pkt) (uint16 (payload_len pkt))
    (if truthy (Z.land (rd (payload pkt) 1) RPL_DAO_D_FLAG) then 4 + 16 else 4).

(** ** The handlers that remain: DIS and DAO-ACK *)

(** What the functions below take from the headers and the route table
    besides [rpl_conf] and [rpl_ext]: the number of slots of
    [instance_table], the switch [RPL_REPAIR_ON_DAO_NACK], and the entries
    of the route table in the order in which [uip_ds6_route_head] and
    [uip_ds6_route_next] walk them. *)
Class rpl_tables := {
  RPL_MAX_INSTANCES : nat;
  RPL_REPAIR_ON_DAO_NACK : bool;
  uip_ds6_route_list : gmap nat uip_ds6_route_t -> list nat
}.

(** [RPL_ROUTE_SET_DAO_PENDING] and [RPL_ROUTE_CLEAR_DAO_PENDING] *)
Definition set_dao_pending (b : bool) (s : rpl_route_entry_t) : rpl_route_entry_t :=
  {| rs_lifetime := rs_lifetime s; rs_dao_seqno_in := rs_dao_seqno_in s;
     rs_dao_seqno_out := rs_dao_seqno_out s;
     rs_dao_path_sequence := rs_dao_path_sequence s;
     rs_dao_pending := b;
     rs_nopath_received := rs_nopath_received s |}.

Section remaining_handlers.
Context {cfg : rpl_conf} {env : rpl_ext} {tbl : rpl_tables}.

(** The [while] loop of [find_route_entry_by_dao_ack] over the entries
    [l] still to visit. *)
Fixpoint find_route_entry_by_dao_ack_from (l : list nat) (seq : Z) (st : node)
    : option ptr :=
  match l with
  | [] => Some NULL
  | re :: l =>
      R ← routes st !! re;
      if (rs_dao_seqno_out (r_state R) =? seq) && rs_dao_pending (r_state R)
      then Some (Some re)
      else find_route_entry_by_dao_ack_from l seq st
  end.

(** Compiled under [RPL_WITH_DAO_ACK]. *)
Definition find_route_entry_by_dao_ack (seq : Z) (st : node) : option ptr :=
  find_route_entry_by_dao_ack_from (uip_ds6_route_list (routes st)) seq st.

(** The body of the [for] loop of [dis_input] for the slot [i] of
    [instance_table]; a slot that the table does not hold is an unused
    one. *)
Definition dis_input_instance (pkt : icmp6_input) (i : nat) (st : node) : option node :=
  match instance_table st !! i with
  | Some instance =>
      if i_used instance =? 1 then
        if uip_is_addr_mcast (destipaddr pkt) then
          Some (if RPL_LEAF_ONLY then st else call (rpl_reset_dio_timer i) st)
        else
          match rpl_icmp6_update_nbr_table (srcipaddr pkt) st with
          | None => Some st
          | Some st => dio_output i (Some (srcipaddr pkt)) st
          end
      else Some st
  | None => Some st
  end.

Fixpoint dis_input_from (pkt : icmp6_input) (slots : list nat) (st : node)
    : option node :=
  match slots with
  | [] => Some st
  | i :: slots => st ← dis_input_instance pkt i st; dis_input_from pkt slots st
  end.

Definition dis_input (pkt : icmp6_input) (st : node) : option node :=
  dis_input_from pkt (seq 0 RPL_MAX_INSTANCES) st.

(** [addr] is [NULL] for a multicast solicitation. *)
Definition dis_output (addr : option uip_ipaddr_t) (st : node) : node :=
  let buffer := [0; 0] in
  let addr := match addr with
              | Some a => a
              | None => linklocal_rplnodes_mcast
              end in
  call (uip_icmp6_send addr ICMP6_RPL RPL_CODE_DIS buffer) st.

(** [dao_ack_input].  The result tells, next to the node, whether
    [ctimer_stop] was called on the retransmission timer of the instance;
    the call comes before the calls that this function adds to the
    trace. *)
Definition dao_ack_input (pkt : icmp6_input) (st : node) : option (bool * node) :=
  if RPL_WITH_DAO_ACK then
    let buffer := payload pkt in
    let instance_id := rd buffer 0 in
    let sequence := rd buffer 2 in
    let status := rd buffer 3 in
    match rpl_get_instance (instance_table st) instance_id with
    | None => Some (false, st)
    | Some i =>
        I ← instance_table st !! i;
        let parent := if RPL_IS_STORING I
                      then rpl_find_parent (parent_table st) (i_current_dag I)
                             (srcipaddr pkt)
                      else NULL in
        if RPL_IS_STORING I && bool_decide (parent = NULL) then Some (false, st)
        else if sequence =? i_my_dao_seqno I then
          let st := with_instance_table
                      <[i := set_i_has_downward_route
                               (if status <? 128 then 1 else 0) I]> st in
          let st := if RPL_IS_STORING I && of_dao_ack_callback (i_of I)
                    then call (dao_ack_callback parent status) st else st in
          let st := if RPL_REPAIR_ON_DAO_NACK &&
                       (status >=? RPL_DAO_ACK_UNABLE_TO_ACCEPT)
                    then call (rpl_local_repair i) st else st in
          Some (true, st)
        else if RPL_IS_STORING I then
          re ← find_route_entry_by_dao_ack sequence st;
          match re with
          | Some r =>
              R ← routes st !! r;
              let st := with_routes
                          <[r := set_state (set_dao_pending false (r_state R)) R]> st in
              let st :=
                match r_nexthop R with
                | None => st
                | Some nexthop =>
                    let buffer := <[2%nat := uint8 (rs_dao_seqno_in (r_state R))]> buffer in
                    call (uip_icmp6_send nexthop ICMP6_RPL RPL_CODE_DAO_ACK
                            (payload_bytes buffer 4)) st
                end in
              Some (false, if status >=? RPL_DAO_ACK_UNABLE_TO_ACCEPT
                           then with_routes (delete r) st else st)
          | None => Some (false, st)
          end
        else Some (false, st)
    end
  else Some (false, st).

(** [dco_ack_input] has an empty body. *)
Definition dco_ack_input (pkt : icmp6_input) (st : node) : node := st.

End remaining_handlers.

(** ** A neighbourhood in which routes change *)

Module neighbourhood.
Import contiki traffic.

(** One instance slot, no local repair on a negative DAO-ACK, and the
    route table walked in the order of its handles. *)
Definition tables : rpl_tables := {|
  RPL_MAX_INSTANCES := 1;
  RPL_REPAIR_ON_DAO_NACK := false;
  uip_ds6_route_list := fun t =>
    List.filter (fun r => bool_decide (is_Some (t !! r))) handles
|}.

(** A second neighbour below the router, to which the child moves. *)
Definition new_hop : uip_ipaddr_t :=
  [0xfe; 0x80; 0; 0; 0; 0; 0; 0; 0; 0; 0; 0; 0; 0; 0; 0x0b].

(** The DAO that announces the child through [new_hop], with path
    sequence 241 and lifetime 30; it asks for an acknowledgement. *)
Definition moved_dao : icmp6_input :=
  received new_hop (dao_octets RPL_DAO_K_FLAG 8 child 4 241 30).

(** The router with a neighbour cache that holds eight other neighbours,
    and thus is full. *)
Definition crowded : node :=
  with_nbr_cache (map (fun a => parent_ipaddr (20 + a)) handles) router.

(** A DIS sent to all RPL nodes, and one sent to the router alone. *)
Definition multicast_dis : icmp6_input :=
  {| srcipaddr := child_ll;
     destipaddr := [0xff; 0x02; 0; 0; 0; 0; 0; 0; 0; 0; 0; 0; 0; 0; 0; 0x1a];
     payload := [0; 0]; payload_len := 2 |}.

Definition unicast_dis : icmp6_input := received child_ll [0; 0].

(** The DAO-ACK with which the preferred parent answers the DAO with
    sequence number [seq_no]. *)
Definition dao_ack (seq_no status : Z) : icmp6_input :=
  received (parent_ipaddr 0) [30; 0; seq_no; status].

(** A host route to [2001:db8::(0x30 + k)] through the child's
    neighbour. *)
Definition other_route (k : nat) : uip_ds6_route_t :=
  {| r_ipaddr := [0x20; 0x01; 0x0d; 0xb8; 0; 0; 0; 0; 0; 0; 0; 0; 0; 0; 0;
                  0x30 + Z.of_nat k];
     r_length := 128; r_nexthop := Some child_ll; r_state := r_state child_route |}.

(** The router with a route table that holds eight other routes, and
    thus is full. *)
Definition packed : node :=
  with_routes (fun _ => list_to_map (map (fun k => (k, other_route k)) handles)) router.

(** A DIO of no octets, in a buffer that still holds an earlier DIO. *)
Definition empty_dio : icmp6_input :=
  {| srcipaddr := parent_ipaddr 0; destipaddr := destipaddr overrun_dio;
     payload := payload overrun_dio; payload_len := 0 |}.

(** The router once its DAO sequence counter has passed the number of
    its own last DAO, with the route to the child still waiting for the
    answer to a DAO passed on as number 200, and a second route; and the
    router after it then forwarded the DAO number 7 for the second route
    under its own number 242. *)
Definition forwarding : node :=
  with_routes
    (fun t => <[1%nat := other_route 0]>
                (<[0%nat := set_state (set_dao_fwd 3 200 (r_state child_route))
                              child_route]> t))
    (with_dao_sequence 241 router).

Definition forwarded : node :=
  with_routes
    <[1%nat := set_state (set_dao_fwd 7 242 (r_state (other_route 0))) (other_route 0)]>
    (with_dao_sequence 242 forwarding).

(** The build of a non-storing network: as [conf], but without storing
    mode and DCO and with non-storing mode. *)
Definition non_storing_conf : rpl_conf := {|
  RPL_WITH_STORING := false;
  RPL_WITH_NON_STORING := true;
  RPL_WITH_DCO := false;
  RPL_WITH_DAO_ACK := @RPL_WITH_DAO_ACK conf;
  RPL_WITH_DCO_ACK := false;
  RPL_WITH_MULTICAST := @RPL_WITH_MULTICAST conf;
  RPL_LEAF_ONLY := @RPL_LEAF_ONLY conf;
  RPL_DAO_SPECIFY_DAG := @RPL_DAO_SPECIFY_DAG conf;
  RPL_DIO_REFRESH_DAO_ROUTES := @RPL_DIO_REFRESH_DAO_ROUTES conf;
  RPL_DAG_MC := @RPL_DAG_MC conf;
  RPL_DAG_MC_NONE := @RPL_DAG_MC_NONE conf;
  RPL_DAG_MC_ETX := @RPL_DAG_MC_ETX conf;
  RPL_DAG_MC_ENERGY := @RPL_DAG_MC_ENERGY conf;
  RPL_DAG_MC_FLAG_P := @RPL_DAG_MC_FLAG_P conf;
  RPL_DAG_MC_AGGR_ADDITIVE := @RPL_DAG_MC_AGGR_ADDITIVE conf;
  RPL_DAG_MC_ENERGY_TYPE := @RPL_DAG_MC_ENERGY_TYPE conf;
  RPL_DAG_MC_ENERGY_TYPE_MAINS := @RPL_DAG_MC_ENERGY_TYPE_MAINS conf;
  RPL_DAG_MC_ENERGY_TYPE_BATTERY := @RPL_DAG_MC_ENERGY_TYPE_BATTERY conf;
  RPL_DAG_MC_ETX_DIVISOR := @RPL_DAG_MC_ETX_DIVISOR conf;
  LINK_STATS_ETX_DIVISOR := @LINK_STATS_ETX_DIVISOR conf;
  RPL_INIT_LINK_METRIC := @RPL_INIT_LINK_METRIC conf;
  INFINITE_RANK := @INFINITE_RANK conf;
  RPL_MIN_HOPRANKINC := @RPL_MIN_HOPRANKINC conf;
  RPL_MAX_RANKINC := @RPL_MAX_RANKINC conf;
  RPL_DIO_INTERVAL_DOUBLINGS := @RPL_DIO_INTERVAL_DOUBLINGS conf;
  RPL_DIO_INTERVAL_MIN := @RPL_DIO_INTERVAL_MIN conf;
  RPL_DIO_REDUNDANCY := @RPL_DIO_REDUNDANCY conf;
  RPL_OF_OCP := @RPL_OF_OCP conf;
  RPL_DEFAULT_LIFETIME := @RPL_DEFAULT_LIFETIME conf;
  RPL_DEFAULT_LIFETIME_UNIT := @RPL_DEFAULT_LIFETIME_UNIT conf;
  RPL_NOPATH_REMOVAL_DELAY := @RPL_NOPATH_REMOVAL_DELAY conf;
  RPL_DAO_MAX_RETRANSMISSIONS := @RPL_DAO_MAX_RETRANSMISSIONS conf;
  RPL_DAO_RETRANSMISSION_TIMEOUT := @RPL_DAO_RETRANSMISSION_TIMEOUT conf;
  RPL_DAO_ACK_UNABLE_TO_ACCEPT := @RPL_DAO_ACK_UNABLE_TO_ACCEPT conf;
  RPL_DAO_ACK_UNABLE_TO_ADD_ROUTE_AT_ROOT := @RPL_DAO_ACK_UNABLE_TO_ADD_ROUTE_AT_ROOT conf;
  RPL_DAO_ACK_TIMEOUT := @RPL_DAO_ACK_TIMEOUT conf;
  RPL_PARENT_FLAG_UPDATED := @RPL_PARENT_FLAG_UPDATED conf;
  RPL_MOP_NON_STORING := @RPL_MOP_NON_STORING conf;
  RPL_IS_STORING := @RPL_IS_STORING conf;
  RPL_IS_NON_STORING := @RPL_IS_NON_STORING conf;
  RPL_LOLLIPOP_INCREMENT := @RPL_LOLLIPOP_INCREMENT conf;
  ROOT_RANK := @ROOT_RANK conf;
  RPL_LIFETIME := @RPL_LIFETIME conf;
  uip_is_addr_mcast := @uip_is_addr_mcast conf;
  uip_is_addr_mcast_global := @uip_is_addr_mcast_global conf;
  uip_is_addr_linklocal := @uip_is_addr_linklocal conf;
  uip_is_addr_unspecified := @uip_is_addr_unspecified conf;
  linklocal_rplnodes_mcast := @linklocal_rplnodes_mcast conf
|}.

(** The root of a non-storing network, and the DAO with which the child
    tells it that it is reached through the parent [fe80::1], with
    lifetime 30; the DAO asks for an acknowledgement. *)
Definition ns_root : node :=
  with_instance_table (fun _ => {[ 0%nat := mk_instance 1 true 30 60 1 ]}) router.

Definition link_dao : icmp6_input :=
  received child
    ([30; RPL_DAO_K_FLAG; 0; 241; RPL_OPTION_TARGET; 18; 0; 128] ++ child ++
     [RPL_OPTION_TRANSIT; 20; 0; 0; 240; 30] ++
     take 8 (d_dag_id (mk_dag 1 0 0 768 (Some 0%nat))) ++ drop 8 (parent_ipaddr 0)).

(** The router as the root of its DAG: grounded, with the rank of a
    root and no parent. *)
Definition dag_root : node :=
  with_dag_table (fun _ => {[ 0%nat := mk_dag 1 1 0 256 NULL ]}) router.

End neighbourhood.

(** * Properties *)

(** ** Objective functions *)

Section objective_functions.
Context {cfg : rpl_conf} {env : rpl_ext}.

Local Ltac bool_cases :=
  repeat match goal with
         | |- context [bool_decide ?P] => destruct (bool_decide_reflect P)
         | |- context [?a <? ?b] => destruct (Z.ltb_spec a b)
         | |- context [?a >? ?b] => rewrite (Z.gtb_ltb a b)
         | |- context [?a <=? ?b] => destruct (Z.leb_spec a b)
         | |- context [?a >=? ?b] => rewrite (Z.geb_leb a b)
         | |- context [?a =? ?b] => destruct (Z.eqb_spec a b)
         end; simpl.

(** MRHOF keeps the preferred parent only strictly inside the hysteresis
    band. *)
Lemma mrhof_best_parent_inside st a1 P1 p2 d D m1 m2 :
  parent_table st !! a1 = Some P1 -> p_dag P1 = Some d ->
  dag_table st !! d = Some D ->
  rpl_mrhof.calculate_path_metric st (Some a1) = Some m1 ->
  rpl_mrhof.calculate_path_metric st p2 = Some m2 ->
  Some a1 = d_preferred_parent D \/ p2 = d_preferred_parent D ->
  Z.abs (m1 - m2) <
    uint16 (RPL_DAG_MC_ETX_DIVISOR / rpl_mrhof.PARENT_SWITCH_THRESHOLD_DIV) ->
  rpl_mrhof.best_parent st (Some a1) p2 = Some (d_preferred_parent D).
Proof.
  intros HP1 Hd HD Hm1 Hm2 Hpref Habs.
  unfold rpl_mrhof.best_parent. rewrite Hm1, Hm2. simpl.
  rewrite HP1. simpl. rewrite Hd. simpl. rewrite HD. simpl.
  destruct Hpref; bool_cases; try reflexivity; try lia; congruence.
Qed.

(** Outside the band, or when neither parent is preferred, MRHOF returns
    the parent with the smaller path metric, [p2] on equality. *)
Lemma mrhof_best_parent_outside st a1 P1 p2 d D m1 m2 :
  parent_table st !! a1 = Some P1 -> p_dag P1 = Some d ->
  dag_table st !! d = Some D ->
  rpl_mrhof.calculate_path_metric st (Some a1) = Some m1 ->
  rpl_mrhof.calculate_path_metric st p2 = Some m2 ->
  (Some a1 <> d_preferred_parent D /\ p2 <> d_preferred_parent D) \/
  uint16 (RPL_DAG_MC_ETX_DIVISOR / rpl_mrhof.PARENT_SWITCH_THRESHOLD_DIV)
    <= Z.abs (m1 - m2) ->
  rpl_mrhof.best_parent st (Some a1) p2 = Some (if m1 <? m2 then Some a1 else p2).
Proof.
  intros HP1 Hd HD Hm1 Hm2 Hout.
  unfold rpl_mrhof.best_parent. rewrite Hm1, Hm2. simpl.
  rewrite HP1. simpl. rewrite Hd. simpl. rewrite HD. simpl.
  destruct Hout as [[? ?]|?]; bool_cases; try reflexivity; try lia; congruence.
Qed.

(** C7.  When the path metrics of [p1] and [p2] differ by exactly
    [ETX_DIVISOR / 2], MRHOF's [best_parent] returns the parent with the
    smaller path metric, whichever of the two is the preferred parent: the
    comparisons of the hysteresis test are strict, so the boundary lies
    outside the band in which the preferred parent is kept. *)
Theorem C7_mrhof_best_parent_boundary st a1 P1 p2 d D m1 m2 :
  parent_table st !! a1 = Some P1 -> p_dag P1 = Some d ->
  dag_table st !! d = Some D ->
  rpl_mrhof.calculate_path_metric st (Some a1) = Some m1 ->
  rpl_mrhof.calculate_path_metric st p2 = Some m2 ->
  Z.abs (m1 - m2) =
    uint16 (RPL_DAG_MC_ETX_DIVISOR / rpl_mrhof.PARENT_SWITCH_THRESHOLD_DIV) ->
  rpl_mrhof.best_parent st (Some a1) p2 = Some (if m1 <? m2 then Some a1 else p2).
Proof.
  intros HP1 Hd HD Hm1 Hm2 Habs.
  eapply mrhof_best_parent_outside; eauto. right. lia.
Qed.

(** C8.  The two [best_dag] functions order by grounded first (as a truth
    value), then higher preference, then lower rank, and agree whenever the
    DAGs differ in one of the three; when they tie on all three MRHOF
    returns [d2] and OF0 returns [d1].  The grounded flags are taken to be
    equal when both are set, which is where MRHOF compares the stored
    values. *)
Theorem C8_best_dag_order st a1 a2 D1 D2 :
  dag_table st !! a1 = Some D1 -> dag_table st !! a2 = Some D2 ->
  (truthy (d_grounded D1) = truthy (d_grounded D2) ->
   d_grounded D1 = d_grounded D2) ->
  let winner :=
    if negb (eqb (truthy (d_grounded D1)) (truthy (d_grounded D2))) then
      Some (if truthy (d_grounded D1) then a1 else a2)
    else if negb (d_preference D1 =? d_preference D2) then
      Some (if d_preference D2 <? d_preference D1 then a1 else a2)
    else if negb (d_rank D1 =? d_rank D2) then
      Some (if d_rank D1 <? d_rank D2 then a1 else a2)
    else None in
  match winner with
  | Some w =>
      rpl_mrhof.best_dag st (Some a1) (Some a2) = Some (Some w) /\
      rpl_of0.best_dag st (Some a1) (Some a2) = Some (Some w)
  | None =>
      rpl_mrhof.best_dag st (Some a1) (Some a2) = Some (Some a2) /\
      rpl_of0.best_dag st (Some a1) (Some a2) = Some (Some a1)
  end.
Proof.
  intros H1 H2 Hg.
  unfold rpl_mrhof.best_dag, rpl_of0.best_dag. simpl.
  rewrite H1, H2. simpl.
  unfold truthy in *.
  destruct (Z.eqb_spec (d_grounded D1) 0) as [E1|E1];
    destruct (Z.eqb_spec (d_grounded D2) 0) as [E2|E2]; simpl in *;
    try specialize (Hg eq_refl);
    bool_cases; try split; first [reflexivity | lia | congruence].
Qed.

Lemma of0_step_quot lm :
  0 < LINK_STATS_ETX_DIVISOR -> 0 <= lm ->
  (3 * lm) ÷ LINK_STATS_ETX_DIVISOR = (3 * lm) / LINK_STATS_ETX_DIVISOR.
Proof. intros. apply Z.quot_div_nonneg; lia. Qed.

(** C9.  In OF0 the step of rank of a parent is
    [3 * link_metric / ETX_DIVISOR - 2] without clipping; the parent is
    acceptable exactly when that step lies in [1, 9], that is when its link
    metric lies in [ETX_DIVISOR, 4 * ETX_DIVISOR); and the rank increase is
    [(RANK_FACTOR * step + RANK_STRETCH) * min_hoprankinc] (as [uint16_t])
    for that unclipped step, acceptable or not. *)
Theorem C9_of0_step_of_rank st p lm :
  0 < LINK_STATS_ETX_DIVISOR ->
  rpl_of0.parent_link_metric st p = lm -> 0 <= lm ->
  rpl_of0.STEP_OF_RANK st p = 3 * lm / LINK_STATS_ETX_DIVISOR - 2 /\
  (rpl_of0.parent_is_acceptable st p = true <->
   1 <= rpl_of0.STEP_OF_RANK st p <= 9) /\
  (rpl_of0.parent_is_acceptable st p = true <->
   LINK_STATS_ETX_DIVISOR <= lm < 4 * LINK_STATS_ETX_DIVISOR) /\
  (forall a P d D i inst,
     p = Some a -> parent_table st !! a = Some P ->
     p_dag P = Some d -> dag_table st !! d = Some D ->
     d_instance D = Some i -> instance_table st !! i = Some inst ->
     rpl_of0.parent_rank_increase st p =
       Some (uint16 ((1 * rpl_of0.STEP_OF_RANK st p + 0)
                     * uint16 (i_min_hoprankinc inst)))).
Proof.
  intros Hdiv Hlm Hnn.
  assert (Hstep : rpl_of0.STEP_OF_RANK st p = 3 * lm / LINK_STATS_ETX_DIVISOR - 2).
  { unfold rpl_of0.STEP_OF_RANK. rewrite Hlm, of0_step_quot by lia. reflexivity. }
  assert (Hacc : rpl_of0.parent_is_acceptable st p = true <->
                 1 <= rpl_of0.STEP_OF_RANK st p <= 9).
  { unfold rpl_of0.parent_is_acceptable, rpl_of0.MIN_STEP_OF_RANK,
      rpl_of0.MAX_STEP_OF_RANK.
    rewrite andb_true_iff, Z.geb_le, Z.leb_le. lia. }
  split; [exact Hstep|]. split; [exact Hacc|]. split.
  - rewrite Hacc, Hstep.
    pose proof (Z.div_mod (3 * lm) LINK_STATS_ETX_DIVISOR) as Hq.
    pose proof (Z.mod_pos_bound (3 * lm) LINK_STATS_ETX_DIVISOR Hdiv) as Hr.
    set (q := 3 * lm / LINK_STATS_ETX_DIVISOR) in *.
    set (r := (3 * lm) mod LINK_STATS_ETX_DIVISOR) in *.
    specialize (Hq ltac:(lia)).
    split; intros [? ?]; split; nia.
  - intros a P d D i inst -> HP Hd HD Hi HI.
    unfold rpl_of0.parent_rank_increase.
    rewrite HP. simpl. rewrite Hd, HD. simpl. rewrite Hi, HI. simpl.
    reflexivity.
Qed.


End objective_functions.

Section objective_function_examples.
Import contiki scenarios.

(** The boundary case of scenario 1: the preferred parent [p1] with path
    metric 384 against [p2] with 320. *)
Lemma C7_boundary_witness :
  rpl_mrhof.best_parent (cfg := conf) boundary (Some 0%nat) (Some 1%nat)
  = Some (if 384 <? 320 then Some 0%nat else Some 1%nat).
Proof.
  exact (C7_mrhof_best_parent_boundary (cfg := conf) boundary 0%nat boundary_p1
           (Some 1%nat) 0%nat (mk_dag 1 0 0 768 (Some 0%nat)) 384 320
           eq_refl eq_refl eq_refl eq_refl eq_refl eq_refl).
Defined.

(** On the boundary the preferred parent [p1] is given up for [p2]. *)
Lemma mrhof_boundary_switches :
  rpl_mrhof.best_parent (cfg := conf) boundary (Some 0%nat) (Some 1%nat)
  = Some (Some 1%nat) /\
  (mk_dag 1 0 0 768 (Some 0%nat)).(d_preferred_parent) = Some 0%nat.
Proof. split; reflexivity. Qed.

(** The two [best_dag] differ on DAGs that tie, and on two grounded DAGs
    whose stored flags differ. *)
Lemma C8_best_dag_counterexample :
  rpl_mrhof.best_dag tie (Some 0%nat) (Some 1%nat)
    <> rpl_of0.best_dag tie (Some 0%nat) (Some 1%nat) /\
  rpl_mrhof.best_dag flags (Some 0%nat) (Some 1%nat)
    <> rpl_of0.best_dag flags (Some 0%nat) (Some 1%nat).
Proof. split; vm_compute; discriminate. Qed.

(** Two DAGs that differ in rank: both functions pick the lower rank. *)
Lemma C8_best_dag_witness :
  rpl_mrhof.best_dag ranked (Some 0%nat) (Some 1%nat) = Some (Some 1%nat) /\
  rpl_of0.best_dag ranked (Some 0%nat) (Some 1%nat) = Some (Some 1%nat).
Proof.
  exact (C8_best_dag_order ranked 0%nat 1%nat ranked_d1 ranked_d2
           eq_refl eq_refl (fun _ => eq_refl)).
Defined.

(** A parent of unknown ETX has step 1533, and that step goes into its rank
    increase. *)
Lemma C9_step_counterexample :
  rpl_of0.STEP_OF_RANK (cfg := conf) (env := ext) unknown_etx (Some 0%nat) = 1533 /\
  rpl_of0.parent_rank_increase (cfg := conf) (env := ext) unknown_etx (Some 0%nat)
    = Some (uint16 (1533 * 256)) /\
  ~ (exists step, 1 <= step <= 9 /\
       rpl_of0.parent_rank_increase (cfg := conf) (env := ext) unknown_etx (Some 0%nat)
       = Some (uint16 ((1 * step + 0) * 256))).
Proof.
  split; [reflexivity|]. split; [reflexivity|].
  intros [step [Hstep Heq]].
  assert (Hinc : rpl_of0.parent_rank_increase (cfg := conf) (env := ext)
                   unknown_etx (Some 0%nat) = Some 64768) by reflexivity.
  rewrite Hinc in Heq. injection Heq as Heq. unfold uint16 in Heq.
  rewrite Z.mod_small in Heq by lia. lia.
Qed.

(** A parent of ETX 2.0 is acceptable. *)
Lemma C9_step_witness :
  rpl_of0.parent_is_acceptable (cfg := conf) (env := ext) unknown_etx (Some 1%nat) = true
  <-> 128 <= 256 < 4 * 128.
Proof.
  exact (proj1 (proj2 (proj2
           (C9_of0_step_of_rank (cfg := conf) (env := ext) unknown_etx (Some 1%nat) 256
              ltac:(reflexivity) eq_refl ltac:(discriminate))))).
Defined.


(** The parent returned need not be one of the two compared. *)
Lemma of0_best_parent_third :
  rpl_of0.best_parent (cfg := conf) third_preferred (Some 0%nat) (Some 1%nat)
  = Some (Some 2%nat).
Proof. reflexivity. Qed.

End objective_function_examples.

(** ** Wire codec *)

Section codec_lemmas.
Context {cfg : rpl_conf} {env : rpl_ext}.

Lemma uint8_small x : byte x -> uint8 x = x.
Proof. intros Hx. apply Z.mod_small. exact Hx. Qed.

Lemma lor_disjoint_add a b k :
  0 <= k -> a mod 2 ^ k = 0 -> 0 <= b < 2 ^ k -> Z.lor a b = a + b.
Proof.
  intros Hk Ha Hb. symmetry. apply Z.add_nocarry_lor.
  apply Z.bits_inj'. intros n Hn. rewrite Z.land_spec, Z.bits_0.
  destruct (Z.lt_ge_cases n k) as [Hlt|Hge].
  - rewrite <- (Z.mod_pow2_bits_low a k n) by lia. rewrite Ha, Z.bits_0. reflexivity.
  - rewrite <- (Z.mod_small b (2 ^ k)) by lia.
    rewrite Z.mod_pow2_bits_high by lia. apply andb_false_r.
Qed.

(** [get16] after [set16], octet by octet. *)
Lemma be16 v :
  0 <= v < 2 ^ 16 ->
  uint16 (Z.lor (Z.shiftl (uint8 (Z.shiftr v 8)) 8) (uint8 (Z.land v 0xff))) = v.
Proof.
  intros Hv. unfold uint8, uint16.
  change 0xff with (Z.ones 8).
  rewrite Z.land_ones, Z.shiftr_div_pow2, Z.shiftl_mul_pow2 by lia.
  rewrite (lor_disjoint_add _ _ 8); try lia.
  - Z.div_mod_to_equations. lia.
  - apply Z.mod_mul. lia.
  - Z.div_mod_to_equations. lia.
Qed.

(** [get32] after [set32], octet by octet. *)
Lemma be32 v :
  0 <= v < 2 ^ 32 ->
  uint32 (Z.lor (Z.lor (Z.lor
    (uint32 (Z.shiftl (uint8 (Z.shiftr v 24)) 24))
    (uint32 (Z.shiftl (uint8 (Z.land (Z.shiftr v 16) 0xff)) 16)))
    (uint32 (Z.shiftl (uint8 (Z.land (Z.shiftr v 8) 0xff)) 8)))
    (uint8 (Z.land v 0xff))) = v.
Proof.
  intros Hv. unfold uint8, uint32.
  change 0xff with (Z.ones 8).
  rewrite !Z.land_ones, !Z.shiftr_div_pow2, !Z.shiftl_mul_pow2 by lia.
  set (b3 := (v / 2 ^ 24) mod 2 ^ 8).
  set (b2 := ((v / 2 ^ 16) mod 2 ^ 8) mod 2 ^ 8).
  set (b1 := ((v / 2 ^ 8) mod 2 ^ 8) mod 2 ^ 8).
  set (b0 := (v mod 2 ^ 8) mod 2 ^ 8).
  assert (H3 : 0 <= b3 < 2 ^ 8) by (apply Z.mod_pos_bound; lia).
  assert (H2 : 0 <= b2 < 2 ^ 8) by (apply Z.mod_pos_bound; lia).
  assert (H1 : 0 <= b1 < 2 ^ 8) by (apply Z.mod_pos_bound; lia).
  assert (H0 : 0 <= b0 < 2 ^ 8) by (apply Z.mod_pos_bound; lia).
  rewrite !(Z.mod_small (_ * _) (2 ^ 32)) by lia.
  rewrite (lor_disjoint_add (b3 * 2 ^ 24) _ 24) by
    (try apply Z.mod_mul; lia).
  rewrite (lor_disjoint_add (b3 * 2 ^ 24 + b2 * 2 ^ 16) _ 16);
    [| lia | | lia].
  2:{ replace (b3 * 2 ^ 24 + b2 * 2 ^ 16) with ((b3 * 2 ^ 8 + b2) * 2 ^ 16) by lia.
      apply Z.mod_mul. lia. }
  rewrite (lor_disjoint_add (b3 * 2 ^ 24 + b2 * 2 ^ 16 + b1 * 2 ^ 8) _ 8);
    [| lia | | lia].
  2:{ replace (b3 * 2 ^ 24 + b2 * 2 ^ 16 + b1 * 2 ^ 8)
        with ((b3 * 2 ^ 16 + b2 * 2 ^ 8 + b1) * 2 ^ 8) by lia.
      apply Z.mod_mul. lia. }
  rewrite Z.mod_small by lia.
  subst b3 b2 b1 b0. Z.div_mod_to_equations. lia.
Qed.

(** A property checked on every value below [n] holds for each of them. *)
Lemma forallb_below (P : Z -> bool) (n : nat) :
  forallb P (map Z.of_nat (seq 0 n)) = true ->
  forall x, 0 <= x < Z.of_nat n -> P x = true.
Proof.
  intros Hall x Hx. rewrite forallb_forall in Hall. apply Hall.
  apply in_map_iff. exists (Z.to_nat x). split; [lia|]. apply in_seq. lia.
Qed.

(** The flags octet of the DIO base: G at 0x80, MOP in bits 5..3, Prf in
    bits 2..0. *)
Lemma dio_flags_octet (g : bool) mop pref :
  0 <= mop < 8 -> 0 <= pref < 8 ->
  let b := uint8 (uint8 (Z.lor
             (uint8 (Z.lor (if g then uint8 (Z.lor 0 RPL_DIO_GROUNDED) else 0)
                           (Z.shiftl mop RPL_DIO_MOP_SHIFT)))
             (Z.land pref RPL_DIO_PREFERENCE_MASK))) in
  Z.land b RPL_DIO_GROUNDED = (if g then RPL_DIO_GROUNDED else 0) /\
  Z.shiftr (Z.land b RPL_DIO_MOP_MASK) RPL_DIO_MOP_SHIFT = mop /\
  Z.land b RPL_DIO_PREFERENCE_MASK = pref.
Proof.
  intros Hmop Hpref.
  pose (check := fun g m p =>
    let b := uint8 (uint8 (Z.lor
               (uint8 (Z.lor (if g : bool then uint8 (Z.lor 0 RPL_DIO_GROUNDED) else 0)
                             (Z.shiftl m RPL_DIO_MOP_SHIFT)))
               (Z.land p RPL_DIO_PREFERENCE_MASK))) in
    (Z.land b RPL_DIO_GROUNDED =? (if g then RPL_DIO_GROUNDED else 0)) &&
    (Z.shiftr (Z.land b RPL_DIO_MOP_MASK) RPL_DIO_MOP_SHIFT =? m) &&
    (Z.land b RPL_DIO_PREFERENCE_MASK =? p)).
  assert (Hall : forall g', forallb (fun m =>
            forallb (check g' m) (map Z.of_nat (seq 0 8)))
            (map Z.of_nat (seq 0 8)) = true)
    by (intros []; vm_compute; reflexivity).
  pose proof (forallb_below _ _ (forallb_below _ _ (Hall g) mop Hmop) pref Hpref) as Hc.
  unfold check in Hc. rewrite !andb_true_iff, !Z.eqb_eq in Hc.
  cbv zeta. tauto.
Qed.

(** The two octets of the metric container that carry flags, aggregation
    and precedence. *)
Lemma mc_flags_octets flags aggr prec :
  byte flags -> 0 <= aggr < 4 -> 0 <= prec < 16 ->
  let b3 := uint8 (Z.shiftr flags 1) in
  let b4 := uint8 (Z.lor (uint8 (Z.shiftl (Z.land flags 1) 7))
                         (Z.lor (Z.shiftl aggr 4) prec)) in
  uint8 (Z.lor (uint8 (Z.shiftl b3 1)) (Z.shiftr b4 7)) = flags /\
  Z.land (Z.shiftr b4 4) 0x3 = aggr /\
  Z.land b4 0xf = prec.
Proof.
  intros Hflags Haggr Hprec.
  pose (check := fun f a p =>
    let b3 := uint8 (Z.shiftr f 1) in
    let b4 := uint8 (Z.lor (uint8 (Z.shiftl (Z.land f 1) 7))
                           (Z.lor (Z.shiftl a 4) p)) in
    (uint8 (Z.lor (uint8 (Z.shiftl b3 1)) (Z.shiftr b4 7)) =? f) &&
    (Z.land (Z.shiftr b4 4) 0x3 =? a) && (Z.land b4 0xf =? p)).
  assert (Hall : forallb (fun f => forallb (fun a =>
            forallb (check f a) (map Z.of_nat (seq 0 16)))
            (map Z.of_nat (seq 0 4))) (map Z.of_nat (seq 0 256)) = true)
    by (vm_compute; reflexivity).
  pose proof (forallb_below _ _ (forallb_below _ _
                (forallb_below _ _ Hall flags Hflags) aggr Haggr) prec Hprec) as Hc.
  unfold check in Hc. rewrite !andb_true_iff, !Z.eqb_eq in Hc.
  cbv zeta. tauto.
Qed.

End codec_lemmas.

Section roundtrip.
Context {cfg : rpl_conf} {env : rpl_ext}.

Lemma dio_options_step fuel buffer bl i dio :
  i < bl -> subopt_len buffer i + i <= bl ->
  dio_options (S fuel) buffer bl i dio =
  match dio_option buffer i (subopt_len buffer i) (rd buffer i) dio with
  | dio_ok dio => dio_options fuel buffer bl (i + subopt_len buffer i) dio
  | r => Some r
  end.
Proof.
  intros Hi Hlen. simpl.
  destruct (Z.ltb_spec i bl); [|lia].
  rewrite Z.gtb_ltb. destruct (Z.ltb_spec bl (subopt_len buffer i + i)); [lia|].
  reflexivity.
Qed.

Lemma rd_bytes_16 l : length l = 16%nat -> rd_bytes l 0 16 = l.
Proof.
  intros Hl. do 16 (destruct l as [|? l]; [discriminate Hl|]).
  destruct l; [reflexivity|discriminate Hl].
Qed.

Ltac explode15 l H :=
  do 15 (destruct l as [|? l]; [discriminate H|]);
  destruct l; [clear H|discriminate H].

(** Names the octets of the buffer that are not literals, so that the
    decoder can be run on it. *)
Ltac name_octets :=
  repeat match goal with
  | |- context [@cons Z ?e _] =>
      lazymatch e with
      | Z0 => fail
      | Zpos _ => fail
      | _ => tryif is_var e then fail else
             let v := eval vm_compute in e in
             lazymatch v with
             | Z0 => change e with v
             | Zpos _ => change e with v
             | _ => let a := fresh "octet" in remember e as a
             end
      end
  end.

(** The length of the buffer and the fuel of the option loop, as literals. *)
Ltac len_eval :=
  repeat match goal with
  | |- context [Z.of_nat (length ?l)] =>
      let v := eval vm_compute in (Z.of_nat (length l)) in
      change (Z.of_nat (length l)) with v
  | |- context [uint8 (Zpos ?p)] =>
      let v := eval vm_compute in (uint8 (Zpos p)) in
      change (uint8 (Zpos p)) with v
  | |- context [uint16 (Zpos ?p)] =>
      let v := eval vm_compute in (uint16 (Zpos p)) in
      change (uint16 (Zpos p)) with v
  | |- context [Z.to_nat (Zpos ?p)] =>
      let v := eval vm_compute in (Z.to_nat (Zpos p)) in
      change (Z.to_nat (Zpos p)) with v
  end.

Ltac octet_eval :=
  repeat match goal with
  | |- context [subopt_len ?l ?i] =>
      let v := eval cbv in (subopt_len l i) in change (subopt_len l i) with v
  | |- context [rd ?l ?i] =>
      let v := eval cbv in (rd l i) in change (rd l i) with v
  end.

Ltac run_decoder :=
  match goal with
  | |- ?L = _ =>
      let v := eval cbv -[uint8 uint16 uint32 Z.lor Z.land Z.shiftl Z.shiftr] in L in
      change L with v
  end.

Ltac field_ok :=
  first [ reflexivity
        | assumption
        | apply uint8_small; assumption
        | apply be16; assumption
        | apply be32; assumption ].

(** Decoding what [dio_payload] lays out gives back the DIO, whatever
    follows the payload in the buffer. *)
Lemma dio_roundtrip I D I' D' buffer stale :
  dio_fields_ok I D I' D' ->
  dio_payload I D I' D' = Some buffer ->
  dio_decode (buffer ++ stale) (Z.of_nat (length buffer))
  = Some (dio_ok (dio_message I D I' D')).
Proof.
  intros [] Hb.
  destruct ok_dag_id0 as [Hlen Hbytes], ok_pfx_prefix0 as [Hplen Hpbytes],
    ok_mc_codes0 as [Hne1 Hne2].
  pose proof (dio_flags_octet (truthy (d_grounded D)) _ _ ok_mop0 ok_preference0)
    as (Hg & Hm & Hp).
  pose proof (mc_flags_octets _ _ _ ok_mc_flags0 ok_mc_aggr0 ok_mc_prec0)
    as (Hmf & Hma & Hmp).
  cbv zeta in Hg, Hm, Hp, Hmf, Hma, Hmp.
  unfold dio_payload, put_bytes in Hb. unfold dio_message.
  destruct (d_prefix_info D') as [pfx plife plen pflags]. simpl in *.
  rewrite (rd_bytes_16 (d_dag_id D)), ?(rd_bytes_16 pfx) in Hb by assumption.
  destruct (d_dag_id D) as [|z0 dagid]; [discriminate Hlen|].
  explode15 dagid Hlen.
  destruct pfx as [|q0 pfx]; [discriminate Hplen|].
  explode15 pfx Hplen.
  revert Hb.
  destruct RPL_LEAF_ONLY;
    destruct (mc_type (i_mc I) =? RPL_DAG_MC_NONE);
    destruct (Z.eqb_spec (mc_type (i_mc I')) RPL_DAG_MC_ETX) as [Eetx|Eetx];
    destruct (Z.eqb_spec (mc_type (i_mc I')) RPL_DAG_MC_ENERGY) as [Eng|Eng];
    destruct (plen >? 0); intros Hb;
    cbv [put set16 set32 put_bytes rd_bytes app map seq negb andb mbind option_bind
         repeat] in Hb;
    try discriminate Hb;
    injection Hb as <-.
  all: cbv [negb andb app].
  all: name_octets; unfold dio_decode; len_eval.
  all: try (run_decoder; subst; repeat f_equal; field_ok).

  all: rewrite dio_options_step by (cbv; first [reflexivity | intro; discriminate]).
  all: octet_eval; unfold dio_option; cbv zeta; octet_eval.
  all: change (2 =? RPL_OPTION_DAG_METRIC_CONTAINER) with true;
       change (8 <? 6) with false; cbv beta iota.
  all: match goal with
       | |- context [?o =? RPL_DAG_MC_NONE] =>
           assert (Ho : o = mc_type (i_mc I'))
             by (subst o; apply uint8_small; assumption)
       end.
  all: repeat match goal with
       | |- context [?o =? ?c] =>
           is_var o;
           first [ replace (o =? c) with true
                     by (symmetry; apply Z.eqb_eq; congruence)
                 | replace (o =? c) with false
                     by (symmetry; apply Z.eqb_neq; congruence) ];
           cbv beta iota
       end.
  all: clear Ho; run_decoder; subst; repeat f_equal; field_ok.
Qed.

(** More fuel does not change the result of the DCO option loop. *)
Lemma dco_options_fuel n m buffer bl i o r :
  (n <= m)%nat ->
  dco_options n buffer bl i o = Some r -> dco_options m buffer bl i o = Some r.
Proof.
  revert m i o. induction n as [|n IH]; intros m i o Hnm Hn.
  - simpl in Hn. destruct m; simpl; destruct (i <? bl); congruence.
  - destruct m as [|m]; [lia|]. simpl in *.
    destruct (i <? bl); [|exact Hn]. apply IH; [lia|exact Hn].
Qed.

Lemma dao_payload_parse inst dag_id flags seq prefix pathseq lifetime o0 stale :
  byte (i_instance_id inst) -> byte flags -> byte seq -> ipaddr prefix ->
  byte pathseq -> byte lifetime ->
  (RPL_DAO_SPECIFY_DAG = true -> ipaddr dag_id) ->
  let b := dao_payload inst dag_id flags seq prefix 4 pathseq lifetime in
  let n := Z.of_nat (length b) in
  let pos := if RPL_DAO_SPECIFY_DAG then 4 + 16 else 4 in
  let parsed ps :=
    {| o_prefixlen := 128; o_prefix := prefix; o_lifetime := lifetime;
       o_pathSequence := ps; o_parent_addr := o_parent_addr o0 |} in
  rd (b ++ stale) 0 = i_instance_id inst /\
  rd (b ++ stale) 1 = flags /\
  rd (b ++ stale) 3 = seq /\
  (RPL_DAO_SPECIFY_DAG = true -> rd_bytes (b ++ stale) 4 16 = dag_id) /\
  dao_options (Z.to_nat (uint8 n)) (b ++ stale) (uint8 n) pos o0
    = Some (parsed (if RPL_WITH_DCO then pathseq else o_pathSequence o0)) /\
  dco_options dco_fuel (b ++ stale) (uint16 n) pos o0 = Some (parsed pathseq).
Proof.
  intros Hi Hf Hq [Hplen Hpb] Hps Hlt Hdag b n pos parsed.
  subst b n pos parsed. unfold dao_payload, put, put_bytes.
  change (Z.to_nat ((uint8 (16 * CHAR_BIT) + 7) ÷ CHAR_BIT)) with 16%nat.
  rewrite (rd_bytes_16 prefix) by assumption.
  destruct prefix as [|p0 prefix]; [discriminate Hplen|].
  explode15 prefix Hplen.
  destruct RPL_DAO_SPECIFY_DAG.
  - destruct (Hdag eq_refl) as [Hdlen Hdb].
    rewrite (rd_bytes_16 dag_id) by assumption.
    destruct dag_id as [|d0 dag_id]; [discriminate Hdlen|].
    explode15 dag_id Hdlen.
    cbv [app]. name_octets.
    split; [|split; [|split; [|split; [|split]]]].
    + subst. apply uint8_small. assumption.
    + subst. apply uint8_small. assumption.
    + subst. apply uint8_small. assumption.
    + intros _. reflexivity.
    + cbv -[RPL_WITH_DCO o_pathSequence o_parent_addr].
      subst. rewrite !uint8_small by assumption.
      destruct RPL_WITH_DCO; reflexivity.
    + apply (dco_options_fuel 2); [unfold dco_fuel; lia|].
      cbv -[o_pathSequence o_parent_addr].
      subst. rewrite !uint8_small by assumption. reflexivity.
  - cbv [app]. name_octets.
    split; [|split; [|split; [|split; [|split]]]].
    + subst. apply uint8_small. assumption.
    + subst. apply uint8_small. assumption.
    + subst. apply uint8_small. assumption.
    + discriminate.
    + cbv -[RPL_WITH_DCO o_pathSequence o_parent_addr].
      subst. rewrite !uint8_small by assumption.
      destruct RPL_WITH_DCO; reflexivity.
    + apply (dco_options_fuel 2); [unfold dco_fuel; lia|].
      cbv -[o_pathSequence o_parent_addr].
      subst. rewrite !uint8_small by assumption. reflexivity.
Qed.

(** The non-storing DAO: the transit option carries the parent's global
    address, made of the DAG prefix and the parent's interface identifier. *)
Lemma dao_payload_parse_ns inst dag_id flags seq prefix pathseq lifetime parent_ipaddr
    o0 stale :
  byte (i_instance_id inst) -> byte flags -> byte seq -> ipaddr prefix ->
  byte pathseq -> byte lifetime -> ipaddr dag_id -> ipaddr parent_ipaddr ->
  let b := put_bytes
             (put_bytes (dao_payload inst dag_id flags seq prefix 20 pathseq lifetime)
                dag_id 8)
             (drop 8 parent_ipaddr) 8 in
  let n := Z.of_nat (length b) in
  let pos := if RPL_DAO_SPECIFY_DAG then 4 + 16 else 4 in
  rd (b ++ stale) 0 = i_instance_id inst /\
  rd (b ++ stale) 1 = flags /\
  rd (b ++ stale) 3 = seq /\
  (RPL_DAO_SPECIFY_DAG = true -> rd_bytes (b ++ stale) 4 16 = dag_id) /\
  dao_options_ns (Z.to_nat (uint8 n)) (b ++ stale) (uint8 n) pos o0
    = Some {| o_prefixlen := 128; o_prefix := prefix; o_lifetime := lifetime;
              o_pathSequence := o_pathSequence o0;
              o_parent_addr := take 8 dag_id ++ drop 8 parent_ipaddr |}.
Proof.
  intros Hi Hf Hq [Hplen Hpb] Hps Hlt [Hdlen Hdb] [Halen Hab] b n pos.
  subst b n pos. unfold dao_payload, put, put_bytes.
  change (Z.to_nat ((uint8 (16 * CHAR_BIT) + 7) ÷ CHAR_BIT)) with 16%nat.
  rewrite (rd_bytes_16 prefix) by assumption.
  rewrite ?(rd_bytes_16 dag_id) by assumption.
  destruct prefix as [|p0 prefix]; [discriminate Hplen|].
  explode15 prefix Hplen.
  destruct dag_id as [|d0 dag_id]; [discriminate Hdlen|].
  explode15 dag_id Hdlen.
  destruct parent_ipaddr as [|q0 parent_ipaddr]; [discriminate Halen|].
  explode15 parent_ipaddr Halen.
  cbv [drop take].
  repeat match goal with |- context [rd_bytes ?l 0 8] =>
    let v := eval cbv in (rd_bytes l 0 8) in change (rd_bytes l 0 8) with v end.
  destruct RPL_DAO_SPECIFY_DAG; cbv [app]; name_octets;
    (split; [|split; [|split; [|split]]]);
    try (subst; apply uint8_small; assumption);
    try (intros _; reflexivity); try discriminate;
    (cbv -[o_pathSequence o_parent_addr];
     subst; rewrite !uint8_small by assumption; reflexivity).
Qed.

End roundtrip.

(** ** Builders and parsers *)

Section builders.
Context {cfg : rpl_conf} {env : rpl_ext}.

(** The flags octet of an outbound DAO or DCO that asks for an
    acknowledgement iff [k]. *)
Lemma dao_flags_built (k : bool) :
  let flags := if k then uint8 (Z.lor (if RPL_DAO_SPECIFY_DAG
                                       then uint8 (Z.lor 0 RPL_DAO_D_FLAG) else 0)
                                      RPL_DAO_K_FLAG)
               else if RPL_DAO_SPECIFY_DAG then uint8 (Z.lor 0 RPL_DAO_D_FLAG) else 0 in
  byte flags /\
  truthy (Z.land flags RPL_DAO_D_FLAG) = RPL_DAO_SPECIFY_DAG /\
  truthy (Z.land flags RPL_DAO_K_FLAG) = k.
Proof.
  destruct k, RPL_DAO_SPECIFY_DAG; vm_compute; intuition discriminate.
Qed.

(** A storing node that has all it needs sends the octets of
    [dao_payload] to the parent. *)
Lemma dao_output_target_seq_sends pa P d D i I prefix lifetime seq_no dest st :
  rpl_mode_is_feather st = false ->
  rpl_get_parent_ipaddr (Some pa) = Some dest ->
  parent_table st !! pa = Some P -> p_dag P = Some d ->
  dag_table st !! d = Some D -> d_instance D = Some i ->
  instance_table st !! i = Some I ->
  i_mop I <> RPL_MOP_NON_STORING ->
  exists flags,
    (byte flags /\
     truthy (Z.land flags RPL_DAO_D_FLAG) = RPL_DAO_SPECIFY_DAG /\
     truthy (Z.land flags RPL_DAO_K_FLAG)
     = RPL_WITH_DAO_ACK && negb (lifetime =? RPL_ZERO_LIFETIME)) /\
    trace <$> dao_output_target_seq (Some pa) (Some prefix) lifetime seq_no st
    = Some (trace st ++
            [uip_icmp6_send dest ICMP6_RPL RPL_CODE_DAO
               (dao_payload I (d_dag_id D) flags seq_no prefix 4
                  (if RPL_WITH_DCO then path_sequence st else 0) lifetime)]).
Proof.
  intros Hf Hip HP Hd HD Hi HI Hmop.
  unfold dao_output_target_seq.
  rewrite Hf, Hip, HP. simpl. rewrite Hd, HD. simpl. rewrite Hi, HI. simpl.
  assert (Hs : (i_mop I =? RPL_MOP_NON_STORING) = false) by (apply Z.eqb_neq; exact Hmop).
  rewrite Hs. simpl.
  pose proof (dao_flags_built (RPL_WITH_DAO_ACK && negb (lifetime =? RPL_ZERO_LIFETIME)))
    as Hfl.
  destruct (RPL_WITH_DAO_ACK && negb (lifetime =? RPL_ZERO_LIFETIME));
    (eexists; split; [exact Hfl|]); destruct (lifetime =? 0); reflexivity.
Qed.

(** [dco_output] sends the octets of [dao_payload] with a transit option
    of lifetime 0 to the given neighbour. *)
Lemma dco_output_sends i I pstTargetIP pstDcoTarget pathSequence st :
  RPL_WITH_DCO && RPL_WITH_STORING = true ->
  instance_table st !! i = Some I ->
  (RPL_DAO_SPECIFY_DAG = true ->
   exists d D, i_current_dag I = Some d /\ dag_table st !! d = Some D) ->
  exists flags dag_id,
    (byte flags /\
     truthy (Z.land flags RPL_DAO_D_FLAG) = RPL_DAO_SPECIFY_DAG /\
     truthy (Z.land flags RPL_DAO_K_FLAG) = RPL_WITH_DCO_ACK) /\
    (RPL_DAO_SPECIFY_DAG = true ->
     exists d D, i_current_dag I = Some d /\ dag_table st !! d = Some D /\
                 dag_id = d_dag_id D) /\
    trace <$> dco_output i pstTargetIP pstDcoTarget pathSequence st
    = Some (trace st ++
            [uip_icmp6_send pstDcoTarget ICMP6_RPL RPL_CODE_DCO
               (dao_payload I dag_id flags (dco_sequence st) pstTargetIP 4
                  pathSequence 0)]).
Proof.
  intros Hc HI Hdag. unfold dco_output. rewrite Hc, HI. simpl.
  pose proof (dao_flags_built RPL_WITH_DCO_ACK) as Hfl.
  destruct RPL_DAO_SPECIFY_DAG.
  - destruct (Hdag eq_refl) as (d & D & Hd & HD).
    rewrite Hd. simpl. rewrite HD. simpl.
    destruct RPL_WITH_DCO_ACK;
      (eexists; exists (d_dag_id D); split; [exact Hfl|]);
      (split; [intros _; exists d, D; auto | reflexivity]).
  - simpl. destruct RPL_WITH_DCO_ACK;
      (eexists; exists []; split; [exact Hfl|]);
      (split; [discriminate | reflexivity]).
Qed.

(** What [dio_output] does: nothing for a leaf without a unicast
    destination; otherwise, from the state [st1] in which the DTSN and the
    metric container are up to date, it sends the octets of [dio_payload]
    if there are any. *)
Lemma dio_output_sends i uc_addr st st' :
  dio_output i uc_addr st = Some st' ->
  exists I, instance_table st !! i = Some I /\
  (st' = st \/
   exists d D st1 I' D',
     i_current_dag I = Some d /\ dag_table st !! d = Some D /\
     instance_table st1 !! i = Some I' /\ dag_table st1 !! d = Some D' /\
     match dio_payload I D I' D' with
     | None => st' = st1
     | Some buffer =>
         exists dest,
           trace st' = trace st1 ++ [uip_icmp6_send dest ICMP6_RPL RPL_CODE_DIO buffer]
     end).
Proof.
  unfold dio_output. intros H.
  destruct (instance_table st !! i) as [I|] eqn:HI; [|discriminate H].
  exists I. split; [reflexivity|]. simpl in H.
  destruct (RPL_LEAF_ONLY && bool_decide (uc_addr = None)).
  { left. congruence. }
  destruct (i_current_dag I) as [d|] eqn:Hd; [|discriminate H]. simpl in H.
  destruct (dag_table st !! d) as [D|] eqn:HD; [|discriminate H]. simpl in H.
  match type of H with (?m ≫= _) = _ => destruct m as [st1|] eqn:H1 end;
    [|discriminate H].
  simpl in H.
  destruct (instance_table st1 !! i) as [I'|] eqn:HI'; [|discriminate H]. simpl in H.
  destruct (dag_table st1 !! d) as [D'|] eqn:HD'; [|discriminate H]. simpl in H.
  right. exists d, D, st1, I', D'. repeat (split; [assumption || reflexivity|]).
  destruct (dio_payload I D I' D') as [buffer|].
  - destruct uc_addr as [a|]; injection H as <-.
    + exists a. destruct RPL_LEAF_ONLY; reflexivity.
    + exists linklocal_rplnodes_mcast. reflexivity.
  - congruence.
Qed.

(** The payloads by themselves.  A DIO laid out from an instance and its
    DAG whose fields fit their C types is decoded by [dio_input] into the
    DIO with just these fields, which it hands to [rpl_process_dio].  From
    the octets of a DAO or a DCO (base with flags whose D bit is as the
    build has it, a target option with a full address, a transit option of
    four octets, and for a non-storing DAO one of twenty octets with the
    parent address), the option loops of [dao_input_storing], [dco_input]
    and [dao_input_nonstoring] read back what was written.  The octets
    behind the payload do not matter. *)
Lemma payload_roundtrip :
  (forall I D I' D' buffer stale pkt st,
     dio_fields_ok I D I' D' ->
     dio_payload I D I' D' = Some buffer ->
     payload pkt = buffer ++ stale ->
     payload_len pkt = Z.of_nat (length buffer) ->
     dio_input pkt st
     = Some (call (rpl_process_dio (srcipaddr pkt) (dio_message I D I' D'))
               (RPL_STAT_inc dio_recvd st))) /\
  (forall I dag_id flags seq_no prefix pathseq lifetime o0 stale,
     byte (i_instance_id I) -> byte flags -> byte seq_no -> ipaddr prefix ->
     byte pathseq -> byte lifetime ->
     (RPL_DAO_SPECIFY_DAG = true -> ipaddr dag_id) ->
     truthy (Z.land flags RPL_DAO_D_FLAG) = RPL_DAO_SPECIFY_DAG ->
     let built := dao_payload I dag_id flags seq_no prefix 4 pathseq lifetime in
     let buffer := built ++ stale in
     let n := Z.of_nat (length built) in
     let d_flag := truthy (Z.land (rd buffer 1) RPL_DAO_D_FLAG) in
     let pos := if d_flag then 4 + 16 else 4 in
     let parsed ps :=
       {| o_prefixlen := 128; o_prefix := prefix; o_lifetime := lifetime;
          o_pathSequence := ps; o_parent_addr := o_parent_addr o0 |} in
     rd buffer 0 = i_instance_id I /\ rd buffer 1 = flags /\ rd buffer 3 = seq_no /\
     (d_flag = true -> rd_bytes buffer 4 16 = dag_id) /\
     dao_options (Z.to_nat (uint8 n)) buffer (uint8 n) pos o0
     = Some (parsed (if RPL_WITH_DCO then pathseq else o_pathSequence o0)) /\
     dco_options dco_fuel buffer (uint16 n) pos o0 = Some (parsed pathseq)) /\
  (forall I dag_id flags seq_no prefix pathseq lifetime parent_ipaddr o0 stale,
     byte (i_instance_id I) -> byte flags -> byte seq_no -> ipaddr prefix ->
     byte pathseq -> byte lifetime -> ipaddr dag_id -> ipaddr parent_ipaddr ->
     truthy (Z.land flags RPL_DAO_D_FLAG) = RPL_DAO_SPECIFY_DAG ->
     let built := put_bytes
                    (put_bytes
                       (dao_payload I dag_id flags seq_no prefix 20 pathseq lifetime)
                       dag_id 8)
                    (drop 8 parent_ipaddr) 8 in
     let buffer := built ++ stale in
     let n := Z.of_nat (length built) in
     let d_flag := truthy (Z.land (rd buffer 1) RPL_DAO_D_FLAG) in
     let pos := if d_flag then 4 + 16 else 4 in
     rd buffer 0 = i_instance_id I /\ rd buffer 1 = flags /\ rd buffer 3 = seq_no /\
     (d_flag = true -> rd_bytes buffer 4 16 = dag_id) /\
     dao_options_ns (Z.to_nat (uint8 n)) buffer (uint8 n) pos o0
     = Some {| o_prefixlen := 128; o_prefix := prefix; o_lifetime := lifetime;
               o_pathSequence := o_pathSequence o0;
               o_parent_addr := take 8 dag_id ++ drop 8 parent_ipaddr |}).
Proof.
  split; [|split].
  - intros I D I' D' buffer stale pkt st Hok Hb Hp Hl.
    unfold dio_input. rewrite Hp, Hl.
    rewrite (dio_roundtrip I D I' D' buffer stale Hok Hb). reflexivity.
  - intros I dag_id flags seq_no prefix pathseq lifetime o0 stale
      Hi Hf Hq Hp Hps Hlt Hdag Hd. cbv zeta.
    destruct (dao_payload_parse I dag_id flags seq_no prefix pathseq lifetime o0 stale
                Hi Hf Hq Hp Hps Hlt Hdag) as (H0 & H1 & H3 & H4 & Hdao & Hdco).
    rewrite H1, Hd.
    repeat (split; [assumption || reflexivity|]). exact Hdco.
  - intros I dag_id flags seq_no prefix pathseq lifetime parent_ipaddr o0 stale
      Hi Hf Hq Hp Hps Hlt Hdag Hpa Hd. cbv zeta.
    destruct (dao_payload_parse_ns I dag_id flags seq_no prefix pathseq lifetime
                parent_ipaddr o0 stale Hi Hf Hq Hp Hps Hlt Hdag Hpa)
      as (H0 & H1 & H3 & H4 & Hdao).
    rewrite H1, Hd.
    repeat (split; [assumption || reflexivity|]). exact Hdao.
Qed.

End builders.

(** ** From the builders to the parsers *)

Section mrhof_frame.
Context {cfg : rpl_conf}.
(** MRHOF's [update_metric_container] makes no call. *)
Lemma mrhof_update_metric_container_trace i st st' :
  rpl_mrhof.update_metric_container i st = Some st' -> trace st' = trace st.
Proof.
  unfold rpl_mrhof.update_metric_container. intros H.
  apply bind_Some in H as (I & HI & H).
  destruct RPL_DAG_MC.
  - injection H as <-. reflexivity.
  - apply bind_Some in H as (d & Hd & H). apply bind_Some in H as (D & HD & H).
    destruct (negb (truthy (d_joined D))); [injection H as <-; reflexivity|].
    apply bind_Some in H as (m & Hm & H). injection H as <-. reflexivity.
  - apply bind_Some in H as (d & Hd & H). apply bind_Some in H as (D & HD & H).
    destruct (negb (truthy (d_joined D))); [injection H as <-; reflexivity|].
    apply bind_Some in H as (m & Hm & H). injection H as <-. reflexivity.
Qed.
End mrhof_frame.

Section end_to_end.
Context {cfg : rpl_conf} {env : rpl_ext}.



End end_to_end.

(** ** Target options within the address *)

Section target_options.
Context {cfg : rpl_conf}.

(** On a message whose target options fit, the prefix length that the
    loop of [dao_input_storing] leaves is at most 128, and so is the one
    that the loop of [dco_input] leaves. *)
Lemma targets_fit_prefixlen fuel buffer bl i o r :
  targets_fit fuel buffer bl i = true -> o_prefixlen o <= 128 ->
  dao_options fuel buffer bl i o = Some r -> o_prefixlen r <= 128.
Proof.
  revert i o. induction fuel as [|fuel IH]; intros i o Hfit Ho Hr; simpl in *.
  - destruct (i <? bl); [discriminate|]. injection Hr as <-. exact Ho.
  - destruct (i <? bl); [|injection Hr as <-; exact Ho].
    apply andb_true_iff in Hfit as [Hhere Hrest].
    apply (IH _ _ Hrest) in Hr; [exact Hr|].
    unfold dao_option. destruct (rd buffer i =? RPL_OPTION_TARGET).
    + apply Z.leb_le in Hhere. exact Hhere.
    + destruct (rd buffer i =? RPL_OPTION_TRANSIT); exact Ho.
Qed.

Lemma dco_targets_fit_prefixlen fuel buffer bl i o r :
  dco_targets_fit fuel buffer bl i = true -> o_prefixlen o <= 128 ->
  dco_options fuel buffer bl i o = Some r -> o_prefixlen r <= 128.
Proof.
  revert i o. induction fuel as [|fuel IH]; intros i o Hfit Ho Hr; simpl in *.
  - destruct (i <? bl); [discriminate|]. injection Hr as <-. exact Ho.
  - destruct (i <? bl); [|injection Hr as <-; exact Ho].
    apply andb_true_iff in Hfit as [Hhere Hrest].
    apply (IH _ _ Hrest) in Hr; [exact Hr|].
    unfold dco_option. destruct (rd buffer i =? RPL_OPTION_TARGET).
    + apply Z.leb_le in Hhere. exact Hhere.
    + destruct (rd buffer i =? RPL_OPTION_TRANSIT); exact Ho.
Qed.

End target_options.

(** ** DCO input *)

Section dco.
Context {cfg : rpl_conf} {env : rpl_ext}.
Variables (o0 : dao_opts) (pkt : icmp6_input) (st : node).
Variables (i : nat) (I : rpl_instance_t) (o : dao_opts).

Hypothesis dco_enabled : RPL_WITH_DCO && RPL_WITH_STORING = true.
Hypothesis instance_known :
  rpl_get_instance (instance_table st) (rd (payload pkt) 0) = Some i.
Hypothesis instance_at : instance_table st !! i = Some I.
Hypothesis same_dag :
  truthy (Z.land (rd (payload pkt) 1) RPL_DAO_D_FLAG) = true ->
  exists d D, i_current_dag I = Some d /\ dag_table st !! d = Some D /\
              rd_bytes (d_dag_id D) 0 16 = rd_bytes (payload pkt) 4 16.
Hypothesis options_read :
  dco_options dco_fuel (payload pkt) (uint16 (payload_len pkt))
    (if truthy (Z.land (rd (payload pkt) 1) RPL_DAO_D_FLAG) then 4 + 16 else 4) o0
  = Some o.

(** The DCO-ACK that answers the DCO with [status]. *)
Local Abbreviation ack status :=
  (uip_icmp6_send (srcipaddr pkt) ICMP6_RPL RPL_CODE_DCO_ACK
     [uint8 (i_instance_id I); 0; uint8 (rd (payload pkt) 3); uint8 status]).

Local Abbreviation k_flag := (truthy (Z.land (rd (payload pkt) 1) RPL_DAO_K_FLAG)).

(** [dco_input] up to the end of the option loop. *)
Lemma dco_input_options :
  dco_input o0 pkt st =
  let st1 := RPL_STAT_inc dco_recvd st in
  let no_route :=
    if match get_global_addr st with
       | Some a => uip_ipaddr_cmp a (o_prefix o)
       | None => false
       end
    then Some (RPL_STAT_inc dco_ignored st1)
    else if k_flag then dco_ack_output i (srcipaddr pkt) (rd (payload pkt) 3) 234 st1
         else Some st1 in
  match uip_ds6_route_lookup (routes st) (o_prefix o) with
  | Some r =>
      if o_lifetime o =? 0 then
        R ← routes st !! r;
        let st2 :=
          match r_nexthop R with
          | Some nh =>
              if lollipop_greater_than (o_pathSequence o)
                   (rs_dao_path_sequence (r_state R))
              then with_routes (delete r)
                     (RPL_STAT_inc dco_forwarded
                        (call (uip_icmp6_send nh ICMP6_RPL RPL_CODE_DCO
                                 (payload_bytes (payload pkt)
                                    (uint16 (payload_len pkt)))) st1))
              else RPL_STAT_inc dco_ignored st1
          | None => RPL_STAT_inc dco_ignored st1
          end in
        if k_flag then dco_ack_output i (srcipaddr pkt) (rd (payload pkt) 3) 0 st2
        else Some st2
      else no_route
  | None => no_route
  end.
Proof.
  unfold dco_input. rewrite dco_enabled.
  change (instance_table (RPL_STAT_inc dco_recvd st)) with (instance_table st).
  change (dag_table (RPL_STAT_inc dco_recvd st)) with (dag_table st).
  change (routes (RPL_STAT_inc dco_recvd st)) with (routes st).
  change (get_global_addr (RPL_STAT_inc dco_recvd st)) with (get_global_addr st).
  rewrite instance_known, instance_at. cbn [mbind option_bind].
  destruct (truthy (Z.land (rd (payload pkt) 1) RPL_DAO_D_FLAG)) eqn:Hd.
  - destruct (same_dag eq_refl) as (d & D & Hcur & HD & Hid).
    rewrite Hcur. cbn [mbind option_bind]. rewrite HD. cbn [mbind option_bind].
    rewrite bool_decide_eq_true_2 by exact Hid. cbn [negb].
    rewrite options_read. cbn [mbind option_bind].
    destruct (get_global_addr st); reflexivity.
  - rewrite options_read. cbn [mbind option_bind].
    destruct (get_global_addr st); reflexivity.
Qed.

Lemma dco_ack_output_sends status s :
  instance_table s = instance_table st ->
  dco_ack_output i (srcipaddr pkt) (rd (payload pkt) 3) status s
  = Some (call (ack status) s).
Proof.
  intros Hs. unfold dco_ack_output. rewrite dco_enabled, Hs, instance_at. reflexivity.
Qed.

(** C3.  A DCO that passes the instance and DAG checks, whose target
    options declare at most 128 bits and whose target has a route.  With
    the path lifetime 0 in the transit option: when the route has a next
    hop and the path sequence of the DCO is lollipop-greater than the
    stored one, the DCO is forwarded to the next hop and then the route is
    deleted; otherwise the route is kept and [dco_ignored] counts it; a
    DCO-ACK with status 0 follows when K is set.  With another path
    lifetime the DCO is handled as if there were no route: nothing is
    forwarded or deleted; for the node's own global address as target
    [dco_ignored] counts it and nothing is sent, and otherwise
    [dco_ignored] stays and a DCO-ACK with status 234 follows when K is
    set. *)
Theorem C3_dco_routed_target r R :
  dco_fits pkt = true ->
  uip_ds6_route_lookup (routes st) (o_prefix o) = Some r ->
  routes st !! r = Some R ->
  let forward_to :=
    if lollipop_greater_than (o_pathSequence o) (rs_dao_path_sequence (r_state R))
    then r_nexthop R else None in
  let acked status := if k_flag then [ack status] else [] in
  let own := match get_global_addr st with
             | Some a => uip_ipaddr_cmp a (o_prefix o)
             | None => false
             end in
  exists st', dco_input o0 pkt st = Some st' /\
    if o_lifetime o =? 0 then
      match forward_to with
      | Some nh =>
          (routes st' = delete r (routes st)) /\
          (trace st' = trace st ++
                       [uip_icmp6_send nh ICMP6_RPL RPL_CODE_DCO
                          (payload_bytes (payload pkt) (uint16 (payload_len pkt)))] ++
                       acked 0) /\
          (rpl_stats st' dco_forwarded = rpl_stats st dco_forwarded + 1) /\
          (rpl_stats st' dco_ignored = rpl_stats st dco_ignored)
      | None =>
          (routes st' = routes st) /\
          (trace st' = trace st ++ acked 0) /\
          (rpl_stats st' dco_forwarded = rpl_stats st dco_forwarded) /\
          (rpl_stats st' dco_ignored = rpl_stats st dco_ignored + 1)
      end
    else
      (routes st' = routes st) /\
      (trace st' = trace st ++ (if own then [] else acked 234)) /\
      (rpl_stats st' dco_forwarded = rpl_stats st dco_forwarded) /\
      (rpl_stats st' dco_ignored = rpl_stats st dco_ignored + (if own then 1 else 0)).
Proof.
  intros _ Hr HR forward_to acked own. subst forward_to acked own.
  rewrite dco_input_options. cbv zeta. rewrite Hr.
  destruct (o_lifetime o =? 0).
  - rewrite HR. cbn [mbind option_bind].
    destruct (r_nexthop R) as [nh|] eqn:Hnh;
      [destruct (lollipop_greater_than (o_pathSequence o)
                   (rs_dao_path_sequence (r_state R))) eqn:Hg|
       destruct (lollipop_greater_than (o_pathSequence o)
                   (rs_dao_path_sequence (r_state R))) eqn:Hg];
      destruct k_flag; rewrite ?dco_ack_output_sends by reflexivity;
      (eexists; split; [reflexivity|]);
      cbn; rewrite <- ?app_assoc, ?app_nil_r; repeat split; reflexivity.
  - destruct (match get_global_addr st with
              | Some a => uip_ipaddr_cmp a (o_prefix o)
              | None => false
              end);
      [|destruct k_flag; rewrite ?dco_ack_output_sends by reflexivity];
      (eexists; split; [reflexivity|]);
      cbn; rewrite ?app_nil_r, ?Z.add_0_r; repeat split; reflexivity.
Qed.

(** C4.  A DCO whose target options declare at most 128 bits and whose
    target is the node's own global address, when no route is found for
    it or the path lifetime is not 0: the handler counts it in
    [dco_ignored] and does nothing else; whether K is set or not, no
    DCO-ACK is sent. *)
Theorem C4_dco_own_address a :
  dco_fits pkt = true ->
  get_global_addr st = Some a ->
  a = o_prefix o ->
  uip_ds6_route_lookup (routes st) (o_prefix o) = None \/ o_lifetime o <> 0 ->
  dco_input o0 pkt st = Some (RPL_STAT_inc dco_ignored (RPL_STAT_inc dco_recvd st)).
Proof.
  intros _ Ha -> Hno. rewrite dco_input_options. cbv zeta. rewrite Ha.
  unfold uip_ipaddr_cmp. rewrite bool_decide_eq_true_2 by reflexivity.
  destruct Hno as [Hnone|Hlife].
  - rewrite Hnone. reflexivity.
  - apply Z.eqb_neq in Hlife. rewrite Hlife.
    destruct (uip_ds6_route_lookup (routes st) (o_prefix o)); reflexivity.
Qed.

End dco.

(** ** No-Path DAO *)

Section no_path_dao.
Context {cfg : rpl_conf} {env : rpl_ext}.
Variables (pathSequence0 : Z) (pkt : icmp6_input) (st : node).
Variables (i d : nat) (I : rpl_instance_t) (D : rpl_dag_t) (o : dao_opts).

Hypothesis storing_enabled : RPL_WITH_STORING = true.
Hypothesis instance_known :
  rpl_get_instance (instance_table st) (rd (payload pkt) 0) = Some i.
Hypothesis instance_at : instance_table st !! i = Some I.
Hypothesis current_dag : i_current_dag I = Some d.
Hypothesis dag_at : dag_table st !! d = Some D.
Hypothesis same_dag :
  truthy (Z.land (rd (payload pkt) 1) RPL_DAO_D_FLAG) = true ->
  rd_bytes (d_dag_id D) 0 16 = rd_bytes (payload pkt) 4 16.
Hypothesis unicast : uip_is_addr_mcast (srcipaddr pkt) = false.
Hypothesis no_loop :
  match rpl_find_parent (parent_table st) (Some d) (srcipaddr pkt) with
  | Some pa =>
      exists P, parent_table st !! pa = Some P /\
                DAG_RANK (d_rank D) I <= DAG_RANK (p_rank P) I /\
                Some pa <> d_preferred_parent D
  | None => True
  end.
Hypothesis options_read :
  dao_options (Z.to_nat (uint8 (payload_len pkt))) (payload pkt)
    (uint8 (payload_len pkt))
    (if truthy (Z.land (rd (payload pkt) 1) RPL_DAO_D_FLAG) then 4 + 16 else 4)
    {| o_prefixlen := 0; o_prefix := repeat 0 16;
       o_lifetime := i_default_lifetime I; o_pathSequence := pathSequence0;
       o_parent_addr := repeat 0 16 |}
  = Some o.
Hypothesis no_path : o_lifetime o = RPL_ZERO_LIFETIME.
Hypothesis not_a_group :
  RPL_WITH_MULTICAST && uip_is_addr_mcast_global (o_prefix o) = false.

(** The DAO-ACK that accepts the DAO, if one is sent. *)
Local Abbreviation acked :=
  (if truthy (Z.land (rd (payload pkt) 1) RPL_DAO_K_FLAG) && RPL_WITH_DAO_ACK
   then [uip_icmp6_send (srcipaddr pkt) ICMP6_RPL RPL_CODE_DAO_ACK
           [uint8 (i_instance_id I); 0; uint8 (rd (payload pkt) 3);
            uint8 RPL_DAO_ACK_UNCONDITIONAL_ACCEPT]]
   else []).

(** The route entry once its purge has started. *)
Local Abbreviation purged R :=
  (set_state (set_lifetime RPL_NOPATH_REMOVAL_DELAY
                (set_nopath_received true (r_state R))) R).

(** [dao_input_storing] for a No-Path DAO, from the route lookup on. *)
Lemma dao_input_storing_no_path :
  dao_input_storing pathSequence0 pkt st =
  let st := RPL_STAT_inc npdao_recvd (RPL_STAT_dec dao_recvd (RPL_STAT_inc dao_recvd st)) in
  st ←
    match uip_ds6_route_lookup (routes st) (o_prefix o) with
    | Some r =>
        R ← routes st !! r;
        if negb (rs_nopath_received (r_state R)) &&
           (r_length R =? o_prefixlen o) &&
           match r_nexthop R with
           | Some nh => uip_ipaddr_cmp nh (srcipaddr pkt)
           | None => false
           end
        then
          let st := with_routes <[r := purged R]> st in
          match d_preferred_parent D, rpl_get_parent_ipaddr (d_preferred_parent D) with
          | Some _, Some parent_ipaddr =>
              x ← prepare_for_dao_fwd (rd (payload pkt) 3) r st;
              let '(out_seq, st) := x in
              Some (RPL_STAT_inc npdao_forwarded
                      (call (uip_icmp6_send parent_ipaddr ICMP6_RPL RPL_CODE_DAO
                               (payload_bytes (<[3%nat := uint8 out_seq]> (payload pkt))
                                  (uint8 (payload_len pkt)))) st))
          | _, _ => Some st
          end
        else Some st
    | None => Some st
    end;
  if truthy (Z.land (rd (payload pkt) 1) RPL_DAO_K_FLAG)
  then dao_ack_output i (srcipaddr pkt) (rd (payload pkt) 3)
         RPL_DAO_ACK_UNCONDITIONAL_ACCEPT st
  else Some st.
Proof.
  unfold dao_input_storing. rewrite storing_enabled, instance_known.
  cbn [mbind option_bind]. rewrite instance_at.
  cbn [mbind option_bind]. rewrite current_dag. cbn [mbind option_bind].
  rewrite dag_at. cbn [mbind option_bind]. rewrite unicast. cbn [negb].
  cbn [parent_table RPL_STAT_inc with_rpl_stats].
  assert (Hdag : truthy (Z.land (rd (payload pkt) 1) RPL_DAO_D_FLAG) &&
                 negb (bool_decide (rd_bytes (d_dag_id D) 0 16
                                    = rd_bytes (payload pkt) 4 16)) = false).
  { destruct (truthy (Z.land (rd (payload pkt) 1) RPL_DAO_D_FLAG)); [|reflexivity].
    rewrite bool_decide_eq_true_2 by (apply same_dag; reflexivity). reflexivity. }
  rewrite Hdag.
  pose proof no_loop as Hnl. revert Hnl.
  destruct (rpl_find_parent (parent_table st) (Some d) (srcipaddr pkt)) as [pa|];
    intros Hnl.
  - destruct Hnl as (P & HP & Hrank & Hpref). rewrite HP. cbn [mbind option_bind].
    replace (DAG_RANK (p_rank P) I <? DAG_RANK (d_rank D) I) with false
      by (symmetry; apply Z.ltb_ge; exact Hrank).
    rewrite bool_decide_eq_false_2 by exact Hpref. cbn [mbind option_bind].
    rewrite options_read. cbn [mbind option_bind].
    rewrite not_a_group, no_path. reflexivity.
  - cbn [mbind option_bind].
    rewrite options_read. cbn [mbind option_bind].
  rewrite not_a_group, no_path. cbn [Z.eqb RPL_ZERO_LIFETIME].
  reflexivity.
Qed.


Lemma uint8_idem x : uint8 (uint8 x) = uint8 x.
Proof. unfold uint8. apply Z.mod_mod. lia. Qed.

Lemma dao_ack_output_sends s :
  instance_table s = instance_table st ->
  (if truthy (Z.land (rd (payload pkt) 1) RPL_DAO_K_FLAG)
   then dao_ack_output i (srcipaddr pkt) (rd (payload pkt) 3)
          RPL_DAO_ACK_UNCONDITIONAL_ACCEPT s
   else Some s)
  = Some (with_trace (fun t => t ++ acked) s).
Proof.
  intros Hs. unfold dao_ack_output.
  destruct (truthy (Z.land (rd (payload pkt) 1) RPL_DAO_K_FLAG)); cbn [andb].
  - destruct RPL_WITH_DAO_ACK.
    + rewrite Hs, instance_at. reflexivity.
    + unfold with_trace. rewrite app_nil_r. destruct s; reflexivity.
  - unfold with_trace. rewrite app_nil_r. destruct s; reflexivity.
Qed.

(** C5.  A unicast No-Path DAO that a storing node takes up: it names a
    known instance, passes the DAG check, does not come from a parent that
    closes a loop, its target is not a multicast group, and its target
    options declare at most 128 bits.  When the route found for the target
    has the target's prefix length, the sender as next hop and its NOPATH
    bit clear, the bit is set and the lifetime becomes
    [RPL_NOPATH_REMOVAL_DELAY]; if the preferred parent is set and its
    address is known, [prepare_for_dao_fwd] draws the next DAO sequence
    number, records it in the entry, and the DAO goes to that parent with
    the number in octet 3; with no preferred parent, or one whose address
    is not known, nothing is forwarded.  When no route is found, or the
    route found does not match, no route changes and nothing is forwarded.
    In every case a DAO-ACK with status [RPL_DAO_ACK_UNCONDITIONAL_ACCEPT]
    follows if K is set (and the build has DAO-ACKs). *)
Theorem C5_no_path_dao :
  dao_fits pkt = true ->
  match uip_ds6_route_lookup (routes st) (o_prefix o) with
  | Some r => is_Some (routes st !! r)
  | None => True
  end ->
  let matching :=
    r ← uip_ds6_route_lookup (routes st) (o_prefix o);
    R ← routes st !! r;
    if negb (rs_nopath_received (r_state R)) &&
       (r_length R =? o_prefixlen o) &&
       match r_nexthop R with
       | Some nh => uip_ipaddr_cmp nh (srcipaddr pkt)
       | None => false
       end
    then Some (r, R) else None in
  exists st', dao_input_storing pathSequence0 pkt st = Some st' /\
    match matching with
    | Some (r, R) =>
        match d_preferred_parent D, rpl_get_parent_ipaddr (d_preferred_parent D) with
        | Some _, Some parent_ipaddr =>
            let out_seq := uint8 (RPL_LOLLIPOP_INCREMENT (dao_sequence st)) in
            (routes st' =
             <[r := set_state (set_dao_fwd (uint8 (rd (payload pkt) 3)) out_seq
                                 (r_state (purged R))) R]> (routes st)) /\
            (dao_sequence st' = out_seq) /\
            (trace st' =
             trace st ++
             [uip_icmp6_send parent_ipaddr ICMP6_RPL RPL_CODE_DAO
                (payload_bytes (<[3%nat := out_seq]> (payload pkt))
                   (uint8 (payload_len pkt)))] ++ acked)
        | _, _ =>
            (routes st' = <[r := purged R]> (routes st)) /\
            (dao_sequence st' = dao_sequence st) /\
            (trace st' = trace st ++ acked)
        end
    | None =>
        (routes st' = routes st) /\
        (dao_sequence st' = dao_sequence st) /\
        (trace st' = trace st ++ acked)
    end.
Proof.
  intros _ Hin matching. subst matching.
  rewrite dao_input_storing_no_path. cbv zeta.
  cbn [routes RPL_STAT_inc RPL_STAT_dec with_rpl_stats].
  destruct (uip_ds6_route_lookup (routes st) (o_prefix o)) as [r|].
  - destruct Hin as [R HR]. cbn [mbind option_bind]. rewrite HR.
    cbn [mbind option_bind].
    destruct (negb (rs_nopath_received (r_state R)) &&
              (r_length R =? o_prefixlen o) &&
              match r_nexthop R with
              | Some nh => uip_ipaddr_cmp nh (srcipaddr pkt)
              | None => false
              end).
    + destruct (d_preferred_parent D) as [pp|];
        [destruct (rpl_get_parent_ipaddr (Some pp)) as [pip|]|].
      * unfold prepare_for_dao_fwd. cbn [routes with_routes].
        rewrite lookup_insert_eq. cbn [mbind option_bind].
        eexists; split; [apply dao_ack_output_sends; reflexivity|].
        cbn. rewrite insert_insert_eq, uint8_idem, <- app_assoc.
        repeat split; reflexivity.
      * cbn [mbind option_bind].
        eexists; split; [apply dao_ack_output_sends; reflexivity|].
        cbn. repeat split; reflexivity.
      * cbn [mbind option_bind].
        eexists; split; [apply dao_ack_output_sends; reflexivity|].
        cbn. repeat split; reflexivity.
    + cbn [mbind option_bind].
      eexists; split; [apply dao_ack_output_sends; reflexivity|].
      cbn. repeat split; reflexivity.
  - cbn [mbind option_bind].
    eexists; split; [apply dao_ack_output_sends; reflexivity|].
    cbn. repeat split; reflexivity.
Qed.

End no_path_dao.

(** ** DAO retransmission *)

Section retransmission.
Context {cfg : rpl_conf} {env : rpl_ext}.

(** C6.  The retransmission timer fires for a parent whose DAG and
    instance are set, after [RPL_DAO_MAX_RETRANSMISSIONS] transmissions.
    With [lifetime_unit = 0xffff] and [default_lifetime = 0xff] nothing
    happens.  Otherwise local repair is started; before it, the objective
    function's [dao_ack_callback] is called with [RPL_DAO_ACK_TIMEOUT],
    but only for a storing instance whose objective function has such a
    callback. *)
Theorem C6_dao_retransmission_limit pa P d D i I st :
  parent_table st !! pa = Some P -> p_dag P = Some d ->
  dag_table st !! d = Some D -> d_instance D = Some i ->
  instance_table st !! i = Some I ->
  RPL_DAO_MAX_RETRANSMISSIONS <= i_my_dao_transmissions I ->
  let legacy := (i_lifetime_unit I =? 0xffff) && (i_default_lifetime I =? 0xff) in
  let notified := RPL_IS_STORING I && of_dao_ack_callback (i_of I) in
  handle_dao_retransmission (Some pa) st =
  Some (if legacy then st
        else call (rpl_local_repair i)
               (if notified
                then call (dao_ack_callback (Some pa) RPL_DAO_ACK_TIMEOUT) st
                else st)).
Proof.
  intros HP Hd HD Hi HI Hmax legacy notified. subst legacy notified.
  unfold handle_dao_retransmission.
  rewrite HP. cbn [mbind option_bind]. rewrite Hd, HD. cbn [mbind option_bind].
  rewrite Hi, HI. cbn [mbind option_bind].
  replace (i_my_dao_transmissions I >=? RPL_DAO_MAX_RETRANSMISSIONS) with true
    by (symmetry; apply Z.geb_le; exact Hmax).
  destruct ((i_lifetime_unit I =? 65535) && (i_default_lifetime I =? 255));
    reflexivity.
Qed.

End retransmission.

(** ** The counter of malformed messages *)

Section counters.
Context {cfg : rpl_conf} {env : rpl_ext}.

(** Unfolds what it means that a handler returned a state: every bind
    succeeded and every branch is known. *)
Ltac returned :=
  repeat match goal with
         | H : Some _ = Some _ |- _ => inversion H; subst; clear H
         | H : None = Some _ |- _ => discriminate H
         | H : (if ?b then _ else _) = Some _ |- _ => destruct b eqn:?
         | H : (match ?x with _ => _ end) = Some _ |- _ => destruct x eqn:?
         | H : (_ ≫= _) = Some _ |- _ => apply bind_Some in H as (? & ? & H)
         end.

Ltac branches :=
  repeat match goal with
         | |- context [match ?x with _ => _ end] => destruct x
         | H : context [match ?x with _ => _ end] |- _ => destruct x
         end.

Lemma dco_ack_output_counters i dest sequence status c st st' :
  dco_ack_output i dest sequence status st = Some st' ->
  rpl_stats st' c = rpl_stats st c.
Proof.
  unfold dco_ack_output. intros H. returned; reflexivity.
Qed.

Lemma dao_ack_output_counters i dest sequence status c st st' :
  dao_ack_output i dest sequence status st = Some st' ->
  rpl_stats st' c = rpl_stats st c.
Proof.
  unfold dao_ack_output. intros H. returned; reflexivity.
Qed.

Lemma prepare_for_dao_fwd_counters sequence rep c st out_seq st' :
  prepare_for_dao_fwd sequence rep st = Some (out_seq, st') ->
  rpl_stats st' c = rpl_stats st c.
Proof.
  unfold prepare_for_dao_fwd. intros H. returned. reflexivity.
Qed.

Lemma update_nbr_table_counters from c st st' :
  rpl_icmp6_update_nbr_table from st = Some st' ->
  rpl_stats st' c = rpl_stats st c.
Proof.
  unfold rpl_icmp6_update_nbr_table. intros H. returned; reflexivity.
Qed.

Lemma dco_output_malformed i target dest pathSequence st st' :
  dco_output i target dest pathSequence st = Some st' ->
  rpl_stats st' malformed_msgs = rpl_stats st malformed_msgs.
Proof.
  unfold dco_output. intros H. returned; reflexivity.
Qed.

(** What the helpers that ran say about [malformed_msgs]. *)
Ltac helpers :=
  repeat match goal with
         | H : dco_ack_output _ _ _ _ _ = Some _ |- _ =>
             apply (dco_ack_output_counters _ _ _ _ malformed_msgs) in H
         | H : dao_ack_output _ _ _ _ _ = Some _ |- _ =>
             apply (dao_ack_output_counters _ _ _ _ malformed_msgs) in H
         | H : prepare_for_dao_fwd _ _ _ = Some _ |- _ =>
             apply (prepare_for_dao_fwd_counters _ _ malformed_msgs) in H
         | H : rpl_icmp6_update_nbr_table _ _ = Some _ |- _ =>
             apply (update_nbr_table_counters _ malformed_msgs) in H
         | H : dco_output _ _ _ _ _ = Some _ |- _ =>
             apply dco_output_malformed in H
         end;
  repeat match goal with
         | H : _ = Some _ |- _ => clear H
         | H : _ = None |- _ => clear H
         | H : _ = true |- _ => clear H
         | H : _ = false |- _ => clear H
         | H : _ = (_, _) |- _ => clear H
         end;
  branches; cbv in *; congruence.

Lemma dao_fwd_malformed unicast i d rep flags sequence buffer buffer_length sender
    curNextHop o st st' :
  dao_fwd unicast i d rep flags sequence buffer buffer_length sender curNextHop o st
  = Some st' ->
  rpl_stats st' malformed_msgs = rpl_stats st malformed_msgs.
Proof.
  unfold dao_fwd. intros H. returned; helpers.
Qed.

(** [dco_input] has no malformed outcome: whatever the options declare,
    [malformed_msgs] keeps its value. *)
Lemma dco_input_never_malformed o0 pkt st st' :
  dco_input o0 pkt st = Some st' ->
  rpl_stats st' malformed_msgs = rpl_stats st malformed_msgs.
Proof.
  unfold dco_input. intros H. returned; helpers.
Qed.

(** Nor has [dao_input_storing]. *)
Lemma dao_input_storing_never_malformed pathSequence0 pkt st st' :
  dao_input_storing pathSequence0 pkt st = Some st' ->
  rpl_stats st' malformed_msgs = rpl_stats st malformed_msgs.
Proof.
  unfold dao_input_storing. intros H.
  returned;
    repeat match goal with
           | H : dao_fwd _ _ _ _ _ _ _ _ _ _ _ _ = Some _ |- _ =>
               apply dao_fwd_malformed in H
           end;
    helpers.
Qed.

End counters.

(** ** Options that overrun the payload *)

Section overrun.
Context {cfg : rpl_conf} {env : rpl_ext}.

Lemma rd_byte buffer k : Forall byte buffer -> 0 <= rd buffer k < 2 ^ 8.
Proof.
  intros Hb. unfold rd. destruct (k <? 0); [lia|].
  destruct (nth_in_or_default (Z.to_nat k) buffer 0) as [Hin | Hd]; [|rewrite Hd; lia].
  rewrite Forall_forall in Hb. apply Hb. apply list_elem_of_In. exact Hin.
Qed.

Lemma subopt_len_pos buffer i : Forall byte buffer -> 1 <= subopt_len buffer i <= 257.
Proof.
  intros Hb. unfold subopt_len. pose proof (rd_byte buffer (i + 1) Hb).
  destruct (rd buffer i =? RPL_OPTION_PAD1); lia.
Qed.

(** The option loop of [dio_input] ends within [buffer_length - i]
    rounds. *)
Lemma dio_options_total fuel buffer bl i dio :
  Forall byte buffer -> bl - i <= Z.of_nat fuel ->
  exists r, dio_options fuel buffer bl i dio = Some r.
Proof.
  intros Hb. revert i dio. induction fuel as [|fuel IH]; intros i dio Hf.
  - simpl. destruct (i <? bl) eqn:Hi; [apply Z.ltb_lt in Hi; lia|eauto].
  - simpl. destruct (i <? bl) eqn:Hi; [|eauto].
    destruct (subopt_len buffer i + i >? bl); [eauto|].
    pose proof (subopt_len_pos buffer i Hb).
    destruct (dio_option buffer i (subopt_len buffer i) (rd buffer i) dio); eauto.
    apply IH. lia.
Qed.

(** A DIO with an option that overruns is never read as a DIO. *)
Lemma dio_options_overrun n fuel buffer bl i dio r :
  overruns n buffer bl i = true ->
  dio_options fuel buffer bl i dio = Some r ->
  r = dio_malformed \/ r = dio_discard.
Proof.
  revert fuel i dio. induction n as [|n IH]; intros fuel i dio Ho Hr;
    [discriminate Ho|].
  simpl in Ho. apply andb_true_iff in Ho as [Hi Ho].
  destruct fuel as [|fuel]; simpl in Hr; rewrite Hi in Hr; [discriminate Hr|].
  destruct (subopt_len buffer i + i >? bl) eqn:Hover.
  - left. congruence.
  - simpl in Ho.
    destruct (dio_option buffer i (subopt_len buffer i) (rd buffer i) dio) eqn:Hopt.
    + eapply IH; eassumption.
    + left. congruence.
    + right. congruence.
Qed.

(** [dio_input] drops a DIO with an option that overruns: it counts it as
    malformed, unless an unhandled metric container made it drop the DIO
    before; [rpl_process_dio] is not called. *)
Lemma dio_input_overrun n pkt st :
  Forall byte (payload pkt) ->
  overruns n (payload pkt) (uint8 (payload_len pkt)) 24 = true ->
  dio_input pkt st = Some (RPL_STAT_inc malformed_msgs (RPL_STAT_inc dio_recvd st)) \/
  dio_input pkt st = Some (RPL_STAT_inc dio_recvd st).
Proof.
  intros Hb Ho. unfold dio_input, dio_decode.
  destruct (dio_options_total (Z.to_nat (uint8 (payload_len pkt))) (payload pkt)
              (uint8 (payload_len pkt)) 24 (dio_base (payload pkt)) Hb) as [r Hr].
  { unfold uint8. pose proof (Z.mod_pos_bound (payload_len pkt) (2 ^ 8)). lia. }
  rewrite Hr. cbn [mbind option_bind].
  destruct (dio_options_overrun _ _ _ _ _ _ _ Ho Hr) as [Hm | Hm]; rewrite Hm; auto.
Qed.

(** C1.  An option at [i] that declares a length past the end of the
    payload: the loop of [dio_input] reports the DIO as malformed, but the
    loops of [dao_input_storing] and [dco_input], which do not compare the
    length with the payload, take the option as read and end. *)
Theorem C1_option_overrun fuel buffer buffer_length i dio o :
  0 <= i < buffer_length ->
  buffer_length < subopt_len buffer i + i < 2 ^ 16 ->
  dio_options (S fuel) buffer buffer_length i dio = Some dio_malformed /\
  dao_options (S fuel) buffer buffer_length i o
  = Some (dao_option buffer i (rd buffer i) o) /\
  dco_options (S fuel) buffer buffer_length i o
  = Some (dco_option buffer i (rd buffer i) o).
Proof.
  intros Hi Hover.
  assert (Hlt : (i <? buffer_length) = true) by (apply Z.ltb_lt; lia).
  assert (Hgt : (subopt_len buffer i + i >? buffer_length) = true)
    by (apply Z.gtb_lt; lia).
  assert (Hend : forall k, buffer_length <= k -> (k <? buffer_length) = false)
    by (intros k Hk; apply Z.ltb_ge; exact Hk).
  split; [|split].
  - simpl. rewrite Hlt, Hgt. reflexivity.
  - simpl. rewrite Hlt. destruct fuel; simpl; rewrite Hend by lia; reflexivity.
  - simpl. rewrite Hlt.
    assert (Hw : uint16 (i + uint16 (subopt_len buffer i)) = i + subopt_len buffer i).
    { unfold uint16. rewrite (Z.mod_small (subopt_len buffer i)) by lia.
      apply Z.mod_small. lia. }
    rewrite Hw. destruct fuel; simpl; rewrite Hend by lia; reflexivity.
Qed.

End overrun.

(** ** The handlers on concrete traffic *)

Section traffic_examples.
Import contiki traffic.

(** The transit option of [overrun_dao] at offset 24 declares 42 octets in
    a payload of 30. *)
Lemma C1_overrun_witness :
  dio_options (cfg := conf) 30 (payload overrun_dao) 30 24
    (dio_base (cfg := conf) (payload overrun_dao)) = Some dio_malformed /\
  dao_options (cfg := conf) 30 (payload overrun_dao) 30 24 (child_target 30 0)
  = Some (child_target 0 241) /\
  dco_options 30 (payload overrun_dao) 30 24 (child_target 30 0)
  = Some (child_target 0 241).
Proof.
  exact (C1_option_overrun (cfg := conf) 29 (payload overrun_dao) 30 24
           (dio_base (cfg := conf) (payload overrun_dao)) (child_target 30 0)
           ltac:(lia) ltac:(vm_compute; split; reflexivity)).
Defined.

(** The router takes the DAO whose transit option overruns the payload as
    a No-Path DAO: it starts the purge of the route, passes the DAO on and
    acknowledges it; nothing is counted as malformed. *)
Lemma overrun_dao_processed :
  exists st', dao_input_storing (cfg := conf) (env := ext) 0 overrun_dao router
              = Some st' /\
    rpl_stats st' malformed_msgs = 0 /\
    rs_nopath_received <$> (r_state <$> routes st' !! 0%nat) = Some true /\
    trace st' =
    [uip_icmp6_send (parent_ipaddr 0) ICMP6_RPL RPL_CODE_DAO
       (dao_octets RPL_DAO_K_FLAG 241 child 40 241 0);
     uip_icmp6_send child_ll ICMP6_RPL RPL_CODE_DAO_ACK [30; 0; 7; 0]].
Proof. eexists. split; [vm_compute; reflexivity|]. repeat split. Qed.

(** Likewise the DCO: the route is removed and the DCO passed on. *)
Lemma overrun_dco_processed :
  exists st', dco_input (cfg := conf) (env := ext) unset overrun_dco router
              = Some st' /\
    rpl_stats st' malformed_msgs = 0 /\
    routes st' = ∅ /\
    trace st' =
    [uip_icmp6_send child_ll ICMP6_RPL RPL_CODE_DCO
       (dao_octets RPL_DAO_K_FLAG 7 child 40 241 0);
     uip_icmp6_send (parent_ipaddr 0) ICMP6_RPL RPL_CODE_DCO_ACK [30; 0; 7; 0]].
Proof. eexists. split; [vm_compute; reflexivity|]. repeat split. Qed.

(** The DIO whose option overruns is counted as malformed and dropped. *)
Lemma overrun_dio_rejected :
  overruns 1 (payload overrun_dio) 30 24 = true /\
  dio_input (cfg := conf) overrun_dio router
  = Some (RPL_STAT_inc malformed_msgs (RPL_STAT_inc dio_recvd router)).
Proof. split; reflexivity. Qed.

(** A DCO with a newer path sequence for a routed target, path lifetime
    30: the route stays, nothing is forwarded, [dco_ignored] does not
    count it, and the sender gets the status 234. *)
Lemma C3_dco_counterexample :
  @uip_ds6_route_lookup ext (routes router) child = Some 0%nat /\
  routes router !! 0%nat = Some child_route /\
  @lollipop_greater_than ext 241 (rs_dao_path_sequence (r_state child_route)) = true /\
  exists st', dco_input (cfg := conf) (env := ext) unset dco_lifetime_30 router
              = Some st' /\
    routes st' = routes router /\
    rpl_stats st' dco_forwarded = 0 /\ rpl_stats st' dco_ignored = 0 /\
    trace st' =
    [uip_icmp6_send (parent_ipaddr 0) ICMP6_RPL RPL_CODE_DCO_ACK [30; 0; 7; 234]].
Proof.
  split; [reflexivity|]. split; [reflexivity|]. split; [reflexivity|].
  eexists. split; [vm_compute; reflexivity|]. repeat split.
Qed.

(** The DCO for the child is passed on to [fe80::9], the route removed and
    the DCO acknowledged. *)
Lemma C3_dco_witness :
  exists st', dco_input (cfg := conf) (env := ext) unset dco router = Some st' /\
    routes st' = delete 0%nat (routes router) /\
    trace st' = trace router ++
                [uip_icmp6_send child_ll ICMP6_RPL RPL_CODE_DCO
                   (payload_bytes (payload dco) (uint16 (payload_len dco)))] ++
                [uip_icmp6_send (srcipaddr dco) ICMP6_RPL RPL_CODE_DCO_ACK
                   [uint8 30; 0; uint8 (rd (payload dco) 3); uint8 0]] /\
    rpl_stats st' dco_forwarded = rpl_stats router dco_forwarded + 1 /\
    rpl_stats st' dco_ignored = rpl_stats router dco_ignored.
Proof.
  exact (C3_dco_routed_target (cfg := conf) (env := ext) unset dco router 0%nat
           (mk_instance 2 true 30 60 1) (child_target 0 241)
           eq_refl eq_refl eq_refl
           (fun H => ltac:(discriminate H))
           ltac:(vm_compute; reflexivity)
           0%nat child_route ltac:(vm_compute; reflexivity) eq_refl eq_refl).
Defined.

(** A DCO for the node's own address that sets K is not answered; and had
    the node a route entry for that address, the DCO would remove it. *)
Lemma C4_dco_counterexample :
  get_global_addr (cfg := conf) router = Some me /\
  truthy (Z.land (rd (payload dco_for_me) 1) RPL_DAO_K_FLAG) = true /\
  (exists st', dco_input (cfg := conf) (env := ext) unset dco_for_me router
               = Some st' /\
     trace st' = []) /\
  (exists st', dco_input (cfg := conf) (env := ext) unset dco_for_me self_routed
               = Some st' /\
     routes self_routed !! 0%nat <> None /\ routes st' = ∅).
Proof.
  split; [reflexivity|]. split; [reflexivity|]. split.
  - eexists. split; [vm_compute; reflexivity|]. reflexivity.
  - eexists. split; [vm_compute; reflexivity|]. split; [discriminate|reflexivity].
Qed.

(** The DCO for the node's own address changes two counters only. *)
Lemma C4_dco_witness :
  dco_input (cfg := conf) (env := ext) unset dco_for_me router
  = Some (RPL_STAT_inc dco_ignored (RPL_STAT_inc dco_recvd router)).
Proof.
  exact (C4_dco_own_address (cfg := conf) (env := ext) unset dco_for_me router 0%nat
           (mk_instance 2 true 30 60 1)
           {| o_prefixlen := 128; o_prefix := me; o_lifetime := 0;
              o_pathSequence := 241; o_parent_addr := repeat 0 16 |}
           eq_refl eq_refl eq_refl
           (fun H => ltac:(discriminate H))
           ltac:(vm_compute; reflexivity)
           me ltac:(vm_compute; reflexivity) eq_refl eq_refl (or_introl eq_refl)).
Defined.

(** The child's No-Path DAO at the router whose preferred parent is set
    but has no known address: the route matches and its purge starts, the
    DAO-ACK is sent, but no DAO is forwarded. *)
Lemma C5_no_path_counterexample :
  (d_preferred_parent <$> dag_table router !! 0%nat) = Some (Some 0%nat) /\
  @uip_ds6_route_lookup strangers (routes router) child = Some 0%nat /\
  routes router !! 0%nat = Some child_route /\
  r_length child_route = 128 /\
  r_nexthop child_route = Some (srcipaddr no_path_dao) /\
  rs_nopath_received (r_state child_route) = false /\
  exists st', dao_input_storing (cfg := conf) (env := strangers) 0 no_path_dao router
              = Some st' /\
    routes st' =
    <[0%nat := set_state
                 (set_lifetime 60 (set_nopath_received true (r_state child_route)))
                 child_route]> (routes router) /\
    trace st' =
    [uip_icmp6_send child_ll ICMP6_RPL RPL_CODE_DAO_ACK [30; 0; 7; 0]].
Proof.
  repeat (split; [reflexivity|]).
  eexists. split; [vm_compute; reflexivity|]. split; reflexivity.
Qed.

(** The child's No-Path DAO: purge started, DAO passed on with sequence
    number 241, DAO-ACK sent. *)
Lemma C5_no_path_witness :
  exists st', dao_input_storing (cfg := conf) (env := ext) 0 no_path_dao router
              = Some st' /\
    routes st' =
    <[0%nat := set_state
                 (set_dao_fwd 7 241
                    (set_lifetime 60 (set_nopath_received true (r_state child_route))))
                 child_route]> (routes router) /\
    dao_sequence st' = 241 /\
    trace st' =
    [uip_icmp6_send (parent_ipaddr 0) ICMP6_RPL RPL_CODE_DAO
       (dao_octets RPL_DAO_K_FLAG 241 child 4 241 0);
     uip_icmp6_send child_ll ICMP6_RPL RPL_CODE_DAO_ACK [30; 0; 7; 0]].
Proof.
  exact (C5_no_path_dao (cfg := conf) (env := ext) 0 no_path_dao router
           0%nat 0%nat (mk_instance 2 true 30 60 1)
           (mk_dag 1 0 0 768 (Some 0%nat)) (child_target 0 241)
           eq_refl eq_refl eq_refl eq_refl eq_refl
           (fun H => ltac:(discriminate H)) eq_refl I
           eq_refl eq_refl eq_refl
           eq_refl (ex_intro _ child_route eq_refl)).
Defined.

(** A non-storing instance, and a storing one whose objective function has
    no callback: local repair only. *)
Lemma C6_retransmission_counterexample :
  handle_dao_retransmission (cfg := conf) (env := ext) (Some 0%nat)
    (unanswered 1 true 30 60)
  = Some (call (rpl_local_repair 0) (unanswered 1 true 30 60)) /\
  handle_dao_retransmission (cfg := conf) (env := ext) (Some 0%nat)
    (unanswered 2 false 30 60)
  = Some (call (rpl_local_repair 0) (unanswered 2 false 30 60)).
Proof. split; reflexivity. Qed.

(** A storing instance with callback: the callback, then local repair. *)
Lemma C6_retransmission_witness :
  handle_dao_retransmission (cfg := conf) (env := ext) (Some 0%nat)
    (unanswered 2 true 30 60)
  = Some (call (rpl_local_repair 0)
            (call (dao_ack_callback (Some 0%nat) (-1)) (unanswered 2 true 30 60))).
Proof.
  exact (C6_dao_retransmission_limit (cfg := conf) (env := ext) 0%nat
           (mk_parent 256 128) 0%nat (mk_dag 1 0 0 768 (Some 0%nat)) 0%nat
           (mk_instance 2 true 30 60 5) (unanswered 2 true 30 60)
           eq_refl eq_refl eq_refl eq_refl eq_refl ltac:(vm_compute; discriminate)).
Defined.

End traffic_examples.

(** ** A round trip on concrete messages *)

Section codec_examples.
Import contiki traffic.

Lemma byte_intro b : (0 <=? b) && (b <? 2 ^ 8) = true -> byte b.
Proof.
  intros Hb. apply andb_true_iff in Hb as [H0 H1].
  apply Z.leb_le in H0. apply Z.ltb_lt in H1. split; assumption.
Qed.

Lemma ipaddr_intro a :
  (length a =? 16)%nat && forallb (fun b => (0 <=? b) && (b <? 2 ^ 8)) a = true ->
  ipaddr a.
Proof.
  intros Ha. apply andb_true_iff in Ha as [Hl Hf]. split.
  - apply Nat.eqb_eq. exact Hl.
  - apply Forall_forall. intros b Hin. apply byte_intro.
    rewrite forallb_forall in Hf. apply Hf. apply list_elem_of_In. exact Hin.
Qed.

(** The announced instance and DAG hold values of their C types. *)
Lemma announced_fields_ok :
  dio_fields_ok (cfg := conf) announcing announced announcing announced.
Proof.
  split; try (unfold byte; simpl; lia);
    try (split; [reflexivity | repeat constructor; unfold byte; lia]);
    split; discriminate.
Qed.

(** A DIO with ETX metric container and prefix, a storing DAO (read by the
    DAO and the DCO loop) and a non-storing DAO, each followed by two stale
    octets. *)
Lemma payload_roundtrip_example :
  dio_input (cfg := conf) (received (parent_ipaddr 0) announced_octets) router
  = Some (call (rpl_process_dio (parent_ipaddr 0)
                  (dio_message (cfg := conf) announcing announced announcing announced))
            (RPL_STAT_inc dio_recvd router)) /\
  (let buffer := dao_payload (cfg := conf) announcing [] RPL_DAO_K_FLAG 7 child 4 241 30
                 ++ [0xaa; 0xbb] in
   dao_options (cfg := conf) 30 buffer 30 4 unset
   = Some {| o_prefixlen := 128; o_prefix := child; o_lifetime := 30;
             o_pathSequence := 241; o_parent_addr := repeat 0 16 |} /\
   dco_options dco_fuel buffer 30 4 unset
   = Some {| o_prefixlen := 128; o_prefix := child; o_lifetime := 30;
             o_pathSequence := 241; o_parent_addr := repeat 0 16 |}) /\
  (let buffer := put_bytes
                   (put_bytes
                      (dao_payload (cfg := conf) announcing (d_dag_id announced)
                         RPL_DAO_K_FLAG 7 child 20 241 30)
                      (d_dag_id announced) 8)
                   (drop 8 (parent_ipaddr 0)) 8 ++ [0xaa; 0xbb] in
   dao_options_ns 46 buffer 46 4 unset
   = Some {| o_prefixlen := 128; o_prefix := child; o_lifetime := 30;
             o_pathSequence := 0;
             o_parent_addr := [0x20; 0x01; 0x0d; 0xb8; 0; 0; 0; 0;
                               0; 0; 0; 0; 0; 0; 0; 1] |}).
Proof.
  split; [|split].
  - exact (proj1 (payload_roundtrip (cfg := conf))
             announcing announced announcing announced announced_octets [0xaa; 0xbb]
             (received (parent_ipaddr 0) announced_octets) router
             announced_fields_ok eq_refl eq_refl eq_refl).
  - pose proof (proj1 (proj2 (payload_roundtrip (cfg := conf)))
                  announcing [] RPL_DAO_K_FLAG 7 child 241 30 unset [0xaa; 0xbb]
                  (byte_intro 30 eq_refl) (byte_intro RPL_DAO_K_FLAG eq_refl)
                  (byte_intro 7 eq_refl) (ipaddr_intro child eq_refl)
                  (byte_intro 241 eq_refl) (byte_intro 30 eq_refl)
                  (fun H => ltac:(discriminate H)) eq_refl) as H.
    exact (proj2 (proj2 (proj2 (proj2 H)))).
  - pose proof (proj2 (proj2 (payload_roundtrip (cfg := conf)))
                  announcing (d_dag_id announced) RPL_DAO_K_FLAG 7 child 241 30
                  (parent_ipaddr 0) unset [0xaa; 0xbb]
                  (byte_intro 30 eq_refl) (byte_intro RPL_DAO_K_FLAG eq_refl)
                  (byte_intro 7 eq_refl) (ipaddr_intro child eq_refl)
                  (byte_intro 241 eq_refl) (byte_intro 30 eq_refl)
                  (ipaddr_intro (d_dag_id announced) eq_refl)
                  (ipaddr_intro (parent_ipaddr 0) eq_refl) eq_refl) as H.
    exact (proj2 (proj2 (proj2 (proj2 H)))).
Qed.

End codec_examples.

(** ** The builders on concrete traffic *)

Section builder_examples.
Import contiki traffic.


End builder_examples.

(** * Further properties of the handlers and the objective functions *)

(** ** Link metric and rank arithmetic *)

Section rank_arithmetic.
Context {cfg : rpl_conf} {env : rpl_ext}.

Lemma uint16_range x : 0 <= uint16 x < 2 ^ 16.
Proof. unfold uint16. apply Z.mod_pos_bound. lia. Qed.

Lemma uint16_small x : 0 <= x < 2 ^ 16 -> uint16 x = x.
Proof. intros Hx. apply Z.mod_small. exact Hx. Qed.

Lemma uint32_small x : 0 <= x < 2 ^ 32 -> uint32 x = x.
Proof. intros Hx. apply Z.mod_small. exact Hx. Qed.

(** X1.  The MRHOF [neighbor_link_callback] keeps an exponentially
    weighted moving average of the link metric: after a transmission that
    was acknowledged or not acknowledged, the new metric is exactly
    [(90 * recorded + 10 * packet) / 100], where the packet metric is
    [numtx * RPL_DAG_MC_ETX_DIVISOR] (as a [uint16_t]) for an acknowledged
    packet and [MAX_LINK_METRIC * RPL_DAG_MC_ETX_DIVISOR] otherwise; the
    32-bit intermediate results do not wrap, and the new metric lies
    between the recorded and the packet metric.  Only the link metric of
    [p] changes.  Collisions, deferrals and errors change nothing. *)
Theorem mrhof_etx_moving_average p P status numtx st :
  parent_table st !! p = Some P ->
  let recorded_etx := uint16 (p_link_metric P) in
  let packet_etx :=
    uint16 (match status with
            | rpl_mrhof.MAC_TX_NOACK => rpl_mrhof.MAX_LINK_METRIC * RPL_DAG_MC_ETX_DIVISOR
            | _ => numtx * RPL_DAG_MC_ETX_DIVISOR
            end) in
  match status with
  | rpl_mrhof.MAC_TX_OK | rpl_mrhof.MAC_TX_NOACK =>
      exists new_etx,
        rpl_mrhof.neighbor_link_callback p status numtx st =
          Some (with_parent_table <[p := set_link_metric new_etx P]> st) /\
        new_etx = (90 * recorded_etx + 10 * packet_etx) / 100 /\
        Z.min recorded_etx packet_etx <= new_etx <= Z.max recorded_etx packet_etx
  | _ => rpl_mrhof.neighbor_link_callback p status numtx st = Some st
  end.
Proof.
  intros HP recorded_etx packet_etx.
  assert (Hr := uint16_range (p_link_metric P)). fold recorded_etx in Hr.
  assert (Hk : 0 <= packet_etx < 2 ^ 16) by apply uint16_range.
  assert (Havg : uint16 (uint32 (uint32 (recorded_etx * rpl_mrhof.ETX_ALPHA) +
                   uint32 (packet_etx * uint32 (rpl_mrhof.ETX_SCALE - rpl_mrhof.ETX_ALPHA)))
                   / rpl_mrhof.ETX_SCALE)
                 = (90 * recorded_etx + 10 * packet_etx) / 100).
  { unfold rpl_mrhof.ETX_ALPHA, rpl_mrhof.ETX_SCALE.
    change (100 - 90) with 10. rewrite (uint32_small 10) by lia.
    rewrite (uint32_small (recorded_etx * 90)) by lia.
    rewrite (uint32_small (packet_etx * 10)) by lia.
    rewrite uint32_small by lia.
    rewrite uint16_small.
    - f_equal. lia.
    - split; [apply Z.div_pos; lia|apply Z.div_lt_upper_bound; lia]. }
  assert (Hbounds : Z.min recorded_etx packet_etx
                    <= (90 * recorded_etx + 10 * packet_etx) / 100
                    <= Z.max recorded_etx packet_etx).
  { split.
    - apply Z.div_le_lower_bound; lia.
    - apply Z.div_le_upper_bound; lia. }
  unfold rpl_mrhof.neighbor_link_callback. rewrite HP. cbn [mbind option_bind].
  destruct status; try reflexivity.
  - exists ((90 * recorded_etx + 10 * packet_etx) / 100).
    split; [rewrite <- Havg; reflexivity|]. split; [reflexivity|exact Hbounds].
  - exists ((90 * recorded_etx + 10 * packet_etx) / 100).
    split; [rewrite <- Havg; reflexivity|]. split; [reflexivity|exact Hbounds].
Qed.

(** X2.  The MRHOF [calculate_rank] through a parent adds the parent's
    link metric to the base rank (the parent's rank when the base rank
    given is 0) and saturates at [INFINITE_RANK]: for a base within
    [0, INFINITE_RANK] the sum never wraps around, so the result is never
    below the base and never above [INFINITE_RANK]. *)
Theorem mrhof_calculate_rank_saturates st a P base_rank :
  parent_table st !! a = Some P ->
  0 <= INFINITE_RANK < 2 ^ 16 ->
  let base := if base_rank =? 0 then p_rank P else base_rank in
  0 <= base <= INFINITE_RANK ->
  rpl_mrhof.calculate_rank st (Some a) base_rank =
    Some (Z.min (base + uint16 (p_link_metric P)) INFINITE_RANK) /\
  base <= Z.min (base + uint16 (p_link_metric P)) INFINITE_RANK <= INFINITE_RANK.
Proof.
  intros HP Hinf base Hbase.
  assert (Hm := uint16_range (p_link_metric P)).
  unfold rpl_mrhof.calculate_rank. rewrite HP. cbn [mbind option_bind].
  fold base. split; [|lia].
  destruct (Z.ltb_spec (INFINITE_RANK - base) (uint16 (p_link_metric P))).
  - f_equal. lia.
  - rewrite uint16_small by lia. f_equal. lia.
Qed.

(** X3.  In OF0 the rank through an acceptable parent grows strictly: for
    a parent with its DAG and instance set, of rank below
    [INFINITE_RANK], whose step of rank is within [1, 9], and an instance
    whose [min_hoprankinc] is positive with [9 * min_hoprankinc] within 16
    bits, [parent_rank_increase] is [step * min_hoprankinc] without
    truncation, and [rank_via_parent] is the parent's rank plus that
    increase, saturated at [INFINITE_RANK]; it exceeds the parent's
    rank. *)
Theorem of0_rank_through_acceptable_parent st a P d D i I :
  parent_table st !! a = Some P ->
  p_dag P = Some d -> dag_table st !! d = Some D ->
  d_instance D = Some i -> instance_table st !! i = Some I ->
  rpl_of0.parent_is_acceptable st (Some a) = true ->
  0 <= p_rank P < INFINITE_RANK -> INFINITE_RANK < 2 ^ 16 ->
  0 < i_min_hoprankinc I -> 9 * i_min_hoprankinc I < 2 ^ 16 ->
  let step := rpl_of0.STEP_OF_RANK st (Some a) in
  let rank := Z.min (p_rank P + step * i_min_hoprankinc I) INFINITE_RANK in
  1 <= step <= 9 /\
  rpl_of0.parent_rank_increase st (Some a) = Some (step * i_min_hoprankinc I) /\
  rpl_of0.rank_via_parent st (Some a) = Some rank /\
  p_rank P < rank <= INFINITE_RANK.
Proof.
  intros HP Hd HD Hi HI Hacc Hrank Hinf Hmin Hmax step rank.
  assert (Hstep : 1 <= step <= 9).
  { unfold rpl_of0.parent_is_acceptable in Hacc. fold step in Hacc.
    unfold rpl_of0.MIN_STEP_OF_RANK, rpl_of0.MAX_STEP_OF_RANK in Hacc. lia. }
  assert (Hinc : rpl_of0.parent_rank_increase st (Some a)
                 = Some (step * i_min_hoprankinc I)).
  { unfold rpl_of0.parent_rank_increase. rewrite HP. cbn [mbind option_bind].
    rewrite Hd, HD. cbn [mbind option_bind]. rewrite Hi, HI.
    cbn [mbind option_bind]. fold step.
    unfold rpl_of0.RANK_FACTOR, rpl_of0.RANK_STRETCH.
    rewrite (uint16_small (i_min_hoprankinc I)) by lia.
    rewrite uint16_small by nia. f_equal. lia. }
  split; [exact Hstep|]. split; [exact Hinc|]. split.
  - unfold rpl_of0.rank_via_parent. rewrite HP. cbn [mbind option_bind].
    rewrite Hinc. cbn [mbind option_bind].
    rewrite uint32_small by nia. fold rank. rewrite uint16_small; [reflexivity|].
    unfold rank. nia.
  - unfold rank. nia.
Qed.

End rank_arithmetic.

(** ** Reading a message *)

Section reading.
Context {cfg : rpl_conf} {env : rpl_ext}.

Lemma dao_options_fuel fuel buffer bl i o :
  Forall byte buffer -> bl - i <= Z.of_nat fuel ->
  exists r, dao_options fuel buffer bl i o = Some r.
Proof.
  intros Hb. revert i o. induction fuel as [|fuel IH]; intros i o Hf.
  - simpl. destruct (i <? bl) eqn:Hi; [apply Z.ltb_lt in Hi; lia|eauto].
  - simpl. destruct (i <? bl) eqn:Hi; [|eauto].
    pose proof (subopt_len_pos buffer i Hb). apply IH. lia.
Qed.

Lemma dao_options_ns_fuel fuel buffer bl i o :
  Forall byte buffer -> bl - i <= Z.of_nat fuel ->
  exists r, dao_options_ns fuel buffer bl i o = Some r.
Proof.
  intros Hb. revert i o. induction fuel as [|fuel IH]; intros i o Hf.
  - simpl. destruct (i <? bl) eqn:Hi; [apply Z.ltb_lt in Hi; lia|eauto].
  - simpl. destruct (i <? bl) eqn:Hi; [|eauto].
    pose proof (subopt_len_pos buffer i Hb). apply IH. lia.
Qed.

(** While [i + len] stays below [2^16] the index of the DCO loop does not
    wrap. *)
Lemma dco_options_no_wrap fuel buffer bl i o :
  Forall byte buffer -> bl + 257 <= 2 ^ 16 -> 0 <= i -> bl - i <= Z.of_nat fuel ->
  exists r, dco_options fuel buffer bl i o = Some r.
Proof.
  intros Hb Hbl. revert i o. induction fuel as [|fuel IH]; intros i o Hi Hf.
  - simpl. destruct (i <? bl) eqn:Hlt; [apply Z.ltb_lt in Hlt; lia|eauto].
  - simpl. destruct (i <? bl) eqn:Hlt; [|eauto]. apply Z.ltb_lt in Hlt.
    pose proof (subopt_len_pos buffer i Hb) as Hlen.
    assert (Hw : uint16 (i + uint16 (subopt_len buffer i)) = i + subopt_len buffer i).
    { unfold uint16. rewrite (Z.mod_small (subopt_len buffer i)) by lia.
      apply Z.mod_small. lia. }
    rewrite Hw. apply IH; lia.
Qed.

(** X4.  The option loops end.  On a buffer of octets, the loops of
    [dao_input_storing] and [dao_input_nonstoring] return after at most
    [buffer_length] rounds from any start index, because every option
    advances the index by at least one; the loop of [dco_input], whose
    index is a [uint16_t], returns when the payload is at most
    [2^16 - 257] octets long, so that the index cannot wrap. *)
Theorem option_loops_end buffer buffer_length i o :
  Forall byte buffer -> 0 <= i ->
  (exists r, dao_options (Z.to_nat buffer_length) buffer buffer_length i o = Some r) /\
  (exists r, dao_options_ns (Z.to_nat buffer_length) buffer buffer_length i o = Some r) /\
  (buffer_length + 257 <= 2 ^ 16 ->
   exists r, dco_options dco_fuel buffer buffer_length i o = Some r).
Proof.
  intros Hb Hi. split; [|split].
  - apply dao_options_fuel; [exact Hb|lia].
  - apply dao_options_ns_fuel; [exact Hb|lia].
  - intros Hbl. apply dco_options_no_wrap; try assumption.
    unfold dco_fuel. lia.
Qed.

(** X5.  [dio_input] returns on every payload of octets and counts the
    DIO in [dio_recvd]; beyond that it does one of three things and
    nothing else: it hands one DIO to [rpl_process_dio], or it counts the
    message in [malformed_msgs], or it drops it silently. *)
Theorem dio_input_outcomes pkt st :
  Forall byte (payload pkt) ->
  let received := RPL_STAT_inc dio_recvd st in
  exists st',
    dio_input pkt st = Some st' /\
    ((exists dio, st' = call (rpl_process_dio (srcipaddr pkt) dio) received) \/
     st' = RPL_STAT_inc malformed_msgs received \/
     st' = received).
Proof.
  intros Hb received. unfold dio_input, dio_decode. fold received.
  destruct (dio_options_total (Z.to_nat (uint8 (payload_len pkt))) (payload pkt)
              (uint8 (payload_len pkt)) 24 (dio_base (payload pkt)) Hb) as [r Hr].
  { unfold uint8. pose proof (Z.mod_pos_bound (payload_len pkt) (2 ^ 8)). lia. }
  rewrite Hr. cbn [mbind option_bind].
  destruct r as [dio| |]; eexists; (split; [reflexivity|]); eauto.
Qed.

(** X6.  [dio_input] does not check that the payload holds the 24
    octets of the DIO base.  When the payload length, kept in a
    [uint8_t], is at most 24 (an empty or truncated DIO, or one of 256
    octets and a few more), the option loop is not entered, and the DIO
    read from the 24 octets at the start of the buffer, whatever they
    are, goes to [rpl_process_dio] with the defaults for all that the
    options would set. *)
Theorem truncated_dio_is_processed pkt st :
  payload_len pkt mod 2 ^ 8 <= 24 ->
  dio_input pkt st =
  Some (call (rpl_process_dio (srcipaddr pkt) (dio_base (payload pkt)))
          (RPL_STAT_inc dio_recvd st)).
Proof.
  intros Hs. unfold dio_input, dio_decode.
  assert (Hshort : dio_options (Z.to_nat (uint8 (payload_len pkt))) (payload pkt)
                     (uint8 (payload_len pkt)) 24 (dio_base (payload pkt))
                   = Some (dio_ok (dio_base (payload pkt)))).
  { unfold uint8. destruct (Z.to_nat (payload_len pkt mod 2 ^ 8)); simpl;
      destruct (Z.ltb_spec 24 (payload_len pkt mod 2 ^ 8)); (lia || reflexivity). }
  rewrite Hshort. reflexivity.
Qed.

(** X7.  [get_global_addr] returns the first address of the interface
    that is in use, tentative or preferred, and not link-local: every
    address before it in the list fails one of the three conditions; and
    it finds none exactly when every address of the list fails one. *)
Theorem global_address_is_first_usable st :
  let usable a :=
    truthy (a_isused a) &&
    match a_state a with ADDR_TENTATIVE | ADDR_PREFERRED => true | _ => false end &&
    negb (uip_is_addr_linklocal (a_ipaddr a)) in
  match get_global_addr st with
  | Some addr =>
      exists before a after,
        addr_list st = before ++ a :: after /\ a_ipaddr a = addr /\
        usable a = true /\ Forall (fun b => usable b = false) before
  | None => Forall (fun b => usable b = false) (addr_list st)
  end.
Proof.
  intros usable. unfold get_global_addr.
  assert (Hfind : forall l,
    match List.find usable l with
    | Some a => exists before after, l = before ++ a :: after /\ usable a = true /\
                                     Forall (fun b => usable b = false) before
    | None => Forall (fun b => usable b = false) l
    end).
  { induction l as [|b l IH]; simpl; [constructor|].
    destruct (usable b) eqn:Hu.
    - exists [], l. repeat split; [exact Hu|constructor].
    - destruct (List.find usable l) as [a|].
      + destruct IH as (before & after & -> & Ha & Hbefore).
        exists (b :: before), after. repeat split; [exact Ha|constructor; assumption].
      + constructor; assumption. }
  specialize (Hfind (addr_list st)).
  change (match List.find usable (addr_list st) ≫= (fun a => Some (a_ipaddr a)) with
          | Some addr =>
              exists before a after,
                addr_list st = before ++ a :: after /\ a_ipaddr a = addr /\
                usable a = true /\ Forall (fun b => usable b = false) before
          | None => Forall (fun b => usable b = false) (addr_list st)
          end).
  destruct (List.find usable (addr_list st)) as [a|]; simpl.
  - destruct Hfind as (before & after & Hl & Ha & Hbefore).
    exists before, a, after. auto.
  - exact Hfind.
Qed.
End reading.

(** ** A DAO and its retransmission *)

Section retransmission_cycle.
Context {cfg : rpl_conf} {env : rpl_ext}.
Variables (st : node) (pa : nat) (P : rpl_parent_t) (d : nat) (D : rpl_dag_t)
          (i : nat) (I : rpl_instance_t) (prefix parent_ipaddr : uip_ipaddr_t)
          (lifetime : Z).
Hypothesis ack_enabled : RPL_WITH_DAO_ACK = true.
Hypothesis not_feather : forall s, rpl_mode_is_feather s = false.
Hypothesis random_unsigned : forall s, 0 <= random_rand s.
Hypothesis have_address : get_global_addr st = Some prefix.
Hypothesis parent_at : parent_table st !! pa = Some P.
Hypothesis parent_dag : p_dag P = Some d.
Hypothesis dag_at : dag_table st !! d = Some D.
Hypothesis dag_instance : d_instance D = Some i.
Hypothesis instance_at : instance_table st !! i = Some I.
Hypothesis parent_address : rpl_get_parent_ipaddr (Some pa) = Some parent_ipaddr.
Hypothesis path_lifetime : lifetime <> RPL_ZERO_LIFETIME.
Hypothesis may_retransmit : 1 < RPL_DAO_MAX_RETRANSMISSIONS.
Hypothesis timeout : 2 <= RPL_DAO_RETRANSMISSION_TIMEOUT.

(** Octet 3 of a DAO or DCO holds the sequence number. *)
Lemma dao_payload_sequence J dag_id flags seq_no target transit_len pathseq lt tail :
  rd (dao_payload J dag_id flags seq_no target transit_len pathseq lt ++ tail) 3
  = uint8 seq_no.
Proof.
  unfold dao_payload, put, put_bytes. cbn [app].
  destruct RPL_DAO_SPECIFY_DAG; cbn [app]; reflexivity.
Qed.

(** The octets of the node's DAO for its own address with the sequence
    number [seq_no], as a function of the path lifetime: the flags (K is
    set unless the lifetime is 0), then [dao_payload] with the transit
    option of its mode of operation. *)
Local Abbreviation own_dao seq_no lt :=
  (let flags := if RPL_DAO_SPECIFY_DAG then uint8 (Z.lor 0 RPL_DAO_D_FLAG) else 0 in
   let flags := if negb (lt =? RPL_ZERO_LIFETIME)
                then uint8 (Z.lor flags RPL_DAO_K_FLAG) else flags in
   let storing := negb (i_mop I =? RPL_MOP_NON_STORING) in
   let buffer := dao_payload I (d_dag_id D) flags seq_no prefix
                   (if storing then 4 else 20)
                   (if RPL_WITH_DCO then path_sequence st else 0) lt in
   if storing then buffer
   else put_bytes (put_bytes buffer (d_dag_id D) 8) (drop 8 parent_ipaddr) 8).

(** What [dao_output_target_seq] sends for the parent [pa] depends on the
    state through the path sequence, and on the instance through its id
    and mode of operation only. *)
Lemma dao_output_target_seq_state s J lt seq_no :
  parent_table s !! pa = Some P -> dag_table s !! d = Some D ->
  instance_table s !! i = Some J ->
  i_instance_id J = i_instance_id I -> i_mop J = i_mop I ->
  path_sequence s = path_sequence st ->
  dao_output_target_seq (Some pa) (Some prefix) lt seq_no s
  = Some (RPL_STAT_inc (if lt =? 0 then npdao_sent else dao_sent)
            (call (uip_icmp6_send
                     (if i_mop I =? RPL_MOP_NON_STORING then d_dag_id D
                      else parent_ipaddr)
                     ICMP6_RPL RPL_CODE_DAO (own_dao seq_no lt)) s)).
Proof.
  intros HP HD HJ Hid Hmop Hps.
  unfold dao_output_target_seq.
  rewrite not_feather, parent_address, HP. cbn [mbind option_bind].
  rewrite parent_dag, HD. cbn [mbind option_bind].
  rewrite dag_instance, HJ. cbn [mbind option_bind]. cbv zeta.
  rewrite ack_enabled, Hps, Hmop. cbn [andb].
  unfold dao_payload. rewrite Hid.
  destruct (i_mop I =? RPL_MOP_NON_STORING), (lt =? 0); reflexivity.
Qed.

(** X8.  A DAO and its retransmission.  With DAO-ACKs compiled in, a node
    that has a global address and whose parent has its DAG, instance and
    address set sends with [dao_output] (for a lifetime other than 0) a
    DAO, records its sequence number and one transmission in the
    instance, and arms the retransmission timer.  While fewer than
    [RPL_DAO_MAX_RETRANSMISSIONS] transmissions were made, the timer
    callback [handle_dao_retransmission] sends a DAO to the same
    destination, counts the second transmission, leaves the DAO sequence
    counter alone and arms the timer again with a delay of at least half
    the timeout and less than the timeout.  Both DAOs are [own_dao]: the
    layout of [dao_payload] with the next DAO sequence number, the node's
    global address as target and the node's path sequence; the first
    carries the lifetime given to [dao_output], the retransmission the
    default lifetime of the instance, and K is set unless that lifetime
    is 0.  So the retransmission repeats the first DAO octet for octet
    when that was sent with the default lifetime. *)
Theorem dao_retransmission_repeats_the_dao :
  let ds := uint8 (RPL_LOLLIPOP_INCREMENT (dao_sequence st)) in
  let dest := if i_mop I =? RPL_MOP_NON_STORING then d_dag_id D else parent_ipaddr in
  exists st1 st2 delay,
    dao_output (Some pa) lifetime st = Some st1 /\
    handle_dao_retransmission (Some pa) st1 = Some st2 /\
    trace st1 = trace st ++
      [ctimer_set_dao_retransmit i RPL_DAO_RETRANSMISSION_TIMEOUT (Some pa);
       uip_icmp6_send dest ICMP6_RPL RPL_CODE_DAO (own_dao ds lifetime)] /\
    trace st2 = trace st1 ++
      [ctimer_set_dao_retransmit i delay (Some pa);
       uip_icmp6_send dest ICMP6_RPL RPL_CODE_DAO
         (own_dao ds (i_default_lifetime I))] /\
    (forall lt, rd (own_dao ds lt) 3 = ds) /\
    RPL_DAO_RETRANSMISSION_TIMEOUT ÷ 2 <= delay < RPL_DAO_RETRANSMISSION_TIMEOUT /\
    instance_table st1 !! i = Some (set_i_my_dao ds 1 I) /\
    instance_table st2 !! i = Some (set_i_my_dao ds 2 I) /\
    dao_sequence st2 = ds.
Proof.
  intros ds dest.
  assert (Hl : (lifetime =? RPL_ZERO_LIFETIME) = false) by (apply Z.eqb_neq; exact path_lifetime).
  assert (Hmax : (1 >=? RPL_DAO_MAX_RETRANSMISSIONS) = false) by lia.
  assert (Hdelay : forall s,
            RPL_DAO_RETRANSMISSION_TIMEOUT ÷ 2 <=
            RPL_DAO_RETRANSMISSION_TIMEOUT ÷ 2 +
            Z.rem (random_rand s) (RPL_DAO_RETRANSMISSION_TIMEOUT ÷ 2)
            < RPL_DAO_RETRANSMISSION_TIMEOUT).
  { intros s. pose proof (random_unsigned s) as Hr.
    assert (Hh : 0 < RPL_DAO_RETRANSMISSION_TIMEOUT ÷ 2)
      by (rewrite Z.quot_div_nonneg by lia; apply Z.div_str_pos; lia).
    pose proof (Z.rem_bound_pos (random_rand s) _ Hr Hh) as Hrem.
    assert (2 * (RPL_DAO_RETRANSMISSION_TIMEOUT ÷ 2) <= RPL_DAO_RETRANSMISSION_TIMEOUT)
      by (rewrite Z.quot_div_nonneg by lia; apply Z.mul_div_le; lia).
    lia. }
  set (s1 := call (ctimer_set_dao_retransmit i RPL_DAO_RETRANSMISSION_TIMEOUT (Some pa))
               (with_instance_table <[i := set_i_my_dao ds 1 I]>
                  (with_dao_sequence ds st))).
  pose proof (dao_output_target_seq_state s1 (set_i_my_dao ds 1 I) lifetime ds
                parent_at dag_at (lookup_insert_eq _ _ _) eq_refl eq_refl eq_refl)
    as Hst1.
  set (st1 := RPL_STAT_inc (if lifetime =? 0 then npdao_sent else dao_sent)
                (call (uip_icmp6_send dest ICMP6_RPL RPL_CODE_DAO (own_dao ds lifetime))
                   s1)) in *.
  set (delay := RPL_DAO_RETRANSMISSION_TIMEOUT ÷ 2 +
                Z.rem (random_rand st1) (RPL_DAO_RETRANSMISSION_TIMEOUT ÷ 2)).
  set (J2 := set_i_my_dao_transmissions (uint8 (1 + 1)) (set_i_my_dao ds 1 I)).
  set (s2 := with_instance_table <[i := J2]>
               (call (ctimer_set_dao_retransmit i delay (Some pa)) st1)).
  pose proof (dao_output_target_seq_state s2 J2 (i_default_lifetime I) ds
                parent_at dag_at (lookup_insert_eq _ _ _) eq_refl eq_refl eq_refl)
    as Hst2.
  exists st1,
    (RPL_STAT_inc (if i_default_lifetime I =? 0 then npdao_sent else dao_sent)
       (call (uip_icmp6_send dest ICMP6_RPL RPL_CODE_DAO
                (own_dao ds (i_default_lifetime I))) s2)),
    delay.
  split; [|split; [|split; [|split; [|split; [|split; [|split; [|split]]]]]]].
  - unfold dao_output. rewrite have_address, parent_at. cbn [mbind option_bind].
    rewrite parent_dag, dag_at. cbn [mbind option_bind].
    rewrite dag_instance, instance_at. cbn [mbind option_bind].
    rewrite ack_enabled, Hl. cbn [negb]. exact Hst1.
  - unfold handle_dao_retransmission.
    change (parent_table st1) with (parent_table st). rewrite parent_at.
    cbn [mbind option_bind]. rewrite parent_dag.
    change (dag_table st1) with (dag_table st). rewrite dag_at.
    cbn [mbind option_bind]. rewrite dag_instance.
    change (instance_table st1) with (<[i := set_i_my_dao ds 1 I]> (instance_table st)).
    rewrite lookup_insert_eq. cbn [mbind option_bind].
    change (i_my_dao_transmissions (set_i_my_dao ds 1 I)) with 1. rewrite Hmax.
    change (get_global_addr st1) with (get_global_addr st). rewrite have_address.
    exact Hst2.
  - cbn. rewrite <- app_assoc. reflexivity.
  - cbn. rewrite <- !app_assoc. reflexivity.
  - intros lt. cbv zeta. transitivity (uint8 ds); [|apply uint8_idem].
    destruct (negb (i_mop I =? RPL_MOP_NON_STORING)).
    + rewrite <- (app_nil_r (dao_payload _ _ _ _ _ _ _ _)).
      apply dao_payload_sequence.
    + unfold put_bytes. rewrite <- app_assoc. apply dao_payload_sequence.
  - apply Hdelay.
  - apply lookup_insert_eq.
  - cbn. rewrite insert_insert_eq. apply lookup_insert_eq.
  - reflexivity.
Qed.
End retransmission_cycle.

(** ** DAOs that a storing node takes up *)

Section dao_loop.
Context {cfg : rpl_conf} {env : rpl_ext}.
Variables (pathSequence0 : Z) (pkt : icmp6_input) (st : node).
Variables (i d pa : nat) (I : rpl_instance_t) (D : rpl_dag_t) (P : rpl_parent_t).

Hypothesis storing_enabled : RPL_WITH_STORING = true.
Hypothesis instance_known :
  rpl_get_instance (instance_table st) (rd (payload pkt) 0) = Some i.
Hypothesis instance_at : instance_table st !! i = Some I.
Hypothesis current_dag : i_current_dag I = Some d.
Hypothesis dag_at : dag_table st !! d = Some D.
Hypothesis same_dag :
  truthy (Z.land (rd (payload pkt) 1) RPL_DAO_D_FLAG) = true ->
  rd_bytes (d_dag_id D) 0 16 = rd_bytes (payload pkt) 4 16.
Hypothesis unicast : uip_is_addr_mcast (srcipaddr pkt) = false.
Hypothesis sender_is_parent :
  rpl_find_parent (parent_table st) (Some d) (srcipaddr pkt) = Some pa.
Hypothesis parent_at : parent_table st !! pa = Some P.
Hypothesis closes_loop :
  DAG_RANK (p_rank P) I < DAG_RANK (d_rank D) I \/ d_preferred_parent D = Some pa.

(** X9.  Loop detection in [dao_input_storing]: a unicast DAO of a known
    instance that passes the DAG check and comes from a parent of the
    current DAG whose rank (in units of [min_hoprankinc]) is below the
    node's, or from the preferred parent, is dropped before its options
    are read.  The handler counts it in [dao_recvd], sets the rank of that
    parent to [INFINITE_RANK] and its flag [RPL_PARENT_FLAG_UPDATED], and
    does nothing else: no route changes, nothing is forwarded and no
    DAO-ACK is sent, whatever the K flag says. *)
Theorem dao_from_loop_closing_parent :
  dao_input_storing pathSequence0 pkt st =
  Some (with_parent_table
          <[pa := {| p_dag := p_dag P; p_rank := INFINITE_RANK;
                     p_link_metric := p_link_metric P;
                     p_flags := Z.lor (p_flags P) RPL_PARENT_FLAG_UPDATED;
                     p_mc := p_mc P |}]>
          (RPL_STAT_inc dao_recvd st)).
Proof.
  unfold dao_input_storing. rewrite storing_enabled, instance_known.
  cbn [mbind option_bind]. rewrite instance_at.
  cbn [mbind option_bind]. rewrite current_dag. cbn [mbind option_bind].
  rewrite dag_at. cbn [mbind option_bind]. rewrite unicast. cbn [negb].
  cbn [parent_table RPL_STAT_inc with_rpl_stats].
  assert (Hdag : truthy (Z.land (rd (payload pkt) 1) RPL_DAO_D_FLAG) &&
                 negb (bool_decide (rd_bytes (d_dag_id D) 0 16
                                    = rd_bytes (payload pkt) 4 16)) = false).
  { destruct (truthy (Z.land (rd (payload pkt) 1) RPL_DAO_D_FLAG)); [|reflexivity].
    rewrite bool_decide_eq_true_2 by (apply same_dag; reflexivity). reflexivity. }
  rewrite Hdag, sender_is_parent, parent_at. cbn [mbind option_bind].
  destruct (Z.ltb_spec (DAG_RANK (p_rank P) I) (DAG_RANK (d_rank D) I)) as [Hlt|Hge].
  - reflexivity.
  - destruct closes_loop as [Hlt|Hpref]; [lia|].
    rewrite bool_decide_eq_true_2 by (symmetry; exact Hpref). reflexivity.
Qed.
End dao_loop.

Section dao_route.
Context {cfg : rpl_conf} {env : rpl_ext}.
Variables (pathSequence0 : Z) (pkt : icmp6_input) (st : node).
Variables (i d : nat) (I : rpl_instance_t) (D : rpl_dag_t) (o : dao_opts).

Hypothesis storing_enabled : RPL_WITH_STORING = true.
Hypothesis instance_known :
  rpl_get_instance (instance_table st) (rd (payload pkt) 0) = Some i.
Hypothesis instance_at : instance_table st !! i = Some I.
Hypothesis current_dag : i_current_dag I = Some d.
Hypothesis dag_at : dag_table st !! d = Some D.
Hypothesis same_dag :
  truthy (Z.land (rd (payload pkt) 1) RPL_DAO_D_FLAG) = true ->
  rd_bytes (d_dag_id D) 0 16 = rd_bytes (payload pkt) 4 16.
Hypothesis unicast : uip_is_addr_mcast (srcipaddr pkt) = false.
Hypothesis no_loop :
  match rpl_find_parent (parent_table st) (Some d) (srcipaddr pkt) with
  | Some pa =>
      exists P, parent_table st !! pa = Some P /\
                DAG_RANK (d_rank D) I <= DAG_RANK (p_rank P) I /\
                Some pa <> d_preferred_parent D
  | None => True
  end.
Hypothesis options_read :
  dao_options (Z.to_nat (uint8 (payload_len pkt))) (payload pkt)
    (uint8 (payload_len pkt))
    (if truthy (Z.land (rd (payload pkt) 1) RPL_DAO_D_FLAG) then 4 + 16 else 4)
    {| o_prefixlen := 0; o_prefix := repeat 0 16;
       o_lifetime := i_default_lifetime I; o_pathSequence := pathSequence0;
       o_parent_addr := repeat 0 16 |}
  = Some o.
Hypothesis path_lifetime : o_lifetime o <> RPL_ZERO_LIFETIME.
Hypothesis not_a_group :
  RPL_WITH_MULTICAST && uip_is_addr_mcast_global (o_prefix o) = false.

(** The DAO-ACK that refuses the DAO, if one is sent. *)
Local Abbreviation nacked :=
  (if truthy (Z.land (rd (payload pkt) 1) RPL_DAO_K_FLAG) && RPL_WITH_DAO_ACK
   then [uip_icmp6_send (srcipaddr pkt) ICMP6_RPL RPL_CODE_DAO_ACK
           [uint8 (i_instance_id I); 0; uint8 (rd (payload pkt) 3);
            uint8 (if d_rank D =? ROOT_RANK I
                   then RPL_DAO_ACK_UNABLE_TO_ADD_ROUTE_AT_ROOT
                   else RPL_DAO_ACK_UNABLE_TO_ACCEPT)]]
   else []).

(** [dao_input_storing] for a DAO that announces a route, from the update
    of the neighbour table on. *)
Lemma dao_input_storing_route :
  dao_input_storing pathSequence0 pkt st =
  let st := RPL_STAT_inc dao_recvd st in
  let nack := if d_rank D =? ROOT_RANK I then RPL_DAO_ACK_UNABLE_TO_ADD_ROUTE_AT_ROOT
              else RPL_DAO_ACK_UNABLE_TO_ACCEPT in
  let rep := uip_ds6_route_lookup (routes st) (o_prefix o) in
  match rpl_icmp6_update_nbr_table (srcipaddr pkt) st with
  | None =>
      if truthy (Z.land (rd (payload pkt) 1) RPL_DAO_K_FLAG)
      then dao_ack_output i (srcipaddr pkt) (rd (payload pkt) 3) nack st
      else Some st
  | Some st =>
      curNextHop ←
        match rep with
        | Some r =>
            if RPL_WITH_DCO then
              R ← routes st !! r;
              Some (match r_nexthop R with
                    | Some nh => nh
                    | None => repeat 0 16
                    end)
            else Some (repeat 0 16)
        | None => Some (repeat 0 16)
        end;
      let '(rep, rs) :=
        rpl_add_route (routes st) (Some d) (o_prefix o) (o_prefixlen o)
          (srcipaddr pkt) in
      let st := with_routes (fun _ => rs) st in
      match rep with
      | None =>
          let st := RPL_STAT_inc mem_overflows st in
          if truthy (Z.land (rd (payload pkt) 1) RPL_DAO_K_FLAG)
          then dao_ack_output i (srcipaddr pkt) (rd (payload pkt) 3) nack st
          else Some st
      | Some r =>
          R ← routes st !! r;
          let s := set_lifetime (RPL_LIFETIME I (o_lifetime o)) (r_state R) in
          let s := if RPL_WITH_DCO
                   then set_dao_path_sequence (o_pathSequence o) s else s in
          let s := set_nopath_received false s in
          let st := with_routes <[r := set_state s R]> st in
          dao_fwd true i d rep (rd (payload pkt) 1) (rd (payload pkt) 3)
            (payload pkt) (uint8 (payload_len pkt)) (srcipaddr pkt) curNextHop o st
      end
  end.
Proof.
  unfold dao_input_storing. rewrite storing_enabled, instance_known.
  cbn [mbind option_bind]. rewrite instance_at.
  cbn [mbind option_bind]. rewrite current_dag. cbn [mbind option_bind].
  rewrite dag_at. cbn [mbind option_bind]. rewrite unicast. cbn [negb].
  cbn [parent_table RPL_STAT_inc with_rpl_stats].
  assert (Hdag : truthy (Z.land (rd (payload pkt) 1) RPL_DAO_D_FLAG) &&
                 negb (bool_decide (rd_bytes (d_dag_id D) 0 16
                                    = rd_bytes (payload pkt) 4 16)) = false).
  { destruct (truthy (Z.land (rd (payload pkt) 1) RPL_DAO_D_FLAG)); [|reflexivity].
    rewrite bool_decide_eq_true_2 by (apply same_dag; reflexivity). reflexivity. }
  rewrite Hdag.
  assert (Hl : (o_lifetime o =? RPL_ZERO_LIFETIME) = false)
    by (apply Z.eqb_neq; exact path_lifetime).
  pose proof no_loop as Hnl. revert Hnl.
  destruct (rpl_find_parent (parent_table st) (Some d) (srcipaddr pkt)) as [pa|];
    intros Hnl.
  - destruct Hnl as (P & HP & Hrank & Hpref). rewrite HP. cbn [mbind option_bind].
    replace (DAG_RANK (p_rank P) I <? DAG_RANK (d_rank D) I) with false
      by (symmetry; apply Z.ltb_ge; exact Hrank).
    rewrite bool_decide_eq_false_2 by exact Hpref. cbn [mbind option_bind].
    rewrite options_read. cbn [mbind option_bind].
    rewrite not_a_group, Hl. reflexivity.
  - cbn [mbind option_bind].
    rewrite options_read. cbn [mbind option_bind].
    rewrite not_a_group, Hl. reflexivity.
Qed.

Lemma dao_nack_output_sends s :
  instance_table s = instance_table st ->
  (if truthy (Z.land (rd (payload pkt) 1) RPL_DAO_K_FLAG)
   then dao_ack_output i (srcipaddr pkt) (rd (payload pkt) 3)
          (if d_rank D =? ROOT_RANK I then RPL_DAO_ACK_UNABLE_TO_ADD_ROUTE_AT_ROOT
           else RPL_DAO_ACK_UNABLE_TO_ACCEPT) s
   else Some s)
  = Some (with_trace (fun t => t ++ nacked) s).
Proof.
  intros Hs. unfold dao_ack_output.
  destruct (truthy (Z.land (rd (payload pkt) 1) RPL_DAO_K_FLAG)); cbn [andb].
  - destruct RPL_WITH_DAO_ACK.
    + rewrite Hs, instance_at. reflexivity.
    + unfold with_trace. rewrite app_nil_r. destruct s; reflexivity.
  - unfold with_trace. rewrite app_nil_r. destruct s; reflexivity.
Qed.

(** X10.  A DAO from a neighbour for which there is no room.  For a
    unicast DAO with a lifetime other than 0 that the node takes up
    (known instance, DAG check passed, no loop, target not a multicast
    group) and whose target options declare at most 128 bits: when the sender is not in the neighbour cache and cannot be
    added to it, nothing changes but [dao_recvd]; the DAO is not
    forwarded, and if the K flag is set (and DAO-ACKs are compiled in) a
    DAO-ACK goes to the sender with status
    [RPL_DAO_ACK_UNABLE_TO_ADD_ROUTE_AT_ROOT] when the node is the root
    and [RPL_DAO_ACK_UNABLE_TO_ACCEPT] otherwise. *)
Theorem dao_refused_by_full_neighbour_cache :
  dao_fits pkt = true ->
  uip_ds6_nbr_lookup (nbr_cache st) (srcipaddr pkt) = false ->
  uip_ds6_nbr_add (nbr_cache st) (srcipaddr pkt) = None ->
  dao_input_storing pathSequence0 pkt st
  = Some (with_trace (fun t => t ++ nacked) (RPL_STAT_inc dao_recvd st)).
Proof.
  intros _ Hlook Hadd. rewrite dao_input_storing_route. cbv zeta.
  unfold rpl_icmp6_update_nbr_table.
  cbn [nbr_cache RPL_STAT_inc stat_add with_rpl_stats]. rewrite Hlook, Hadd.
  cbn [mbind option_bind]. apply dao_nack_output_sends. reflexivity.
Qed.

(** X11.  A DAO for which there is no route entry.  For such a DAO
    (target options of at most 128 bits) from a sender that is in the neighbour cache or was added to it: when
    [rpl_add_route] returns no entry, [mem_overflows] is counted, the
    route table is left as [rpl_add_route] left it, the DAO is not
    forwarded, and the same negative DAO-ACK follows if the K flag is
    set. *)
Theorem dao_refused_by_full_route_table c rs :
  dao_fits pkt = true ->
  (if uip_ds6_nbr_lookup (nbr_cache st) (srcipaddr pkt) then Some (nbr_cache st)
   else uip_ds6_nbr_add (nbr_cache st) (srcipaddr pkt)) = Some c ->
  match uip_ds6_route_lookup (routes st) (o_prefix o) with
  | Some r => is_Some (routes st !! r)
  | None => True
  end ->
  rpl_add_route (routes st) (Some d) (o_prefix o) (o_prefixlen o) (srcipaddr pkt)
  = (NULL, rs) ->
  dao_input_storing pathSequence0 pkt st
  = Some (with_trace (fun t => t ++ nacked)
            (RPL_STAT_inc mem_overflows
               (with_routes (fun _ => rs)
                  (with_nbr_cache c (RPL_STAT_inc dao_recvd st))))).
Proof.
  intros _ Hnbr Hbefore Hadd. rewrite dao_input_storing_route. cbv zeta.
  assert (Hn : rpl_icmp6_update_nbr_table (srcipaddr pkt) (RPL_STAT_inc dao_recvd st)
               = Some (with_nbr_cache c (RPL_STAT_inc dao_recvd st))).
  { revert Hnbr. unfold rpl_icmp6_update_nbr_table.
    cbn [nbr_cache RPL_STAT_inc stat_add with_rpl_stats].
    destruct (uip_ds6_nbr_lookup (nbr_cache st) (srcipaddr pkt)).
    - intros [= <-]. destruct st; reflexivity.
    - intros ->. reflexivity. }
  rewrite Hn.
  cbn [routes with_nbr_cache RPL_STAT_inc stat_add with_rpl_stats].
  rewrite Hadd.
  assert (Hcur : exists h,
    match uip_ds6_route_lookup (routes st) (o_prefix o) with
    | Some r =>
        if RPL_WITH_DCO then
          R ← routes st !! r;
          Some (match r_nexthop R with Some nh => nh | None => repeat 0 16 end)
        else Some (repeat 0 16)
    | None => Some (repeat 0 16)
    end = Some h).
  { destruct (uip_ds6_route_lookup (routes st) (o_prefix o)) as [r|] eqn:Hr; [|eauto].
    destruct RPL_WITH_DCO; [|eauto].
    destruct Hbefore as [R ->]. cbn [mbind option_bind]. eauto. }
  destruct Hcur as [h ->]. cbn [mbind option_bind].
  apply dao_nack_output_sends. reflexivity.
Qed.

(** The last step of [dao_fwd]: the DCO to the next hop that the route
    had before, if the DAO came from another one. *)
Lemma dao_fwd_dco_state old s :
  instance_table s !! i = Some I -> dag_table s !! d = Some D ->
  let changed := RPL_WITH_DCO && negb (uip_is_addr_unspecified old) &&
                 negb (uip_ipaddr_cmp old (srcipaddr pkt)) in
  let flags := if RPL_DAO_SPECIFY_DAG then uint8 (Z.lor 0 RPL_DAO_D_FLAG) else 0 in
  let flags := if RPL_WITH_DCO_ACK then uint8 (Z.lor flags RPL_DAO_K_FLAG) else flags in
  exists s',
    (if changed then dco_output i (o_prefix o) old (o_pathSequence o) s else Some s)
    = Some s' /\
    routes s' = routes s /\ dao_sequence s' = dao_sequence s /\
    trace s' = trace s ++
      (if changed
       then [uip_icmp6_send old ICMP6_RPL RPL_CODE_DCO
               (dao_payload I (if RPL_DAO_SPECIFY_DAG then d_dag_id D else [])
                  flags (dco_sequence s) (o_prefix o) 4 (o_pathSequence o) 0)]
       else []) /\
    dco_sequence s'
    = (if changed then uint8 (RPL_LOLLIPOP_INCREMENT (dco_sequence s))
       else dco_sequence s) /\
    nbr_cache s' = nbr_cache s.
Proof.
  intros HI HD changed flags0 flags.
  destruct changed eqn:Hc.
  - assert (Hdco : RPL_WITH_DCO = true)
      by (unfold changed in Hc; destruct RPL_WITH_DCO; [reflexivity|discriminate Hc]).
    unfold dco_output. rewrite Hdco, storing_enabled, HI. cbn [andb mbind option_bind].
    destruct RPL_DAO_SPECIFY_DAG.
    + rewrite current_dag. cbn [mbind option_bind dag_table with_dco_sequence].
      rewrite HD. cbn [mbind option_bind].
      eexists. split; [reflexivity|]. repeat split; reflexivity.
    + cbn [mbind option_bind]. eexists. split; [reflexivity|]. repeat split; reflexivity.
  - exists s. rewrite app_nil_r. repeat split; reflexivity.
Qed.

(** The DAO-ACK that accepts the DAO, if [dao_fwd] sends one. *)
Lemma dao_fwd_ack (should_ack : bool) s :
  instance_table s !! i = Some I ->
  (if should_ack
   then dao_ack_output i (srcipaddr pkt) (rd (payload pkt) 3)
          RPL_DAO_ACK_UNCONDITIONAL_ACCEPT s
   else Some s)
  = Some (with_trace
            (fun t => t ++
               if should_ack && RPL_WITH_DAO_ACK
               then [uip_icmp6_send (srcipaddr pkt) ICMP6_RPL RPL_CODE_DAO_ACK
                       [uint8 (i_instance_id I); 0; uint8 (rd (payload pkt) 3);
                        uint8 RPL_DAO_ACK_UNCONDITIONAL_ACCEPT]]
               else []) s).
Proof.
  intros HI. unfold dao_ack_output. destruct should_ack; cbn [andb].
  - destruct RPL_WITH_DAO_ACK.
    + rewrite HI. reflexivity.
    + unfold with_trace. rewrite app_nil_r. destruct s; reflexivity.
  - unfold with_trace. rewrite app_nil_r. destruct s; reflexivity.
Qed.

(** X12.  A DAO that installs a route, and the DCO it triggers.  For a
    unicast DAO with a lifetime other than 0 that the node takes up, with
    target options of at most 128 bits, the sender in the neighbour cache or added to it, and an entry [r]
    returned by [rpl_add_route]: the handler returns, and the entry gets
    the lifetime [RPL_LIFETIME] of the DAO's path lifetime, its NOPATH bit
    cleared and, in a build with DCO, the path sequence of the DAO.  If
    the preferred parent is set and its address known, the DAO goes to it
    with octet 3 replaced: by the outgoing number recorded in the entry
    when the entry is pending with the sequence number of this DAO (a
    repeated DAO; the DAO sequence counter stays), otherwise by the next
    DAO sequence number, which is recorded in the entry together with the
    DAO's own and the pending mark.  A DAO-ACK that accepts the DAO
    follows iff K is set, DAO-ACKs are compiled in, and the node is the
    root or the entry (as [rpl_add_route] returned it) is not pending and
    holds the DAO's sequence number.  Last, one DCO is sent exactly when
    the build has DCO and the route found for the target before the
    update had a next hop [old] that is neither unspecified nor the
    sender: it goes to [old], names the target and the path sequence of
    the DAO, carries the current DCO sequence number, the K flag iff
    [RPL_WITH_DCO_ACK], and the path lifetime 0; the DCO sequence counter
    advances only then. *)
Theorem dao_route_update_and_dco c rep0 old r rs R :
  dao_fits pkt = true ->
  (if uip_ds6_nbr_lookup (nbr_cache st) (srcipaddr pkt) then Some (nbr_cache st)
   else uip_ds6_nbr_add (nbr_cache st) (srcipaddr pkt)) = Some c ->
  uip_ds6_route_lookup (routes st) (o_prefix o) = rep0 ->
  match rep0 with
  | Some r0 => exists R0, routes st !! r0 = Some R0 /\
                          old = if RPL_WITH_DCO
                                then default (repeat 0 16) (r_nexthop R0)
                                else repeat 0 16
  | None => old = repeat 0 16
  end ->
  rpl_add_route (routes st) (Some d) (o_prefix o) (o_prefixlen o) (srcipaddr pkt)
  = (Some r, rs) ->
  rs !! r = Some R ->
  let sequence := rd (payload pkt) 3 in
  let k_flag := truthy (Z.land (rd (payload pkt) 1) RPL_DAO_K_FLAG) in
  let updated :=
    {| r_ipaddr := r_ipaddr R; r_length := r_length R; r_nexthop := r_nexthop R;
       r_state := {| rs_lifetime := RPL_LIFETIME I (o_lifetime o);
                     rs_dao_seqno_in := rs_dao_seqno_in (r_state R);
                     rs_dao_seqno_out := rs_dao_seqno_out (r_state R);
                     rs_dao_path_sequence :=
                       if RPL_WITH_DCO then o_pathSequence o
                       else rs_dao_path_sequence (r_state R);
                     rs_dao_pending := rs_dao_pending (r_state R);
                     rs_nopath_received := false |} |} in
  let upstream :=
    match d_preferred_parent D with
    | Some _ => rpl_get_parent_ipaddr (d_preferred_parent D)
    | None => None
    end in
  let repeated :=
    rs_dao_pending (r_state R) && (rs_dao_seqno_in (r_state R) =? sequence) in
  let fresh := uint8 (RPL_LOLLIPOP_INCREMENT (dao_sequence st)) in
  let out_seq := if repeated then rs_dao_seqno_out (r_state R) else fresh in
  let forwarded :=
    match upstream with
    | Some parent_ipaddr =>
        [uip_icmp6_send parent_ipaddr ICMP6_RPL RPL_CODE_DAO
           (payload_bytes (<[3%nat := uint8 out_seq]> (payload pkt))
              (uint8 (payload_len pkt)))]
    | None => []
    end in
  let acked :=
    if k_flag &&
       (negb (rs_dao_pending (r_state R)) && (rs_dao_seqno_in (r_state R) =? sequence)
        || (d_rank D =? ROOT_RANK I)) && RPL_WITH_DAO_ACK
    then [uip_icmp6_send (srcipaddr pkt) ICMP6_RPL RPL_CODE_DAO_ACK
            [uint8 (i_instance_id I); 0; uint8 sequence;
             uint8 RPL_DAO_ACK_UNCONDITIONAL_ACCEPT]]
    else [] in
  let changed := RPL_WITH_DCO && negb (uip_is_addr_unspecified old) &&
                 negb (uip_ipaddr_cmp old (srcipaddr pkt)) in
  let flags := if RPL_DAO_SPECIFY_DAG then uint8 (Z.lor 0 RPL_DAO_D_FLAG) else 0 in
  let flags := if RPL_WITH_DCO_ACK then uint8 (Z.lor flags RPL_DAO_K_FLAG) else flags in
  let dco := uip_icmp6_send old ICMP6_RPL RPL_CODE_DCO
               (dao_payload I (if RPL_DAO_SPECIFY_DAG then d_dag_id D else [])
                  flags (dco_sequence st) (o_prefix o) 4 (o_pathSequence o) 0) in
  exists st',
    dao_input_storing pathSequence0 pkt st = Some st' /\
    routes st' =
      <[r := if bool_decide (upstream = None) || repeated then updated
             else set_state (set_dao_fwd (uint8 sequence) fresh (r_state updated))
                    updated]> rs /\
    dao_sequence st' =
      (if bool_decide (upstream = None) || repeated then dao_sequence st else fresh) /\
    trace st' = trace st ++ forwarded ++ acked ++ (if changed then [dco] else []) /\
    dco_sequence st'
    = (if changed then uint8 (RPL_LOLLIPOP_INCREMENT (dco_sequence st))
       else dco_sequence st) /\
    nbr_cache st' = c.
Proof.
  intros _ Hnbr Hrep0 Hold Hadd HR sequence k_flag updated upstream repeated fresh out_seq
         forwarded acked changed flags0 flags dco.
  rewrite dao_input_storing_route. cbv zeta.
  assert (Hn : rpl_icmp6_update_nbr_table (srcipaddr pkt) (RPL_STAT_inc dao_recvd st)
               = Some (with_nbr_cache c (RPL_STAT_inc dao_recvd st))).
  { revert Hnbr. unfold rpl_icmp6_update_nbr_table.
    cbn [nbr_cache RPL_STAT_inc stat_add with_rpl_stats].
    destruct (uip_ds6_nbr_lookup (nbr_cache st) (srcipaddr pkt)).
    - intros [= <-]. destruct st; reflexivity.
    - intros ->. reflexivity. }
  rewrite Hn.
  cbn [routes with_nbr_cache RPL_STAT_inc stat_add with_rpl_stats].
  rewrite Hadd, Hrep0.
  assert (Hcur : forall A (k : uip_ipaddr_t -> option A),
    (match rep0 with
     | Some r =>
         if RPL_WITH_DCO then
           R ← routes st !! r;
           Some (match r_nexthop R with Some nh => nh | None => repeat 0 16 end)
         else Some (repeat 0 16)
     | None => Some (repeat 0 16)
     end ≫= k) = k old).
  { intros A k. destruct rep0 as [r0|]; [|rewrite Hold; reflexivity].
    destruct Hold as (R0 & HR0 & ->). rewrite HR0.
    destruct RPL_WITH_DCO; [|reflexivity]. cbn [mbind option_bind].
    destruct (r_nexthop R0); reflexivity. }
  rewrite Hcur. clear Hcur.
  cbn [routes with_routes]. rewrite HR. cbn [mbind option_bind].
  assert (Hup : set_state
                  (set_nopath_received false
                     (if RPL_WITH_DCO
                      then set_dao_path_sequence (o_pathSequence o)
                             (set_lifetime (RPL_LIFETIME I (o_lifetime o)) (r_state R))
                      else set_lifetime (RPL_LIFETIME I (o_lifetime o)) (r_state R))) R
                = updated)
    by (unfold updated; destruct RPL_WITH_DCO; reflexivity).
  rewrite Hup.
  set (s0 := with_routes <[r := updated]>
               (with_routes (fun _ => rs)
                  (with_nbr_cache c (RPL_STAT_inc dao_recvd st)))).
  unfold dao_fwd.
  change (instance_table s0) with (instance_table st).
  change (dag_table s0) with (dag_table st).
  rewrite instance_at, dag_at. cbn [mbind option_bind].
  change (routes s0) with (<[r := updated]> rs). rewrite lookup_insert_eq.
  cbn [mbind option_bind].
  change (rs_dao_pending (r_state updated)) with (rs_dao_pending (r_state R)).
  change (rs_dao_seqno_in (r_state updated)) with (rs_dao_seqno_in (r_state R)).
  change (rs_dao_seqno_out (r_state updated)) with (rs_dao_seqno_out (r_state R)).
  fold sequence k_flag repeated changed.
  set (should_ack := k_flag &&
         (negb (rs_dao_pending (r_state R)) && (rs_dao_seqno_in (r_state R) =? sequence)
          || (d_rank D =? ROOT_RANK I))).
  replace (if k_flag
           then Some (negb (rs_dao_pending (r_state R)) &&
                      (rs_dao_seqno_in (r_state R) =? sequence)
                      || (d_rank D =? ROOT_RANK I))
           else Some false)
    with (Some should_ack) by (unfold should_ack; destruct k_flag; reflexivity).
  cbn [mbind option_bind].
  assert (Hstep : forall s1,
            instance_table s1 = instance_table st -> dag_table s1 = dag_table st ->
            dco_sequence s1 = dco_sequence st ->
            exists st',
              (st ← (if should_ack
                     then dao_ack_output i (srcipaddr pkt) sequence
                            RPL_DAO_ACK_UNCONDITIONAL_ACCEPT s1
                     else Some s1);
               if changed then dco_output i (o_prefix o) old (o_pathSequence o) st
               else Some st) = Some st' /\
              routes st' = routes s1 /\ dao_sequence st' = dao_sequence s1 /\
              trace st' = trace s1 ++ acked ++ (if changed then [dco] else []) /\
              dco_sequence st'
              = (if changed then uint8 (RPL_LOLLIPOP_INCREMENT (dco_sequence st))
                 else dco_sequence st) /\
              nbr_cache st' = nbr_cache s1).
  { intros s1 HsI HsD Hsq.
    unfold sequence. rewrite dao_fwd_ack by (rewrite HsI; exact instance_at).
    cbn [mbind option_bind]. fold sequence. fold acked.
    set (s2 := with_trace (fun t => t ++ acked) s1).
    destruct (dao_fwd_dco_state old s2) as (s3 & Hs3 & Hr3 & Hd3 & Ht3 & Hq3 & Hc3).
    { change (instance_table s2) with (instance_table s1). rewrite HsI. exact instance_at. }
    { change (dag_table s2) with (dag_table s1). rewrite HsD. exact dag_at. }
    exists s3. fold changed in Hs3, Ht3, Hq3. split; [exact Hs3|].
    change (dco_sequence s2) with (dco_sequence s1) in Ht3, Hq3. rewrite Hsq in Ht3, Hq3.
    rewrite Hr3, Hd3, Ht3, Hq3, Hc3. change (trace s2) with (trace s1 ++ acked).
    rewrite <- app_assoc. repeat split; reflexivity. }
  unfold forwarded, out_seq, upstream.
  destruct (d_preferred_parent D) as [pp|];
    [destruct (rpl_get_parent_ipaddr (Some pp)) as [pip|]|].
  - destruct repeated.
    + cbn [mbind option_bind].
      edestruct Hstep as (st' & Hst' & Hr' & Hd' & Ht' & Hq' & Hc');
        [| | |exists st'; split; [exact Hst'|]]; try reflexivity.
      rewrite Hr', Hd', Ht', Hq', Hc'.
      cbn. rewrite <- app_assoc. repeat split; reflexivity.
    + unfold prepare_for_dao_fwd. change (routes s0) with (<[r := updated]> rs).
      rewrite lookup_insert_eq. cbn [mbind option_bind].
      edestruct Hstep as (st' & Hst' & Hr' & Hd' & Ht' & Hq' & Hc');
        [| | |exists st'; split; [exact Hst'|]]; try reflexivity.
      rewrite Hr', Hd', Ht', Hq', Hc'.
      cbn. unfold fresh. rewrite insert_insert_eq, !uint8_idem, <- app_assoc.
      repeat split; reflexivity.
  - cbn [mbind option_bind].
    edestruct Hstep as (st' & Hst' & Hr' & Hd' & Ht' & Hq' & Hc');
      [| | |exists st'; split; [exact Hst'|]]; try reflexivity.
    rewrite Hr', Hd', Ht', Hq', Hc'.
    cbn. repeat split; reflexivity.
  - cbn [mbind option_bind].
    edestruct Hstep as (st' & Hst' & Hr' & Hd' & Ht' & Hq' & Hc');
      [| | |exists st'; split; [exact Hst'|]]; try reflexivity.
    rewrite Hr', Hd', Ht', Hq', Hc'.
    cbn. repeat split; reflexivity.
Qed.

End dao_route.

(** ** What the handlers leave alone *)

Section frames.
Context {cfg : rpl_conf} {env : rpl_ext}.

Ltac returned :=
  repeat match goal with
         | H : Some _ = Some _ |- _ => inversion H; subst; clear H
         | H : None = Some _ |- _ => discriminate H
         | H : (if ?b then _ else _) = Some _ |- _ => destruct b eqn:?
         | H : (match ?x with _ => _ end) = Some _ |- _ => destruct x eqn:?
         | H : (_ ≫= _) = Some _ |- _ => apply bind_Some in H as (? & ? & H)
         end.

(** What the DAO handlers leave alone: the instances, the DAGs, the
    parents, the addresses of the node and its path sequence. *)
Local Abbreviation same_topology s s' :=
  (instance_table s' = instance_table s /\ dag_table s' = dag_table s /\
   parent_table s' = parent_table s /\ addr_list s' = addr_list s /\
   path_sequence s' = path_sequence s).

Ltac topology :=
  repeat match goal with
         | H : _ /\ _ |- _ => destruct H
         end;
  cbn [instance_table dag_table addr_list path_sequence parent_table call with_trace
       with_routes with_nbr_cache with_dao_sequence with_dco_sequence with_mcast_group
       with_mcast_routes RPL_STAT_inc RPL_STAT_dec stat_add with_rpl_stats] in *;
  repeat split; congruence.

Lemma dao_ack_output_topology i dest sequence status s s' :
  dao_ack_output i dest sequence status s = Some s' -> same_topology s s'.
Proof. unfold dao_ack_output. intros H. returned; topology. Qed.

Lemma dco_output_topology i target dest ps s s' :
  dco_output i target dest ps s = Some s' -> same_topology s s'.
Proof. unfold dco_output. intros H. returned; topology. Qed.

Lemma prepare_for_dao_fwd_topology sequence rep s x s' :
  prepare_for_dao_fwd sequence rep s = Some (x, s') -> same_topology s s'.
Proof. unfold prepare_for_dao_fwd. intros H. returned. topology. Qed.

Lemma update_nbr_table_topology from s s' :
  rpl_icmp6_update_nbr_table from s = Some s' -> same_topology s s'.
Proof. unfold rpl_icmp6_update_nbr_table. intros H. returned; topology. Qed.

Ltac helpers_topology :=
  repeat match goal with
         | H : dao_ack_output _ _ _ _ _ = Some _ |- _ =>
             apply dao_ack_output_topology in H
         | H : dco_output _ _ _ _ _ = Some _ |- _ =>
             apply dco_output_topology in H
         | H : prepare_for_dao_fwd _ _ _ = Some _ |- _ =>
             apply prepare_for_dao_fwd_topology in H
         | H : rpl_icmp6_update_nbr_table _ _ = Some _ |- _ =>
             apply update_nbr_table_topology in H
         end.

Lemma dao_fwd_topology unicast i d rep flags sequence buffer bl sender cur o s s' :
  dao_fwd unicast i d rep flags sequence buffer bl sender cur o s = Some s' ->
  same_topology s s'.
Proof.
  unfold dao_fwd. intros H. returned; helpers_topology; topology.
Qed.

(** X13.  Whatever DAO arrives whose target options declare at most 128
    bits (so that the handler writes no octet behind [prefix]),
    [dao_input_storing] changes neither the
    instances nor the DAGs nor the addresses nor the path sequence of the
    node; the parents stay as they are except when a loop is detected, and
    then one parent is marked ([INFINITE_RANK], flag updated) and neither
    the routes nor the trace change. *)
Theorem dao_input_storing_keeps_topology pathSequence0 pkt st st' :
  dao_fits pkt = true ->
  dao_input_storing pathSequence0 pkt st = Some st' ->
  instance_table st' = instance_table st /\ dag_table st' = dag_table st /\
  addr_list st' = addr_list st /\ path_sequence st' = path_sequence st /\
  (parent_table st' = parent_table st \/
   exists pa P,
     parent_table st !! pa = Some P /\
     parent_table st' =
       <[pa := set_rank_flag INFINITE_RANK RPL_PARENT_FLAG_UPDATED P]> (parent_table st) /\
     routes st' = routes st /\ trace st' = trace st).
Proof.
  intros _. unfold dao_input_storing, dao_loop_detected. intros H. returned.
  all: repeat match goal with
              | H : dao_fwd _ _ _ _ _ _ _ _ _ _ _ _ = Some _ |- _ =>
                  apply dao_fwd_topology in H
              end; helpers_topology.
  all: repeat match goal with
              | H : _ /\ _ |- _ => destruct H
              end.
  all: repeat match goal with
              | |- context [match ?x with _ => _ end] => destruct x
              | H : context [match ?x with _ => _ end] |- _ => is_var x; destruct x
              end.
  all: cbn [instance_table dag_table addr_list path_sequence parent_table routes trace call
            with_trace with_parent_table
       with_routes with_nbr_cache with_dao_sequence with_dco_sequence with_mcast_group
       with_mcast_routes RPL_STAT_inc RPL_STAT_dec stat_add with_rpl_stats] in *.
  all: repeat (split; [congruence|]).
  all: try (left; congruence).
  all: right; do 2 eexists; split; [eassumption|]; repeat split; reflexivity.
Qed.

(** X14.  Whatever DCO arrives whose target options declare at most 128
    bits (so that the handler writes no octet behind [prefix]),
    [dco_input] adds no route and changes no route entry: it either leaves the route table as it is or deletes
    exactly one entry, one that had a next hop, and in that case the
    first thing it sends is the received DCO, unchanged, to that next
    hop.  The instances, DAGs, parents, the neighbour cache and the DAO
    and DCO sequence counters keep their values. *)
Theorem dco_input_removes_at_most_one_route o0 pkt st st' :
  dco_fits pkt = true ->
  dco_input o0 pkt st = Some st' ->
  instance_table st' = instance_table st /\ dag_table st' = dag_table st /\
  parent_table st' = parent_table st /\ nbr_cache st' = nbr_cache st /\
  dao_sequence st' = dao_sequence st /\ dco_sequence st' = dco_sequence st /\
  (routes st' = routes st \/
   exists r R nh,
     routes st !! r = Some R /\ r_nexthop R = Some nh /\
     routes st' = delete r (routes st) /\
     exists acks,
       trace st' = trace st ++
         uip_icmp6_send nh ICMP6_RPL RPL_CODE_DCO
           (payload_bytes (payload pkt) (uint16 (payload_len pkt))) :: acks).
Proof.
  intros _. unfold dco_input, dco_ack_output. intros H. returned.
  all: repeat match goal with
              | H : context [instance_table (RPL_STAT_inc _ _)] |- _ =>
                  cbn [instance_table routes RPL_STAT_inc stat_add with_rpl_stats] in H
              | H : context [routes (RPL_STAT_inc _ _)] |- _ =>
                  cbn [instance_table routes RPL_STAT_inc stat_add with_rpl_stats] in H
              end.
  all: repeat match goal with
              | |- context [match r_nexthop ?R with _ => _ end] =>
                  destruct (r_nexthop R) eqn:?
              | |- context [if lollipop_greater_than ?a ?b then _ else _] =>
                  destruct (lollipop_greater_than a b) eqn:?
              end.
  all: cbn [instance_table dag_table parent_table nbr_cache dao_sequence dco_sequence
            routes trace call with_trace with_routes RPL_STAT_inc stat_add with_rpl_stats].
  all: repeat (split; [reflexivity|]).
  all: try (left; reflexivity).
  all: right; do 3 eexists; split; [eassumption|]; split; [eassumption|];
       split; [reflexivity|]; eexists; rewrite <- ?app_assoc; reflexivity.
Qed.

End frames.

(** ** A DCO from hop to hop *)

Section dco_propagation.
Context {cfg : rpl_conf} {env : rpl_ext}.

Lemma dao_payload_length J dag_id flags seq_no target transit_len pathseq lifetime :
  length (dao_payload J dag_id flags seq_no target transit_len pathseq lifetime)
  = if RPL_DAO_SPECIFY_DAG then 46%nat else 30%nat.
Proof.
  unfold dao_payload, put, put_bytes, rd_bytes.
  change (Z.to_nat ((uint8 (16 * CHAR_BIT) + 7) ÷ CHAR_BIT)) with 16%nat.
  destruct RPL_DAO_SPECIFY_DAG; repeat rewrite ?length_app, ?length_map, ?length_seq;
    reflexivity.
Qed.

(** X15.  A DCO travels unchanged.  The DCO that [dco_output] lays out
    at one node (fields within their C types) for a target and a path
    sequence, when it arrives at a node that knows the instance (and the
    DAG, if the build names it), has a route to the target with a next
    hop, and stored an older path sequence for it (lollipop order), is
    always taken as a route invalidation, since [dco_output] writes the
    path lifetime 0: [dco_input] sends the very octets it received on to
    the next hop and deletes the route; a DCO-ACK with status 0 and the
    sender's DCO sequence number follows iff the build has DCO-ACKs. *)
Theorem dco_travels_unchanged stA iA IA dag_id target dest pathseq o0 pkt st i I r R nh
    stale :
  RPL_WITH_DCO && RPL_WITH_STORING = true ->
  instance_table stA !! iA = Some IA ->
  (if RPL_DAO_SPECIFY_DAG
   then exists dA DA d D,
          i_current_dag IA = Some dA /\ dag_table stA !! dA = Some DA /\
          i_current_dag I = Some d /\ dag_table st !! d = Some D /\
          d_dag_id DA = dag_id /\ d_dag_id D = dag_id /\ ipaddr dag_id
   else dag_id = []) ->
  byte (i_instance_id IA) -> byte (dco_sequence stA) -> ipaddr target -> byte pathseq ->
  let flags := if RPL_DAO_SPECIFY_DAG then uint8 (Z.lor 0 RPL_DAO_D_FLAG) else 0 in
  let flags := if RPL_WITH_DCO_ACK then uint8 (Z.lor flags RPL_DAO_K_FLAG) else flags in
  let octets := dao_payload IA dag_id flags (dco_sequence stA) target 4 pathseq 0 in
  payload pkt = octets ++ stale -> payload_len pkt = Z.of_nat (length octets) ->
  rpl_get_instance (instance_table st) (i_instance_id IA) = Some i ->
  instance_table st !! i = Some I ->
  uip_ds6_route_lookup (routes st) target = Some r ->
  routes st !! r = Some R -> r_nexthop R = Some nh ->
  lollipop_greater_than pathseq (rs_dao_path_sequence (r_state R)) = true ->
  trace <$> dco_output iA target dest pathseq stA
  = Some (trace stA ++ [uip_icmp6_send dest ICMP6_RPL RPL_CODE_DCO octets]) /\
  exists st',
    dco_input o0 pkt st = Some st' /\
    routes st' = delete r (routes st) /\
    trace st' = trace st ++
      [uip_icmp6_send nh ICMP6_RPL RPL_CODE_DCO octets] ++
      (if RPL_WITH_DCO_ACK
       then [uip_icmp6_send (srcipaddr pkt) ICMP6_RPL RPL_CODE_DCO_ACK
               [uint8 (i_instance_id I); 0; dco_sequence stA; 0]]
       else []).
Proof.
  intros Hdco HIA Hdag Hid Hseq Htarget Hps flags0 flags octets Hp Hplen Hi HI Hr HR Hnh
         Hnewer.
  destruct (dao_flags_built RPL_WITH_DCO_ACK) as (Hfb & HfD & HfK).
  assert (Hflags : (if RPL_WITH_DCO_ACK
                    then uint8 (Z.lor (if RPL_DAO_SPECIFY_DAG
                                       then uint8 (Z.lor 0 RPL_DAO_D_FLAG) else 0)
                                  RPL_DAO_K_FLAG)
                    else if RPL_DAO_SPECIFY_DAG then uint8 (Z.lor 0 RPL_DAO_D_FLAG) else 0)
                   = flags) by reflexivity.
  rewrite Hflags in Hfb, HfD, HfK. clear Hflags.
  split.
  - unfold dco_output. rewrite Hdco, HIA. cbn [mbind option_bind].
    fold flags0. fold flags.
    destruct RPL_DAO_SPECIFY_DAG.
    + destruct Hdag as (dA & DA & _ & _ & HdA & HDA & _ & _ & HidA & _).
      rewrite HdA. cbn [mbind option_bind dag_table with_dco_sequence].
      rewrite HDA. cbn [mbind option_bind]. rewrite HidA. reflexivity.
    + unfold octets. rewrite Hdag. reflexivity.
  - assert (Hdagid' : RPL_DAO_SPECIFY_DAG = true -> ipaddr dag_id).
    { intros Hs. rewrite Hs in Hdag.
      destruct Hdag as (dA & DA & _ & _ & _ & _ & _ & _ & _ & _ & Hok). exact Hok. }
    destruct (dao_payload_parse IA dag_id flags (dco_sequence stA) target pathseq 0 o0
                stale Hid Hfb Hseq Htarget Hps ltac:(unfold byte; lia) Hdagid')
      as (H0 & H1 & H3 & H4 & _ & Hopts).
    fold octets in H0, H1, H3, H4, Hopts.
    rewrite <- Hp in H0, H1, H3, H4, Hopts. rewrite <- Hplen in Hopts.
    pose proof (dao_payload_length IA dag_id flags (dco_sequence stA) target 4 pathseq 0)
      as Hlen.
    fold octets in Hlen.
    assert (Hbytes : payload_bytes (payload pkt) (uint16 (payload_len pkt)) = octets).
    { rewrite Hplen, Hp. unfold payload_bytes.
      unfold uint16. rewrite Z.mod_small
        by (rewrite Hlen; destruct RPL_DAO_SPECIFY_DAG; lia).
      rewrite Nat2Z.id. apply take_app_length. }
    rewrite (dco_input_options o0 pkt st i I
               {| o_prefixlen := 128; o_prefix := target; o_lifetime := 0;
                  o_pathSequence := pathseq; o_parent_addr := o_parent_addr o0 |}
               Hdco).
    + cbv zeta. cbn [o_prefix o_lifetime o_pathSequence]. rewrite Hr, HR.
      cbn [mbind option_bind Z.eqb]. rewrite Hnh, Hnewer, H1, HfK, H3, Hbytes.
      unfold dco_ack_output. rewrite Hdco.
      destruct RPL_WITH_DCO_ACK.
      * cbn [instance_table with_routes RPL_STAT_inc stat_add with_rpl_stats call
             with_trace].
        rewrite HI. cbn [mbind option_bind]. eexists. split; [reflexivity|].
        cbn. rewrite <- app_assoc, (uint8_small (dco_sequence stA)) by exact Hseq.
        split; reflexivity.
      * eexists. split; [reflexivity|]. cbn. split; reflexivity.
    + rewrite H0. exact Hi.
    + exact HI.
    + rewrite H1, HfD. intros Hs. rewrite Hs in Hdag.
      destruct Hdag as (dA & DA & d & D & _ & _ & Hd & HD & _ & Heq & Hok).
      exists d, D. split; [exact Hd|]. split; [exact HD|].
      rewrite (H4 Hs), Heq. apply rd_bytes_16. exact (proj1 Hok).
    + rewrite H1, HfD. destruct RPL_DAO_SPECIFY_DAG; exact Hopts.
Qed.
End dco_propagation.

(** ** DIS *)

Section dis.
Context {cfg : rpl_conf} {env : rpl_ext} {tbl : rpl_tables}.

Lemma with_trace_nil s : with_trace (fun t => t ++ []) s = s.
Proof. unfold with_trace. rewrite app_nil_r. destruct s; reflexivity. Qed.

Lemma with_trace_app a b s :
  with_trace (fun t => t ++ b) (with_trace (fun t => t ++ a) s)
  = with_trace (fun t => t ++ a ++ b) s.
Proof. unfold with_trace. cbn. rewrite app_assoc. reflexivity. Qed.

(** X16.  A DIS sent to a multicast address is not answered.
    [dis_input] calls [rpl_reset_dio_timer] once for each used slot of the
    instance table, in the order of the slots, and does nothing else; a
    leaf does not even that. *)
Theorem multicast_dis_resets_dio_timers pkt st :
  uip_is_addr_mcast (destipaddr pkt) = true ->
  let used i := match instance_table st !! i with
                | Some instance => i_used instance =? 1
                | None => false
                end in
  dis_input pkt st =
  Some (if RPL_LEAF_ONLY then st
        else with_trace
               (fun t => t ++ map rpl_reset_dio_timer
                                  (List.filter used (seq 0 RPL_MAX_INSTANCES))) st).
Proof.
  intros Hm used. unfold dis_input.
  assert (Hgen : forall slots done,
    dis_input_from pkt slots
      (if RPL_LEAF_ONLY then st
       else with_trace (fun t => t ++ map rpl_reset_dio_timer done) st)
    = Some (if RPL_LEAF_ONLY then st
            else with_trace
                   (fun t => t ++ map rpl_reset_dio_timer
                                      (done ++ List.filter used slots)) st)).
  { induction slots as [|i slots IH]; intros done.
    - cbn. rewrite app_nil_r. reflexivity.
    - cbn [dis_input_from List.filter]. unfold dis_input_instance.
      replace (instance_table (if RPL_LEAF_ONLY then st
                 else with_trace (fun t => t ++ map rpl_reset_dio_timer done) st))
        with (instance_table st) by (destruct RPL_LEAF_ONLY; reflexivity).
      unfold used at 1.
      destruct (instance_table st !! i) as [instance|].
      + destruct (i_used instance =? 1).
        * rewrite Hm. cbn [mbind option_bind].
          specialize (IH (done ++ [i])).
          rewrite <- app_assoc in IH. cbn [app] in IH. rewrite <- IH.
          destruct RPL_LEAF_ONLY; [reflexivity|].
          unfold call. rewrite with_trace_app, map_app. reflexivity.
        * cbn [mbind option_bind]. apply IH.
      + cbn [mbind option_bind]. apply IH. }
  specialize (Hgen (seq 0 RPL_MAX_INSTANCES) []). cbn [map app] in Hgen.
  rewrite <- Hgen. destruct RPL_LEAF_ONLY; [reflexivity|].
  rewrite with_trace_nil. reflexivity.
Qed.

(** X17.  A unicast DIS from a sender that is not in the neighbour cache
    and cannot be added to it is not answered either: [dis_input] sends
    no DIO and leaves the node as it is, however many instances are in
    use. *)
Theorem unicast_dis_without_neighbour_entry pkt st :
  uip_is_addr_mcast (destipaddr pkt) = false ->
  uip_ds6_nbr_lookup (nbr_cache st) (srcipaddr pkt) = false ->
  uip_ds6_nbr_add (nbr_cache st) (srcipaddr pkt) = None ->
  dis_input pkt st = Some st.
Proof.
  intros Hm Hl Ha. unfold dis_input.
  induction (seq 0 RPL_MAX_INSTANCES) as [|i slots IH]; [reflexivity|].
  cbn [dis_input_from]. unfold dis_input_instance, rpl_icmp6_update_nbr_table.
  rewrite Hm, Hl, Ha. cbn [mbind option_bind].
  destruct (instance_table st !! i) as [instance|]; [destruct (i_used instance =? 1)|];
    cbn [mbind option_bind]; exact IH.
Qed.
(** X18.  A unicast DIS is answered with a unicast DIO.  In a build with
    one instance slot, for a used instance that has its DAG set and
    announces no metric container, and a sender that is in the neighbour
    cache or can be added to it: [dis_input] sends exactly one message,
    the DIO of the instance, to the sender of the DIS, and counts it in
    [dio_sent_u] unless the node is a leaf.  The DIO carries the DTSN as
    it is: nothing but the neighbour cache, the counter and the trace
    changes, so the DTSN is not incremented.  The payload of the DIS is
    not looked at. *)
Theorem unicast_dis_answered pkt st I d D c :
  RPL_MAX_INSTANCES = 1%nat ->
  instance_table st !! 0%nat = Some I -> i_used I = 1 ->
  uip_is_addr_mcast (destipaddr pkt) = false ->
  (if uip_ds6_nbr_lookup (nbr_cache st) (srcipaddr pkt) then Some (nbr_cache st)
   else uip_ds6_nbr_add (nbr_cache st) (srcipaddr pkt)) = Some c ->
  i_current_dag I = Some d -> dag_table st !! d = Some D ->
  mc_type (i_mc I) = RPL_DAG_MC_NONE ->
  exists buffer,
    dio_payload I D I D = Some buffer /\
    dis_input pkt st =
      Some ((if RPL_LEAF_ONLY then id else RPL_STAT_inc dio_sent_u)
              (call (uip_icmp6_send (srcipaddr pkt) ICMP6_RPL RPL_CODE_DIO buffer)
                 (with_nbr_cache c st))) /\
    rd buffer 0 = uint8 (i_instance_id I) /\
    rd buffer 5 = uint8 (i_dtsn_out I).
Proof.
  intros Hmax HI Hused Hm Hnbr Hd HD Hmc.
  assert (Hn : rpl_icmp6_update_nbr_table (srcipaddr pkt) st = Some (with_nbr_cache c st)).
  { revert Hnbr. unfold rpl_icmp6_update_nbr_table.
    destruct (uip_ds6_nbr_lookup (nbr_cache st) (srcipaddr pkt)).
    - intros [= <-]. destruct st; reflexivity.
    - intros ->. reflexivity. }
  assert (Hp : exists buffer, dio_payload I D I D = Some buffer /\
                 rd buffer 0 = uint8 (i_instance_id I) /\
                 rd buffer 5 = uint8 (i_dtsn_out I)).
  { unfold dio_payload. rewrite Hmc, Z.eqb_refl, andb_false_r.
    cbn [mbind option_bind]. unfold put, set16, put_bytes. cbn [app].
    destruct (pfx_length (d_prefix_info D) >? 0);
      (eexists; split; [reflexivity|]); split; reflexivity. }
  destruct Hp as (buffer & Hbuf & H0 & H5).
  exists buffer. split; [exact Hbuf|]. split; [|split; assumption].
  unfold dis_input. rewrite Hmax. cbn [seq dis_input_from].
  unfold dis_input_instance. rewrite HI, Hused, Hm, Hn. cbn [Z.eqb Pos.eqb].
  unfold dio_output. cbn [instance_table dag_table with_nbr_cache].
  rewrite HI. cbn [mbind option_bind].
  rewrite andb_false_r, Hd. cbn [mbind option_bind]. rewrite HD.
  cbn [mbind option_bind].
  rewrite (bool_decide_eq_false_2 (Some (srcipaddr pkt) = None)) by discriminate.
  rewrite andb_false_r, Hmc, Z.eqb_refl, andb_false_r.
  cbn [mbind option_bind instance_table dag_table with_nbr_cache].
  rewrite HI. cbn [mbind option_bind]. rewrite HD. cbn [mbind option_bind].
  rewrite Hbuf. destruct RPL_LEAF_ONLY; reflexivity.
Qed.

End dis.

(** ** DAO-ACK *)

Section dao_ack.
Context {cfg : rpl_conf} {env : rpl_ext} {tbl : rpl_tables}.

(** X19.  The DAO-ACK round trip.  The four octets that
    [dao_ack_output] sends for an instance, a sequence number and a
    status are read by [dao_ack_input] as that instance id, sequence
    number and status (each reduced to an octet).  At a node that knows
    the instance, whose last own DAO had that sequence number and for
    which, in storing mode, the sender is a parent of the current DAG,
    the handler stops the retransmission timer, sets [has_downward_route]
    to 1 if the status is below 128 and to 0 otherwise, informs the
    objective function (storing mode, callback provided) and starts a
    local repair only in a build with [RPL_REPAIR_ON_DAO_NACK] and for a
    status of [RPL_DAO_ACK_UNABLE_TO_ACCEPT] or more.  No route changes
    and nothing is sent. *)
Theorem dao_ack_round_trip stA iA IA dest sequence status pkt st i I parent stale :
  RPL_WITH_DAO_ACK = true ->
  instance_table stA !! iA = Some IA ->
  let octets := [uint8 (i_instance_id IA); 0; uint8 sequence; uint8 status] in
  payload pkt = octets ++ stale ->
  rpl_get_instance (instance_table st) (uint8 (i_instance_id IA)) = Some i ->
  instance_table st !! i = Some I ->
  (if RPL_IS_STORING I
   then rpl_find_parent (parent_table st) (i_current_dag I) (srcipaddr pkt)
   else NULL) = parent ->
  (RPL_IS_STORING I = true -> parent <> NULL) ->
  i_my_dao_seqno I = uint8 sequence ->
  dao_ack_output iA dest sequence status stA
  = Some (call (uip_icmp6_send dest ICMP6_RPL RPL_CODE_DAO_ACK octets) stA) /\
  dao_ack_input pkt st =
  Some (true,
        with_trace
          (fun t => t ++
             (if RPL_IS_STORING I && of_dao_ack_callback (i_of I)
              then [dao_ack_callback parent (uint8 status)] else []) ++
             (if RPL_REPAIR_ON_DAO_NACK &&
                 (uint8 status >=? RPL_DAO_ACK_UNABLE_TO_ACCEPT)
              then [rpl_local_repair i] else []))
          (with_instance_table
             <[i := set_i_has_downward_route
                      (if uint8 status <? 128 then 1 else 0) I]> st)).
Proof.
  intros Hack HIA octets Hp Hi HI Hparent Hfrom Hseq. split.
  - unfold dao_ack_output. rewrite Hack, HIA. reflexivity.
  - unfold dao_ack_input. rewrite Hack, Hp.
    change (rd (octets ++ stale) 0) with (uint8 (i_instance_id IA)).
    change (rd (octets ++ stale) 2) with (uint8 sequence).
    change (rd (octets ++ stale) 3) with (uint8 status).
    rewrite Hi, HI. cbn [mbind option_bind]. rewrite Hparent, Hseq, Z.eqb_refl.
    assert (Hp' : RPL_IS_STORING I && bool_decide (parent = NULL) = false).
    { destruct (RPL_IS_STORING I); [|reflexivity].
      rewrite bool_decide_eq_false_2 by (apply Hfrom; reflexivity). reflexivity. }
    rewrite Hp'.
    destruct (RPL_IS_STORING I && of_dao_ack_callback (i_of I)),
             (RPL_REPAIR_ON_DAO_NACK && (uint8 status >=? RPL_DAO_ACK_UNABLE_TO_ACCEPT));
      cbn [app]; unfold call; rewrite ?with_trace_app, ?with_trace_nil; reflexivity.
Qed.

(** The walk over the route table stops at the first pending entry with
    the sequence number. *)
Lemma find_route_entry_by_dao_ack_from_app before rep after seq st0 R :
  Forall (fun r => exists R', routes st0 !! r = Some R' /\
            (rs_dao_seqno_out (r_state R') =? seq) && rs_dao_pending (r_state R') = false)
         before ->
  routes st0 !! rep = Some R ->
  rs_dao_seqno_out (r_state R) = seq -> rs_dao_pending (r_state R) = true ->
  find_route_entry_by_dao_ack_from (before ++ rep :: after) seq st0 = Some (Some rep).
Proof.
  intros Hb HR Hs Hp. induction Hb as [|r before (R' & HR' & Hno) _ IH].
  - cbn. rewrite HR. cbn. rewrite Hs, Z.eqb_refl, Hp. reflexivity.
  - cbn. rewrite HR'. cbn. rewrite Hno. exact IH.
Qed.

(** X20.  The DAO-ACK for a forwarded DAO goes back to the child.  After
    [prepare_for_dao_fwd] recorded, in the route entry [rep], the
    sequence number of a child's DAO and the number [ds] under which the
    DAO was passed on: when a DAO-ACK with the number [ds] arrives from a
    parent at the storing node, [ds] is not the number of the node's own
    last DAO, and no entry before [rep] in the walk over the route table
    is pending with [ds], then [dao_ack_input] clears the pending mark of
    the entry and sends the first four octets of the DAO-ACK to the next
    hop of the route with octet 2 replaced by the child's sequence number;
    the status travels unchanged.  For a status of
    [RPL_DAO_ACK_UNABLE_TO_ACCEPT] or more the route is removed after
    that.  The retransmission timer is not stopped. *)
Theorem dao_ack_returns_to_the_child st0 rep R child sequence pkt st i I before after :
  RPL_WITH_DAO_ACK = true ->
  routes st0 !! rep = Some R -> r_nexthop R = Some child ->
  let ds := uint8 (RPL_LOLLIPOP_INCREMENT (dao_sequence st0)) in
  prepare_for_dao_fwd sequence rep st0 = Some (ds, st) ->
  rpl_get_instance (instance_table st) (rd (payload pkt) 0) = Some i ->
  instance_table st !! i = Some I ->
  RPL_IS_STORING I = true ->
  rpl_find_parent (parent_table st) (i_current_dag I) (srcipaddr pkt) <> NULL ->
  rd (payload pkt) 2 = ds -> i_my_dao_seqno I <> ds ->
  uip_ds6_route_list (routes st) = before ++ rep :: after ->
  Forall (fun r => exists R', routes st !! r = Some R' /\
            (rs_dao_seqno_out (r_state R') =? ds) && rs_dao_pending (r_state R') = false)
         before ->
  (4 <= length (payload pkt))%nat ->
  let status := rd (payload pkt) 3 in
  let answered :=
    {| r_ipaddr := r_ipaddr R; r_length := r_length R; r_nexthop := r_nexthop R;
       r_state := {| rs_lifetime := rs_lifetime (r_state R);
                     rs_dao_seqno_in := uint8 sequence;
                     rs_dao_seqno_out := ds;
                     rs_dao_path_sequence := rs_dao_path_sequence (r_state R);
                     rs_dao_pending := false;
                     rs_nopath_received := rs_nopath_received (r_state R) |} |} in
  exists st',
    dao_ack_input pkt st = Some (false, st') /\
    trace st' = trace st0 ++
      [uip_icmp6_send child ICMP6_RPL RPL_CODE_DAO_ACK
         [rd (payload pkt) 0; rd (payload pkt) 1; uint8 sequence; status]] /\
    routes st' = (if status >=? RPL_DAO_ACK_UNABLE_TO_ACCEPT
                  then delete rep (routes st0)
                  else <[rep := answered]> (routes st0)) /\
    instance_table st' = instance_table st0.
Proof.
  intros Hack HR Hnh ds Hprep Hi HI Hstoring Hparent Hseq Hmine Hlist Hbefore Hlen
         status answered.
  unfold prepare_for_dao_fwd in Hprep. rewrite HR in Hprep.
  cbn [mbind option_bind] in Hprep. injection Hprep as Hst. fold ds in Hst.
  set (pending := set_state (set_dao_fwd (uint8 sequence) ds (r_state R)) R) in *.
  assert (Hroutes : routes st = <[rep := pending]> (routes st0))
    by (rewrite <- Hst; reflexivity).
  assert (Hfind : find_route_entry_by_dao_ack ds st = Some (Some rep)).
  { unfold find_route_entry_by_dao_ack. rewrite Hlist.
    eapply find_route_entry_by_dao_ack_from_app;
      [exact Hbefore|rewrite Hroutes; apply lookup_insert_eq|reflexivity|reflexivity]. }
  unfold dao_ack_input. rewrite Hack, Hi, HI. cbn [mbind option_bind].
  rewrite Hstoring. cbn [andb].
  rewrite bool_decide_eq_false_2 by exact Hparent.
  rewrite Hseq.
  replace (ds =? i_my_dao_seqno I) with false by (symmetry; apply Z.eqb_neq; congruence).
  rewrite Hfind. cbn [mbind option_bind].
  rewrite Hroutes, lookup_insert_eq. cbn [mbind option_bind].
  change (r_nexthop pending) with (r_nexthop R). rewrite Hnh.
  assert (Hoctets : payload_bytes
            (<[2%nat := uint8 (rs_dao_seqno_in (r_state pending))]> (payload pkt)) 4
          = [rd (payload pkt) 0; rd (payload pkt) 1; uint8 sequence; rd (payload pkt) 3]).
  { change (rs_dao_seqno_in (r_state pending)) with (uint8 sequence).
    rewrite uint8_idem. unfold payload_bytes.
    destruct (payload pkt) as [|b0 [|b1 [|b2 [|b3 rest]]]]; cbn in Hlen; try lia.
    reflexivity. }
  rewrite Hoctets. eexists. split; [reflexivity|].
  fold status. destruct (status >=? RPL_DAO_ACK_UNABLE_TO_ACCEPT).
  - cbn. rewrite Hroutes, insert_insert_eq, delete_insert_eq, <- Hst.
    repeat split; reflexivity.
  - cbn. rewrite Hroutes, insert_insert_eq, <- Hst. repeat split; reflexivity.
Qed.

(** X21.  DAO-ACKs that [dao_ack_input] ignores, leaving the node and the
    retransmission timer as they are: every DAO-ACK in a build without
    DAO-ACKs; one that names an unknown instance; in storing mode one
    whose sender is not a parent of the current DAG; and one whose
    sequence number is not that of the node's last DAO when the instance
    is not storing or no route entry is pending with that number. *)
Theorem dao_ack_ignored pkt st :
  RPL_WITH_DAO_ACK = false \/
  rpl_get_instance (instance_table st) (rd (payload pkt) 0) = NULL \/
  (exists i I,
     rpl_get_instance (instance_table st) (rd (payload pkt) 0) = Some i /\
     instance_table st !! i = Some I /\
     ((RPL_IS_STORING I = true /\
       rpl_find_parent (parent_table st) (i_current_dag I) (srcipaddr pkt) = NULL) \/
      (rd (payload pkt) 2 <> i_my_dao_seqno I /\
       (RPL_IS_STORING I = false \/
        find_route_entry_by_dao_ack (rd (payload pkt) 2) st = Some NULL)))) ->
  dao_ack_input pkt st = Some (false, st).
Proof.
  unfold dao_ack_input. intros [Hoff | [Hnone | (i & I & Hi & HI & Hcase)]].
  - rewrite Hoff. reflexivity.
  - destruct RPL_WITH_DAO_ACK; [|reflexivity]. rewrite Hnone. reflexivity.
  - destruct RPL_WITH_DAO_ACK; [|reflexivity]. rewrite Hi, HI. cbn [mbind option_bind].
    destruct Hcase as [[Hs Hp] | [Hseq Hcase]].
    + rewrite Hs, Hp. reflexivity.
    + replace (rd (payload pkt) 2 =? i_my_dao_seqno I) with false
        by (symmetry; apply Z.eqb_neq; exact Hseq).
      destruct (RPL_IS_STORING I); [|reflexivity]. cbn [andb].
      destruct (bool_decide _); [reflexivity|].
      destruct Hcase as [Hs | Hnf]; [discriminate Hs|].
      rewrite Hnf. reflexivity.
Qed.

End dao_ack.

(** ** A DAO at the root of a non-storing network *)

Section nonstoring.
Context {cfg : rpl_conf} {env : rpl_ext}.

(** X22.  A non-storing DAO at the root.  The octets that
    [dao_output_target_seq] lays out for a non-storing instance (base,
    target option, and a transit option of twenty octets that ends in the
    first eight octets of the DAG id followed by the last eight octets of
    the parent's address), read by [dao_input_nonstoring] at a node that
    knows the instance (and whose DAG has that id, if the DAO names it):
    the handler registers the target below the parent address made of
    these sixteen octets, with [rpl_ns_update_node] and the lifetime
    [RPL_LIFETIME] of the path lifetime, or expires that link with
    [rpl_ns_expire_parent] when the path lifetime is 0.  A DAO-ACK that
    accepts the DAO follows iff K is set; when [rpl_ns_update_node]
    fails, the handler returns without any DAO-ACK. *)
Theorem nonstoring_dao_registers_the_link IA dag_id flags seq_no target pathseq lifetime
    parent_ipaddr prefix0 pkt st i I stale :
  RPL_WITH_NON_STORING = true ->
  byte (i_instance_id IA) -> byte flags -> byte seq_no -> ipaddr target ->
  byte pathseq -> byte lifetime -> ipaddr dag_id -> ipaddr parent_ipaddr ->
  truthy (Z.land flags RPL_DAO_D_FLAG) = RPL_DAO_SPECIFY_DAG ->
  let octets :=
    put_bytes
      (put_bytes (dao_payload IA dag_id flags seq_no target 20 pathseq lifetime)
         dag_id 8)
      (drop 8 parent_ipaddr) 8 in
  payload pkt = octets ++ stale -> payload_len pkt = Z.of_nat (length octets) ->
  rpl_get_instance (instance_table st) (i_instance_id IA) = Some i ->
  instance_table st !! i = Some I ->
  (RPL_DAO_SPECIFY_DAG = true ->
   exists d D, i_current_dag I = Some d /\ dag_table st !! d = Some D /\
               d_dag_id D = dag_id) ->
  let parent := take 8 dag_id ++ drop 8 parent_ipaddr in
  dao_input_nonstoring prefix0 pkt st =
  match
    (if lifetime =? RPL_ZERO_LIFETIME
     then Some (call (rpl_ns_expire_parent (i_current_dag I) target parent) st)
     else rpl_ns_update_node st (i_current_dag I) target parent (RPL_LIFETIME I lifetime))
  with
  | None => Some st
  | Some st' =>
      if truthy (Z.land flags RPL_DAO_K_FLAG)
      then dao_ack_output i (srcipaddr pkt) seq_no RPL_DAO_ACK_UNCONDITIONAL_ACCEPT st'
      else Some st'
  end.
Proof.
  intros Hns Hid Hfl Hsq Ht Hps Hlt Hdag Hpar HfD octets Hp Hplen Hi HI Hsame parent.
  destruct (dao_payload_parse_ns IA dag_id flags seq_no target pathseq lifetime
              parent_ipaddr
              {| o_prefixlen := 0; o_prefix := prefix0;
                 o_lifetime := i_default_lifetime I; o_pathSequence := 0;
                 o_parent_addr := repeat 0 16 |} stale
              Hid Hfl Hsq Ht Hps Hlt Hdag Hpar)
    as (H0 & H1 & H3 & H4 & Hopts).
  fold octets in H0, H1, H3, H4, Hopts.
  rewrite <- Hp in H0, H1, H3, H4, Hopts. rewrite <- Hplen in Hopts.
  unfold dao_input_nonstoring. rewrite Hns, H0, Hi, H1, H3, HfD.
  cbn [mbind option_bind]. rewrite HI. cbn [mbind option_bind].
  destruct RPL_DAO_SPECIFY_DAG eqn:Hspec.
  - destruct (Hsame eq_refl) as (d & D & Hd & HD & Hid').
    rewrite Hd. cbn [mbind option_bind]. rewrite HD. cbn [mbind option_bind].
    rewrite (H4 eq_refl), Hid'.
    rewrite bool_decide_eq_true_2 by (apply rd_bytes_16; exact (proj1 Hdag)).
    cbn [negb]. rewrite Hopts. cbn [mbind option_bind o_lifetime o_prefix o_parent_addr].
    rewrite <- Hd. reflexivity.
  - cbn [mbind option_bind]. rewrite Hopts.
    cbn [mbind option_bind o_lifetime o_prefix o_parent_addr]. reflexivity.
Qed.
End nonstoring.

(** ** The DTSN of the root *)

Section dio_dtsn.
Context {cfg : rpl_conf} {env : rpl_ext}.

(** A multicast DIO of an instance that announces no metric container. *)
Lemma multicast_dio_state i J d D s :
  RPL_LEAF_ONLY = false ->
  instance_table s !! i = Some J -> i_current_dag J = Some d ->
  dag_table s !! d = Some D -> mc_type (i_mc J) = RPL_DAG_MC_NONE ->
  let refresh := RPL_DIO_REFRESH_DAO_ROUTES && (d_rank D =? ROOT_RANK J) in
  let s' := if refresh
            then with_instance_table
                   <[i := set_i_dtsn_out (uint8 (RPL_LOLLIPOP_INCREMENT (i_dtsn_out J))) J]> s
            else s in
  exists buffer,
    dio_output i None s =
      Some (RPL_STAT_inc dio_sent_m
              (call (uip_icmp6_send linklocal_rplnodes_mcast ICMP6_RPL RPL_CODE_DIO buffer)
                 s')) /\
    rd buffer 5 = uint8 (i_dtsn_out J).
Proof.
  intros Hleaf HJ Hd HD Hmc refresh s'.
  assert (Hp : forall J', mc_type (i_mc J) = RPL_DAG_MC_NONE ->
                 exists buffer, dio_payload J D J' D = Some buffer /\
                                rd buffer 5 = uint8 (i_dtsn_out J)).
  { intros J' _. unfold dio_payload. rewrite Hmc, Z.eqb_refl, andb_false_r.
    cbn [mbind option_bind]. unfold put, set16, put_bytes. cbn [app].
    destruct (pfx_length (d_prefix_info D) >? 0);
      (eexists; split; [reflexivity|]); reflexivity. }
  unfold dio_output. rewrite HJ. cbn [mbind option_bind].
  rewrite Hleaf, Hd. cbn [andb mbind option_bind]. rewrite HD. cbn [mbind option_bind].
  rewrite (bool_decide_eq_true_2 (@None uip_ipaddr_t = None)) by reflexivity.
  rewrite andb_true_r, Hmc, Z.eqb_refl. cbn [negb andb mbind option_bind].
  fold refresh. unfold s'. destruct refresh.
  - cbn [instance_table dag_table with_instance_table]. rewrite lookup_insert_eq, HD.
    cbn [mbind option_bind].
    destruct (Hp (set_i_dtsn_out (uint8 (RPL_LOLLIPOP_INCREMENT (i_dtsn_out J))) J) Hmc)
      as (buffer & -> & H5).
    exists buffer. split; [reflexivity|exact H5].
  - rewrite HJ, HD. cbn [mbind option_bind].
    destruct (Hp J Hmc) as (buffer & -> & H5).
    exists buffer. split; [reflexivity|exact H5].
Qed.

(** X23.  The DTSN in the DIOs of a root.  In a build that refreshes DAO
    routes and is not leaf-only, for a root whose instance announces no
    metric container: [dio_output] without a destination multicasts a DIO
    that carries the DTSN as it was, and only then advances the DTSN of
    the instance (lollipop); so of two DIOs multicast in a row the second
    carries the increment of the DTSN of the first.  ([ROOT_RANK] is taken
    not to depend on the DTSN.) *)
Theorem root_dio_announces_the_next_dtsn i I d D st :
  RPL_LEAF_ONLY = false -> RPL_DIO_REFRESH_DAO_ROUTES = true ->
  instance_table st !! i = Some I -> i_current_dag I = Some d ->
  dag_table st !! d = Some D -> mc_type (i_mc I) = RPL_DAG_MC_NONE ->
  d_rank D = ROOT_RANK I ->
  (forall v, ROOT_RANK (set_i_dtsn_out v I) = ROOT_RANK I) ->
  let next := uint8 (RPL_LOLLIPOP_INCREMENT (i_dtsn_out I)) in
  exists st1 st2 first second,
    dio_output i None st = Some st1 /\
    dio_output i None st1 = Some st2 /\
    trace st1 = trace st ++
      [uip_icmp6_send linklocal_rplnodes_mcast ICMP6_RPL RPL_CODE_DIO first] /\
    trace st2 = trace st1 ++
      [uip_icmp6_send linklocal_rplnodes_mcast ICMP6_RPL RPL_CODE_DIO second] /\
    rd first 5 = uint8 (i_dtsn_out I) /\
    rd second 5 = next /\
    (i_dtsn_out <$> instance_table st1 !! i) = Some next /\
    (i_dtsn_out <$> instance_table st2 !! i)
    = Some (uint8 (RPL_LOLLIPOP_INCREMENT next)).
Proof.
  intros Hleaf Hrefresh HI Hd HD Hmc Hroot Hrank next.
  destruct (multicast_dio_state i I d D st Hleaf HI Hd HD Hmc) as (first & Hst1 & H1).
  rewrite Hrefresh, Hroot, Z.eqb_refl in Hst1. cbn [andb] in Hst1. fold next in Hst1.
  set (I1 := set_i_dtsn_out next I) in *.
  set (st1 := RPL_STAT_inc dio_sent_m
                (call (uip_icmp6_send linklocal_rplnodes_mcast ICMP6_RPL RPL_CODE_DIO first)
                   (with_instance_table <[i := I1]> st))) in *.
  destruct (multicast_dio_state i I1 d D st1 Hleaf) as (second & Hst2 & H2);
    [apply lookup_insert_eq|exact Hd|exact HD|exact Hmc|].
  unfold I1 at 1 in Hst2. rewrite Hrefresh, Hrank, Hroot, Z.eqb_refl in Hst2.
  cbn [andb] in Hst2.
  exists st1. eexists. exists first, second.
  split; [exact Hst1|]. split; [exact Hst2|].
  split; [reflexivity|]. split; [reflexivity|]. split; [exact H1|].
  split; [rewrite H2; apply uint8_idem|]. split.
  - cbn. rewrite lookup_insert_eq. reflexivity.
  - cbn. rewrite lookup_insert_eq. reflexivity.
Qed.
End dio_dtsn.

(** ** The properties on the scenarios *)

Section neighbourhood_examples.
Import contiki scenarios traffic neighbourhood.

Lemma bytes_intro l : forallb (fun b => (0 <=? b) && (b <? 2 ^ 8)) l = true -> Forall byte l.
Proof.
  intros Hl. apply Forall_forall. intros b Hin. apply byte_intro.
  rewrite forallb_forall in Hl. apply Hl. apply list_elem_of_In. exact Hin.
Qed.

(** Two transmissions for a packet over a link of metric 128 (ETX 1.0)
    raise the metric to 140. *)
Lemma mrhof_etx_moving_average_witness :
  exists new_etx,
    rpl_mrhof.neighbor_link_callback (cfg := conf) 0%nat rpl_mrhof.MAC_TX_OK 2 boundary =
      Some (with_parent_table <[0%nat := set_link_metric new_etx boundary_p1]> boundary) /\
    new_etx = (90 * 128 + 10 * 256) / 100 /\
    Z.min 128 256 <= new_etx <= Z.max 128 256.
Proof.
  exact (mrhof_etx_moving_average (cfg := conf) 0%nat boundary_p1 rpl_mrhof.MAC_TX_OK 2
           boundary eq_refl).
Defined.

(** Through the parent of rank 256 and link metric 128: rank 384. *)
Lemma mrhof_calculate_rank_witness :
  rpl_mrhof.calculate_rank (cfg := conf) boundary (Some 0%nat) 0 = Some (Z.min (256 + 128) 65535) /\
  256 <= Z.min (256 + 128) 65535 <= 65535.
Proof.
  exact (mrhof_calculate_rank_saturates (cfg := conf) boundary 0%nat boundary_p1 0
           eq_refl ltac:(vm_compute; split; [discriminate|reflexivity])
           ltac:(vm_compute; split; discriminate)).
Defined.

(** The parent with ETX 2.0 (link metric 256): step 4, rank 256 + 4 * 256. *)
Lemma of0_rank_witness :
  1 <= 4 <= 9 /\
  rpl_of0.parent_rank_increase (cfg := conf) (env := ext) unknown_etx (Some 1%nat)
  = Some (4 * 256) /\
  rpl_of0.rank_via_parent (cfg := conf) (env := ext) unknown_etx (Some 1%nat)
  = Some (Z.min (256 + 4 * 256) 65535) /\
  256 < Z.min (256 + 4 * 256) 65535 <= 65535.
Proof.
  exact (of0_rank_through_acceptable_parent (cfg := conf) (env := ext) unknown_etx
           1%nat (mk_parent 256 256) 0%nat (mk_dag 1 0 0 768 NULL) 0%nat
           (mk_instance 2 true 30 60 1)
           eq_refl eq_refl eq_refl eq_refl eq_refl eq_refl
           ltac:(vm_compute; split; [discriminate|reflexivity]) eq_refl eq_refl eq_refl).
Defined.

(** The loops on the child's No-Path DAO, from the first option on. *)
Lemma option_loops_witness :
  (exists r, dao_options (cfg := conf) (Z.to_nat 30) (payload no_path_dao) 30 4 unset = Some r) /\
  (exists r, dao_options_ns (Z.to_nat 30) (payload no_path_dao) 30 4 unset = Some r) /\
  (30 + 257 <= 2 ^ 16 ->
   exists r, dco_options dco_fuel (payload no_path_dao) 30 4 unset = Some r).
Proof.
  exact (option_loops_end (cfg := conf) (payload no_path_dao) 30 4 unset
           (bytes_intro (payload no_path_dao) eq_refl) ltac:(vm_compute; discriminate)).
Defined.

(** The DIO with the overrunning option is counted and dropped. *)
Lemma dio_input_outcomes_witness :
  exists st',
    dio_input (cfg := conf) overrun_dio router = Some st' /\
    ((exists dio, st' = call (rpl_process_dio (parent_ipaddr 0) dio)
                          (RPL_STAT_inc dio_recvd router)) \/
     st' = RPL_STAT_inc malformed_msgs (RPL_STAT_inc dio_recvd router) \/
     st' = RPL_STAT_inc dio_recvd router).
Proof.
  exact (dio_input_outcomes (cfg := conf) overrun_dio router
           (bytes_intro (payload overrun_dio) eq_refl)).
Defined.

(** A DIO of no octets: what the buffer holds is processed as a DIO. *)
Lemma truncated_dio_witness :
  dio_input (cfg := conf) empty_dio router =
  Some (call (rpl_process_dio (parent_ipaddr 0)
                (dio_base (cfg := conf) (payload overrun_dio)))
          (RPL_STAT_inc dio_recvd router)).
Proof.
  exact (truncated_dio_is_processed (cfg := conf) empty_dio router
           ltac:(vm_compute; discriminate)).
Defined.

(** The router announces itself to its preferred parent with the
    lifetime 60: the DAO number 241 goes out twice, the second time with
    the default lifetime 30, and 320 ticks after the timer was armed
    again. *)
Lemma dao_retransmission_witness :
  exists st1 st2 delay,
    dao_output (cfg := conf) (env := ext) (Some 0%nat) 60 router = Some st1 /\
    handle_dao_retransmission (cfg := conf) (env := ext) (Some 0%nat) st1 = Some st2 /\
    trace st1 = trace router ++
      [ctimer_set_dao_retransmit 0 640 (Some 0%nat);
       uip_icmp6_send (parent_ipaddr 0) ICMP6_RPL RPL_CODE_DAO
         (dao_octets RPL_DAO_K_FLAG 241 me 4 240 60)] /\
    trace st2 = trace st1 ++
      [ctimer_set_dao_retransmit 0 delay (Some 0%nat);
       uip_icmp6_send (parent_ipaddr 0) ICMP6_RPL RPL_CODE_DAO
         (dao_octets RPL_DAO_K_FLAG 241 me 4 240 30)] /\
    (forall lt,
       rd (dao_octets (if negb (lt =? 0) then RPL_DAO_K_FLAG else 0) 241 me 4 240 lt) 3
       = 241) /\
    320 <= delay < 640 /\
    instance_table st1 !! 0%nat = Some (set_i_my_dao 241 1 (mk_instance 2 true 30 60 1)) /\
    instance_table st2 !! 0%nat = Some (set_i_my_dao 241 2 (mk_instance 2 true 30 60 1)) /\
    dao_sequence st2 = 241.
Proof.
  exact (dao_retransmission_repeats_the_dao (cfg := conf) (env := ext) router 0%nat
           (mk_parent 256 128) 0%nat (mk_dag 1 0 0 768 (Some 0%nat)) 0%nat
           (mk_instance 2 true 30 60 1) me (parent_ipaddr 0) 60
           eq_refl (fun _ => eq_refl) (fun _ => ltac:(vm_compute; discriminate))
           eq_refl eq_refl eq_refl eq_refl eq_refl eq_refl eq_refl
           ltac:(discriminate) eq_refl ltac:(vm_compute; discriminate)).
Defined.

(** The No-Path DAO that the preferred parent sends: the parent gets the
    rank [INFINITE_RANK], and that is all. *)
Lemma dao_loop_witness :
  dao_input_storing (cfg := conf) (env := ext) 0 no_path_dao_from_parent router =
  Some (with_parent_table
          <[0%nat := {| p_dag := Some 0%nat; p_rank := 65535; p_link_metric := 128;
                        p_flags := 1; p_mc := no_mc |}]>
          (RPL_STAT_inc dao_recvd router)).
Proof.
  exact (dao_from_loop_closing_parent (cfg := conf) (env := ext) 0
           no_path_dao_from_parent router 0%nat 0%nat 0%nat
           (mk_instance 2 true 30 60 1) (mk_dag 1 0 0 768 (Some 0%nat))
           (mk_parent 256 128)
           eq_refl eq_refl eq_refl eq_refl eq_refl
           (fun H => ltac:(discriminate H)) eq_refl eq_refl eq_refl
           (or_intror eq_refl)).
Defined.

(** The router with a full neighbour cache refuses the DAO that comes
    through the new neighbour: DAO-ACK with status 128. *)
Lemma dao_refused_full_cache_witness :
  dao_input_storing (cfg := conf) (env := ext) 0 moved_dao crowded =
  Some (with_trace
          (fun t => t ++ [uip_icmp6_send new_hop ICMP6_RPL RPL_CODE_DAO_ACK [30; 0; 8; 128]])
          (RPL_STAT_inc dao_recvd crowded)).
Proof.
  exact (dao_refused_by_full_neighbour_cache (cfg := conf) (env := ext) 0 moved_dao
           crowded 0%nat 0%nat (mk_instance 2 true 30 60 1)
           (mk_dag 1 0 0 768 (Some 0%nat)) (child_target 30 241)
           eq_refl eq_refl eq_refl eq_refl eq_refl
           (fun H => ltac:(discriminate H)) eq_refl I
           eq_refl ltac:(discriminate) eq_refl
           eq_refl eq_refl eq_refl).
Defined.

(** The router with a full route table takes the new neighbour into its
    cache, counts the overflow and refuses the DAO. *)
Lemma dao_refused_full_table_witness :
  dao_input_storing (cfg := conf) (env := ext) 0 moved_dao packed =
  Some (with_trace
          (fun t => t ++ [uip_icmp6_send new_hop ICMP6_RPL RPL_CODE_DAO_ACK [30; 0; 8; 128]])
          (RPL_STAT_inc mem_overflows
             (with_routes (fun _ => routes packed)
                (with_nbr_cache [new_hop] (RPL_STAT_inc dao_recvd packed))))).
Proof.
  exact (dao_refused_by_full_route_table (cfg := conf) (env := ext) 0 moved_dao
           packed 0%nat 0%nat (mk_instance 2 true 30 60 1)
           (mk_dag 1 0 0 768 (Some 0%nat)) (child_target 30 241)
           eq_refl eq_refl eq_refl eq_refl eq_refl
           (fun H => ltac:(discriminate H)) eq_refl I
           eq_refl ltac:(discriminate) eq_refl
           [new_hop] (routes packed) eq_refl eq_refl I eq_refl).
Defined.

(** The child moved from [fe80::9] to the new neighbour: the route is
    updated, the DAO goes to the preferred parent as number 241, and a
    DCO with path sequence 241 goes to [fe80::9]. *)
Lemma dao_route_update_witness :
  exists st',
    dao_input_storing (cfg := conf) (env := ext) 0 moved_dao router = Some st' /\
    routes st' =
      <[0%nat := {| r_ipaddr := child; r_length := 128; r_nexthop := Some new_hop;
                    r_state := {| rs_lifetime := 1800; rs_dao_seqno_in := 8;
                                  rs_dao_seqno_out := 241;
                                  rs_dao_path_sequence := 241;
                                  rs_dao_pending := true;
                                  rs_nopath_received := false |} |}]>
        {[ 0%nat := {| r_ipaddr := child; r_length := 128;
                       r_nexthop := Some new_hop;
                       r_state := r_state child_route |} ]} /\
    dao_sequence st' = 241 /\
    trace st' = trace router ++
      [uip_icmp6_send (parent_ipaddr 0) ICMP6_RPL RPL_CODE_DAO
         (dao_octets RPL_DAO_K_FLAG 241 child 4 241 30)] ++ [] ++
      [uip_icmp6_send child_ll ICMP6_RPL RPL_CODE_DCO
         (dao_octets RPL_DAO_K_FLAG 240 child 4 241 0)] /\
    dco_sequence st' = 241 /\
    nbr_cache st' = [new_hop].
Proof.
  exact (dao_route_update_and_dco (cfg := conf) (env := ext) 0 moved_dao router
           0%nat 0%nat (mk_instance 2 true 30 60 1)
           (mk_dag 1 0 0 768 (Some 0%nat)) (child_target 30 241)
           eq_refl eq_refl eq_refl eq_refl eq_refl
           (fun H => ltac:(discriminate H)) eq_refl I
           eq_refl ltac:(discriminate) eq_refl
           [new_hop] (Some 0%nat) child_ll 0%nat
           ({[ 0%nat := {| r_ipaddr := child; r_length := 128;
                           r_nexthop := Some new_hop;
                           r_state := r_state child_route |} ]}
            : gmap nat uip_ds6_route_t)
           {| r_ipaddr := child; r_length := 128; r_nexthop := Some new_hop;
              r_state := r_state child_route |}
           eq_refl eq_refl eq_refl (ex_intro _ child_route (conj eq_refl eq_refl))
           eq_refl eq_refl).
Defined.

(** The DAO of the moved child leaves the instance and the DAG of the
    router alone. *)
Lemma dao_keeps_topology_witness :
  exists st',
    dao_input_storing (cfg := conf) (env := ext) 0 moved_dao router = Some st' /\
    instance_table st' = instance_table router /\ dag_table st' = dag_table router /\
    addr_list st' = addr_list router /\ path_sequence st' = path_sequence router /\
    (parent_table st' = parent_table router \/
     exists pa P,
       parent_table router !! pa = Some P /\
       parent_table st' =
         <[pa := set_rank_flag 65535 1 P]> (parent_table router) /\
       routes st' = routes router /\ trace st' = trace router).
Proof.
  eexists. split; [vm_compute; reflexivity|].
  apply (dao_input_storing_keeps_topology (cfg := conf) (env := ext) 0 moved_dao router);
    vm_compute; reflexivity.
Defined.

(** The DCO of the preferred parent deletes the route to the child and
    nothing else. *)
Lemma dco_removes_one_route_witness :
  exists st',
    dco_input (cfg := conf) (env := ext) unset dco router = Some st' /\
    instance_table st' = instance_table router /\ dag_table st' = dag_table router /\
    parent_table st' = parent_table router /\ nbr_cache st' = nbr_cache router /\
    dao_sequence st' = dao_sequence router /\ dco_sequence st' = dco_sequence router /\
    (routes st' = routes router \/
     exists r R nh,
       routes router !! r = Some R /\ r_nexthop R = Some nh /\
       routes st' = delete r (routes router) /\
       exists acks,
         trace st' = trace router ++
           uip_icmp6_send nh ICMP6_RPL RPL_CODE_DCO
             (payload_bytes (payload dco) (uint16 (payload_len dco))) :: acks).
Proof.
  eexists. split; [vm_compute; reflexivity|].
  apply (dco_input_removes_at_most_one_route (cfg := conf) (env := ext) unset dco router);
    vm_compute; reflexivity.
Defined.

(** The DCO that a router sends for the child with path sequence 241
    arrives at the router that reaches the child through [fe80::9]: it
    goes on to [fe80::9] as it is. *)
Lemma dco_travels_witness :
  trace <$> dco_output (cfg := conf) 0 child child_ll 241 router
  = Some (trace router ++
            [uip_icmp6_send child_ll ICMP6_RPL RPL_CODE_DCO
               (dao_octets RPL_DAO_K_FLAG 240 child 4 241 0)]) /\
  exists st',
    dco_input (cfg := conf) (env := ext) unset
      (received (parent_ipaddr 0) (dao_octets RPL_DAO_K_FLAG 240 child 4 241 0)) router
    = Some st' /\
    routes st' = delete 0%nat (routes router) /\
    trace st' = trace router ++
      [uip_icmp6_send child_ll ICMP6_RPL RPL_CODE_DCO
         (dao_octets RPL_DAO_K_FLAG 240 child 4 241 0)] ++
      [uip_icmp6_send (parent_ipaddr 0) ICMP6_RPL RPL_CODE_DCO_ACK [30; 0; 240; 0]].
Proof.
  exact (dco_travels_unchanged (cfg := conf) (env := ext) router 0%nat
           (mk_instance 2 true 30 60 1) [] child child_ll 241 unset
           (received (parent_ipaddr 0) (dao_octets RPL_DAO_K_FLAG 240 child 4 241 0))
           router 0%nat (mk_instance 2 true 30 60 1) 0%nat child_route child_ll
           [0xaa; 0xbb]
           eq_refl eq_refl eq_refl
           (byte_intro 30 eq_refl) (byte_intro 240 eq_refl) (ipaddr_intro child eq_refl)
           (byte_intro 241 eq_refl)
           eq_refl eq_refl eq_refl eq_refl eq_refl eq_refl eq_refl eq_refl).
Defined.

(** The multicast DIS resets the DIO timer of the router's instance. *)
Lemma multicast_dis_witness :
  dis_input (cfg := conf) (env := ext) (tbl := tables) multicast_dis router =
  Some (with_trace (fun t => t ++ [rpl_reset_dio_timer 0]) router).
Proof.
  exact (multicast_dis_resets_dio_timers (cfg := conf) (env := ext) (tbl := tables)
           multicast_dis router eq_refl).
Defined.

(** With a full neighbour cache the unicast DIS gets no DIO. *)
Lemma unicast_dis_witness :
  dis_input (cfg := conf) (env := ext) (tbl := tables) unicast_dis crowded = Some crowded.
Proof.
  exact (unicast_dis_without_neighbour_entry (cfg := conf) (env := ext) (tbl := tables)
           unicast_dis crowded eq_refl eq_refl eq_refl).
Defined.

(** The unicast DIS from the child's neighbour is answered with the DIO
    of the router. *)
Lemma unicast_dis_answered_witness :
  exists buffer,
    dio_payload (cfg := conf) (mk_instance 2 true 30 60 1) (mk_dag 1 0 0 768 (Some 0%nat))
      (mk_instance 2 true 30 60 1) (mk_dag 1 0 0 768 (Some 0%nat)) = Some buffer /\
    dis_input (cfg := conf) (env := ext) (tbl := tables) unicast_dis router =
      Some (RPL_STAT_inc dio_sent_u
              (call (uip_icmp6_send child_ll ICMP6_RPL RPL_CODE_DIO buffer)
                 (with_nbr_cache [child_ll] router))) /\
    rd buffer 0 = 30 /\ rd buffer 5 = 240.
Proof.
  exact (unicast_dis_answered (cfg := conf) (env := ext) (tbl := tables) unicast_dis
           router (mk_instance 2 true 30 60 1) 0%nat (mk_dag 1 0 0 768 (Some 0%nat))
           [child_ll] eq_refl eq_refl eq_refl eq_refl eq_refl eq_refl eq_refl eq_refl).
Defined.

(** The preferred parent accepts the router's DAO number 241. *)
Lemma dao_ack_round_trip_witness :
  dao_ack_output (cfg := conf) 0 child_ll 241 0 router
  = Some (call (uip_icmp6_send child_ll ICMP6_RPL RPL_CODE_DAO_ACK [30; 0; 241; 0])
            router) /\
  dao_ack_input (cfg := conf) (env := ext) (tbl := tables) (dao_ack 241 0) router =
  Some (true,
        with_trace (fun t => t ++ [dao_ack_callback (Some 0%nat) 0] ++ [])
          (with_instance_table
             <[0%nat := set_i_has_downward_route 1 (mk_instance 2 true 30 60 1)]>
             router)).
Proof.
  exact (dao_ack_round_trip (cfg := conf) (env := ext) (tbl := tables) router 0%nat
           (mk_instance 2 true 30 60 1) child_ll 241 0 (dao_ack 241 0) router 0%nat
           (mk_instance 2 true 30 60 1) (Some 0%nat) [0xaa; 0xbb]
           eq_refl eq_refl eq_refl eq_refl eq_refl eq_refl
           (fun _ => ltac:(discriminate)) eq_refl).
Defined.

(** The DAO-ACK for the DAO of the second route, which the router passed
    on as number 242, goes to [fe80::9] as the answer to number 7; the
    route to the child, which comes first in the table and waits for the
    answer to number 200, stays as it is. *)
Lemma dao_ack_forwarded_witness :
  exists st',
    dao_ack_input (cfg := conf) (env := ext) (tbl := tables) (dao_ack 242 0) forwarded
    = Some (false, st') /\
    trace st' = trace forwarding ++
      [uip_icmp6_send child_ll ICMP6_RPL RPL_CODE_DAO_ACK [30; 0; 7; 0]] /\
    routes st' =
      <[1%nat := {| r_ipaddr := r_ipaddr (other_route 0); r_length := 128;
                    r_nexthop := Some child_ll;
                    r_state := {| rs_lifetime := 1800; rs_dao_seqno_in := 7;
                                  rs_dao_seqno_out := 242;
                                  rs_dao_path_sequence := 240;
                                  rs_dao_pending := false;
                                  rs_nopath_received := false |} |}]>
        (routes forwarding) /\
    instance_table st' = instance_table forwarding.
Proof.
  exact (dao_ack_returns_to_the_child (cfg := conf) (env := ext) (tbl := tables)
           forwarding 1%nat (other_route 0) child_ll 7 (dao_ack 242 0) forwarded 0%nat
           (mk_instance 2 true 30 60 1) [0%nat] []
           eq_refl eq_refl eq_refl eq_refl eq_refl eq_refl eq_refl
           ltac:(discriminate) eq_refl ltac:(discriminate) eq_refl
           ltac:(constructor; [eexists; split; reflexivity | constructor])
           ltac:(simpl; lia)).
Defined.

(** A DAO-ACK with the right number from a node that is not a parent. *)
Lemma dao_ack_ignored_witness :
  dao_ack_input (cfg := conf) (env := ext) (tbl := tables)
    (received child_ll [30; 0; 241; 0]) router
  = Some (false, router).
Proof.
  exact (dao_ack_ignored (cfg := conf) (env := ext) (tbl := tables)
           (received child_ll [30; 0; 241; 0]) router
           (or_intror (or_intror
              (ex_intro _ 0%nat (ex_intro _ (mk_instance 2 true 30 60 1)
                 (conj eq_refl (conj eq_refl (or_introl (conj eq_refl eq_refl))))))))).
Defined.

(** The root registers the link from the child to the parent's address
    under the prefix of the DAG, and accepts the DAO. *)
Lemma nonstoring_dao_witness :
  dao_input_nonstoring (cfg := non_storing_conf) (env := ext) (repeat 0 16) link_dao ns_root =
  Some (call (uip_icmp6_send child ICMP6_RPL RPL_CODE_DAO_ACK [30; 0; 241; 0]) ns_root).
Proof.
  exact (nonstoring_dao_registers_the_link (cfg := non_storing_conf) (env := ext)
           (mk_instance 1 true 30 60 1) (d_dag_id (mk_dag 1 0 0 768 (Some 0%nat)))
           RPL_DAO_K_FLAG 241 child 240 30 (parent_ipaddr 0) (repeat 0 16) link_dao ns_root
           0%nat (mk_instance 1 true 30 60 1) [0xaa; 0xbb]
           eq_refl (byte_intro 30 eq_refl) (byte_intro RPL_DAO_K_FLAG eq_refl)
           (byte_intro 241 eq_refl) (ipaddr_intro child eq_refl)
           (byte_intro 240 eq_refl) (byte_intro 30 eq_refl)
           (ipaddr_intro (d_dag_id (mk_dag 1 0 0 768 (Some 0%nat))) eq_refl)
           (ipaddr_intro (parent_ipaddr 0) eq_refl)
           eq_refl eq_refl eq_refl eq_refl eq_refl
           (fun H => ltac:(discriminate H))).
Defined.

(** Two DIOs of the root in a row: DTSN 240, then 241. *)
Lemma root_dio_dtsn_witness :
  exists st1 st2 first second,
    dio_output (cfg := conf) (env := ext) 0 None dag_root = Some st1 /\
    dio_output (cfg := conf) (env := ext) 0 None st1 = Some st2 /\
    trace st1 = trace dag_root ++
      [uip_icmp6_send (linklocal_rplnodes_mcast (rpl_conf := conf)) ICMP6_RPL
         RPL_CODE_DIO first] /\
    trace st2 = trace st1 ++
      [uip_icmp6_send (linklocal_rplnodes_mcast (rpl_conf := conf)) ICMP6_RPL
         RPL_CODE_DIO second] /\
    rd first 5 = 240 /\ rd second 5 = 241 /\
    (i_dtsn_out <$> instance_table st1 !! 0%nat) = Some 241 /\
    (i_dtsn_out <$> instance_table st2 !! 0%nat) = Some 242.
Proof.
  exact (root_dio_announces_the_next_dtsn (cfg := conf) (env := ext) 0%nat
           (mk_instance 2 true 30 60 1) 0%nat (mk_dag 1 1 0 256 NULL) dag_root
           eq_refl eq_refl eq_refl eq_refl eq_refl eq_refl eq_refl (fun _ => eq_refl)).
Defined.

End neighbourhood_examples.
